(** * Task management: store schema, row-level policies and page logic

    A shallow embedding of the parts of the task/time-tracking application
    that its specification makes claims about:

    - the relational store declared by the SQL migrations (tables
      [profiles], [projects], [project_members], [tasks], [time_logs],
      their defaults, constraints, row-level policies and triggers);
    - the data operations the pages issue against it (insert, update,
      delete, select), with the store passed explicitly and failures
      returned as an error value;
    - the page handlers of the React front end (Layout, Users,
      TimeTracking, Dashboard, Calendar, Projects, Tasks, and the task
      statistics and project progress of Reports), as functions on the
      component state and the store;
    - the expansion of the policies that precedes the evaluation of every
      statement, and the handlers against a store that may refuse it.

    Conventions.  A [uuid] and a [text] value are strings.  A
    [timestamptz] is an integer number of microseconds since the epoch (the
    resolution of the store), a [date] an integer day number since the
    epoch, a JavaScript [Date] an integer number of milliseconds since the
    epoch. *)

From Stdlib Require Import ZArith QArith List Ascii String Bool Lia Sorted.
Import ListNotations.

Open Scope string_scope.
Open Scope list_scope.
Open Scope Z_scope.

(* ===================================================================== *)
(** * Part I: definitions                                                 *)
(* ===================================================================== *)

(** ** Store primitives *)

Module Pg.

Definition uuid := string.
Definition text := string.
Definition timestamptz := Z.
Definition date := Z.

(** The failures a statement can end with. *)
Inductive error : Type :=
| invalid_text_representation   (* a literal the column type rejects *)
| not_null_violation
| check_violation
| unique_violation
| foreign_key_violation
| numeric_value_out_of_range
| row_level_security_violation  (* the new row fails WITH CHECK *)
| cardinality_violation         (* a scalar subquery returned two rows *)
| more_than_one_row.            (* .single() / .maybeSingle() *)

Inductive result (A : Type) : Type :=
| Ok (a : A)
| Err (e : error).
Arguments Ok {A} a.
Arguments Err {A} e.

Definition bind {A B : Type} (m : result A) (k : A -> result B) : result B :=
  match m with
  | Ok a => k a
  | Err e => Err e
  end.

Definition guard (b : bool) (e : error) : result unit :=
  if b then Ok tt else Err e.

Definition is_ok {A : Type} (m : result A) : bool :=
  match m with Ok _ => true | Err _ => false end.

(** One key of a JSON payload: the key is left out, it carries [null],
    or it carries a value. *)
Inductive field (A : Type) : Type :=
| Absent
| Null
| Val (a : A).
Arguments Absent {A}.
Arguments Null {A}.
Arguments Val {A} a.

(** The value written to a column by an INSERT: the column default when
    the key is left out. *)
Definition on_insert {A : Type} (default : option A) (f : field A) : option A :=
  match f with
  | Absent => default
  | Null => None
  | Val a => Some a
  end.

(** The value written to a column by an UPDATE: the old value when the
    column is not in the SET list. *)
Definition on_update {A : Type} (old : option A) (f : field A) : option A :=
  match f with
  | Absent => old
  | Null => None
  | Val a => Some a
  end.

(** A value sent for a typed column (uuid, date, timestamptz).  [Lit a] is
    a literal in the canonical form the client libraries print (an id read
    from the store, the output of [toISOString]), which the store reads
    back as [a]; [Text s] is a string typed into a form, which the
    column's input function accepts or rejects. *)
Inductive input (A : Type) : Type :=
| Lit (a : A)
| Text (s : string).
Arguments Lit {A} a.
Arguments Text {A} s.

(** The input functions of the typed columns; they belong to the store,
    not to this repository, and are taken as given. *)
Record syntax : Type := {
  uuid_in : string -> option uuid;
  date_in : string -> option date;
  timestamptz_in : string -> option timestamptz
}.

Definition read {A : Type} (parse : string -> option A) (v : input A) : result A :=
  match v with
  | Lit a => Ok a
  | Text s =>
      match parse s with
      | Some a => Ok a
      | None => Err invalid_text_representation
      end
  end.

Definition read_field {A : Type} (parse : string -> option A)
    (f : field (input A)) : result (field A) :=
  match f with
  | Absent => Ok Absent
  | Null => Ok Null
  | Val v => bind (read parse v) (fun a => Ok (Val a))
  end.

Definition not_null {A : Type} (o : option A) : result A :=
  match o with
  | Some a => Ok a
  | None => Err not_null_violation
  end.

(** [x = y] on a nullable column against a value: NULL never matches. *)
Definition eq_opt (o : option string) (s : string) : bool :=
  match o with
  | Some x => String.eqb x s
  | None => false
  end.

Definition mem (s : string) (l : list string) : bool :=
  existsb (String.eqb s) l.

Fixpoint no_dups (l : list string) : bool :=
  match l with
  | [] => true
  | x :: l' => negb (mem x l') && no_dups l'
  end.

(** A scalar subquery: no row gives NULL, one row its value, and more
    than one row is an error. *)
Definition scalar_subquery {A : Type} (rows : list A) : result (option A) :=
  match rows with
  | [] => Ok None
  | [a] => Ok (Some a)
  | _ :: _ :: _ => Err cardinality_violation
  end.

(** Runs a fallible row transformer over a table; the statement fails as
    a whole as soon as one row fails. *)
Fixpoint for_each_row {A : Type} (f : A -> result A) (l : list A)
    : result (list A) :=
  match l with
  | [] => Ok []
  | a :: l' =>
      bind (f a) (fun a' =>
      bind (for_each_row f l') (fun l'' => Ok (a' :: l'')))
  end.

(** *** Arithmetic of the duration trigger *)

(** [EXTRACT(EPOCH FROM iv)]: the seconds of an interval, exact to the
    microsecond. *)
Definition extract_epoch (interval : Z) : Q := interval # 1000000.

(** [EXTRACT] yields a [numeric].  The cast from [numeric] to [integer]
    rounds to the nearest integer, a half away from zero, and fails outside
    the 32-bit range. *)
Definition round_half_away (q : Q) : Z :=
  let n := Qnum q in
  let d := Zpos (Qden q) in
  Z.sgn n * ((2 * Z.abs n + d) / (2 * d)).

(** Division of [numeric] values keeps a number of decimals of the quotient
    chosen from its operands, and rounds the rest.  [numeric_div rscale]
    is the division that keeps [rscale] decimals.  For a quotient of
    seconds by 60 that fits the integer range the store keeps at least
    eight. *)
Definition numeric_div (rscale : nat) (a b : Q) : Q :=
  let unit := 10 ^ Z.of_nat rscale in
  round_half_away (a / b * (unit # 1)) # Z.to_pos unit.

Definition int4_min : Z := - 2147483648.
Definition int4_max : Z := 2147483647.

Definition in_int4 (z : Z) : bool := (int4_min <=? z) && (z <=? int4_max).

Definition numeric_to_int4 (q : Q) : result Z :=
  let z := round_half_away q in
  if in_int4 z then Ok z else Err numeric_value_out_of_range.

End Pg.

Notation "x <- m ;; k" := (Pg.bind m (fun x => k))
  (at level 61, m at next level, right associativity).

Notation "'doing' m ;; k" := (Pg.bind m (fun _ => k))
  (at level 61, m at next level, right associativity).

(** ** Tables *)

Module Profiles.
Record row : Type := {
  id : Pg.uuid;
  full_name : Pg.text;
  email : Pg.text;
  role : Pg.text;
  status : Pg.text;
  created_at : option Pg.timestamptz;
  updated_at : option Pg.timestamptz
}.

Definition role_check (r : Pg.text) : bool :=
  Pg.mem r ["admin"; "project_manager"; "employee"].
Definition status_check (s : Pg.text) : bool :=
  Pg.mem s ["active"; "inactive"].
End Profiles.

Module Projects.
Record row : Type := {
  id : Pg.uuid;
  name : Pg.text;
  description : option Pg.text;
  manager_id : option Pg.uuid;
  start_date : option Pg.date;
  end_date : option Pg.date;
  status : Pg.text;
  created_at : option Pg.timestamptz;
  updated_at : option Pg.timestamptz
}.

Definition status_check (s : Pg.text) : bool :=
  Pg.mem s ["planned"; "in_progress"; "completed"].
End Projects.

Module ProjectMembers.
Record row : Type := {
  id : Pg.uuid;
  project_id : Pg.uuid;
  user_id : Pg.uuid;
  created_at : option Pg.timestamptz
}.
End ProjectMembers.

Module Tasks.
Record row : Type := {
  id : Pg.uuid;
  name : Pg.text;
  description : option Pg.text;
  project_id : option Pg.uuid;
  assigned_to : option Pg.uuid;
  status : Pg.text;
  start_date : option Pg.date;
  end_date : option Pg.date;
  created_by : Pg.uuid;
  created_at : option Pg.timestamptz;
  updated_at : option Pg.timestamptz
}.

Definition status_check (s : Pg.text) : bool :=
  Pg.mem s ["to_do"; "in_progress"; "completed"; "on_hold"].
End Tasks.

Module TimeLogs.
Record row : Type := {
  id : Pg.uuid;
  user_id : Pg.uuid;
  task_id : Pg.uuid;
  project_id : option Pg.uuid;
  start_time : Pg.timestamptz;
  end_time : option Pg.timestamptz;
  duration_minutes : option Z;
  date : Pg.date;
  approval_status : Pg.text;
  created_at : option Pg.timestamptz;
  updated_at : option Pg.timestamptz
}.

Definition approval_status_check (s : Pg.text) : bool :=
  Pg.mem s ["pending"; "approved"; "rejected"].

Definition set_duration_minutes (d : option Z) (r : row) : row :=
  {| id := id r; user_id := user_id r; task_id := task_id r;
     project_id := project_id r; start_time := start_time r;
     end_time := end_time r; duration_minutes := d; date := date r;
     approval_status := approval_status r; created_at := created_at r;
     updated_at := updated_at r |}.

Definition set_updated_at (t : option Pg.timestamptz) (r : row) : row :=
  {| id := id r; user_id := user_id r; task_id := task_id r;
     project_id := project_id r; start_time := start_time r;
     end_time := end_time r; duration_minutes := duration_minutes r;
     date := date r; approval_status := approval_status r;
     created_at := created_at r; updated_at := t |}.

(** The trigger function [calculate_time_log_duration]:
    [IF NEW.end_time IS NOT NULL THEN
       NEW.duration_minutes = EXTRACT(EPOCH FROM (NEW.end_time - NEW.start_time)) / 60;
     ELSE NEW.duration_minutes = NULL; END IF; RETURN NEW;]
    The quotient is a [numeric]; the assignment to the [integer] column
    casts it.  The quotient is taken exactly here: the decimals the store
    keeps of it ([Pg.numeric_div]) do not change the integer the cast
    gives. *)
Definition calculate_time_log_duration (NEW : row) : Pg.result row :=
  match end_time NEW with
  | Some e =>
      d <- Pg.numeric_to_int4
             (Pg.extract_epoch (e - start_time NEW) / (60 # 1))%Q ;;
      Pg.Ok (set_duration_minutes (Some d) NEW)
  | None => Pg.Ok (set_duration_minutes None NEW)
  end.

(** The trigger function [update_updated_at_column]. *)
Definition update_updated_at_column (now : Pg.timestamptz) (NEW : row) : row :=
  set_updated_at (Some now) NEW.
End TimeLogs.

(** ** The store *)

Record database : Type := {
  profiles : list Profiles.row;
  projects : list Projects.row;
  project_members : list ProjectMembers.row;
  tasks : list Tasks.row;
  time_logs : list TimeLogs.row
}.

Definition with_profiles (l : list Profiles.row) (db : database) : database :=
  {| profiles := l; projects := projects db;
     project_members := project_members db; tasks := tasks db;
     time_logs := time_logs db |}.

Definition with_projects (l : list Projects.row) (db : database) : database :=
  {| profiles := profiles db; projects := l;
     project_members := project_members db; tasks := tasks db;
     time_logs := time_logs db |}.

Definition with_time_logs (l : list TimeLogs.row) (db : database) : database :=
  {| profiles := profiles db; projects := projects db;
     project_members := project_members db; tasks := tasks db;
     time_logs := l |}.

(** ** Row-level policies

    Every policy is declared [TO authenticated]; [uid] is the value of
    [auth.uid()] for the statement.  The policies of one command are
    permissive: their [USING] expressions are joined by OR, and so are
    their [WITH CHECK] expressions.  Subqueries read the tables as they
    are when the statement starts; the rows they look for (the caller's
    own profile, the projects the caller manages, the caller's own
    memberships and tasks) are rows the caller may read, so the policies
    of the tables they read do not hide them.

    [Policy] gives what the policy expressions evaluate to.  Before it
    evaluates them the store expands them, and it refuses a policy that
    reads, directly or through the policies of another table, the table
    it belongs to; the policies as the migrations create them are of
    that kind.  The expansion is [Rls], below; the handlers of the pages
    with the refusal taken into account are the [Deployed...] modules. *)

Module Policy.

(** [EXISTS (SELECT 1 FROM profiles WHERE profiles.id = auth.uid()
             AND profiles.role = 'admin')], as evaluated in a statement
    whose policies have been expanded ([Rls]). *)
Definition is_admin (db : database) (uid : Pg.uuid) : bool :=
  existsb (fun p => String.eqb (Profiles.id p) uid
                    && String.eqb (Profiles.role p) "admin")
          (profiles db).

(** [EXISTS (SELECT 1 FROM projects WHERE projects.id = <project_id>
             AND projects.manager_id = auth.uid())] *)
Definition manages (db : database) (uid : Pg.uuid) (project_id : option Pg.uuid)
    : bool :=
  existsb (fun p => Pg.eq_opt project_id (Projects.id p)
                    && Pg.eq_opt (Projects.manager_id p) uid)
          (projects db).

(** [EXISTS (SELECT 1 FROM project_members
             WHERE project_members.project_id = <project_id>
             AND project_members.user_id = auth.uid())], as evaluated in a
    statement whose policies have been expanded ([Rls]). *)
Definition member_of (db : database) (uid : Pg.uuid) (project_id : option Pg.uuid)
    : bool :=
  existsb (fun m => Pg.eq_opt project_id (ProjectMembers.project_id m)
                    && String.eqb (ProjectMembers.user_id m) uid)
          (project_members db).

(** *** profiles *)

(** "Users can view own profile", "Admins can view all profiles", as
    evaluated in a statement whose policies have been expanded ([Rls]). *)
Definition profiles_select (db : database) (uid : Pg.uuid) (r : Profiles.row)
    : bool :=
  String.eqb uid (Profiles.id r) || is_admin db uid.

(** "Users can update own profile", [USING (auth.uid() = id)]. *)
Definition profiles_update_own_using (uid : Pg.uuid) (r : Profiles.row) : bool :=
  String.eqb uid (Profiles.id r).

(** "Users can update own profile",
    [WITH CHECK (auth.uid() = id
       AND role = (SELECT role FROM profiles WHERE id = auth.uid())
       AND status = (SELECT status FROM profiles WHERE id = auth.uid()))]. *)
Definition profiles_update_own_check (db : database) (uid : Pg.uuid)
    (NEW : Profiles.row) : Pg.result bool :=
  let mine := filter (fun p => String.eqb (Profiles.id p) uid) (profiles db) in
  if String.eqb uid (Profiles.id NEW) then
    r <- Pg.scalar_subquery (map Profiles.role mine) ;;
    if Pg.eq_opt r (Profiles.role NEW) then
      s <- Pg.scalar_subquery (map Profiles.status mine) ;;
      Pg.Ok (Pg.eq_opt s (Profiles.status NEW))
    else Pg.Ok false
  else Pg.Ok false.

(** "Admins can update all profiles": the same expression in [USING] and
    in [WITH CHECK]. *)
Definition profiles_update_admin (db : database) (uid : Pg.uuid) : bool :=
  is_admin db uid.

Definition profiles_update_using (db : database) (uid : Pg.uuid)
    (OLD : Profiles.row) : bool :=
  profiles_update_own_using uid OLD || profiles_update_admin db uid.

Definition profiles_update_check (db : database) (uid : Pg.uuid)
    (NEW : Profiles.row) : Pg.result bool :=
  if profiles_update_admin db uid then Pg.Ok true
  else profiles_update_own_check db uid NEW.

(** *** projects *)

(** "Admins can view all projects", "Project managers can view their
    projects", "Project members can view assigned projects". *)
Definition projects_select (db : database) (uid : Pg.uuid) (r : Projects.row)
    : bool :=
  is_admin db uid
  || (Pg.eq_opt (Projects.manager_id r) uid
      || existsb (fun p => String.eqb (Profiles.id p) uid
                           && Pg.mem (Profiles.role p) ["admin"; "project_manager"])
                 (profiles db))
  || member_of db uid (Some (Projects.id r)).

(** "Admins can insert projects". *)
Definition projects_insert_check (db : database) (uid : Pg.uuid)
    (NEW : Projects.row) : bool :=
  is_admin db uid.

(** "Admins can update all projects" and "Project managers can update
    their projects"; each has the same expression in [USING] and in
    [WITH CHECK]. *)
Definition projects_update_using (db : database) (uid : Pg.uuid)
    (OLD : Projects.row) : bool :=
  is_admin db uid || Pg.eq_opt (Projects.manager_id OLD) uid.

Definition projects_update_check (db : database) (uid : Pg.uuid)
    (NEW : Projects.row) : bool :=
  is_admin db uid || Pg.eq_opt (Projects.manager_id NEW) uid.

(** *** tasks *)

(** "Users can view own tasks", "Admins can view all tasks", "Project
    managers can view project tasks", "Project members can view project
    tasks". *)
Definition tasks_select (db : database) (uid : Pg.uuid) (r : Tasks.row) : bool :=
  (Pg.eq_opt (Tasks.assigned_to r) uid || String.eqb (Tasks.created_by r) uid)
  || is_admin db uid
  || manages db uid (Tasks.project_id r)
  || member_of db uid (Tasks.project_id r).

(** *** time_logs *)

(** "Users can view own time logs", "Admins can view all time logs",
    "Project managers can view project time logs". *)
Definition time_logs_select (db : database) (uid : Pg.uuid) (r : TimeLogs.row)
    : bool :=
  String.eqb (TimeLogs.user_id r) uid
  || is_admin db uid
  || manages db uid (TimeLogs.project_id r).

(** "Users can create time logs":
    [WITH CHECK (user_id = auth.uid() AND EXISTS (SELECT 1 FROM tasks
       WHERE tasks.id = task_id
       AND (tasks.assigned_to = auth.uid() OR tasks.created_by = auth.uid())))]. *)
Definition time_logs_insert_check (db : database) (uid : Pg.uuid)
    (NEW : TimeLogs.row) : bool :=
  String.eqb (TimeLogs.user_id NEW) uid
  && existsb (fun t => String.eqb (Tasks.id t) (TimeLogs.task_id NEW)
                       && (Pg.eq_opt (Tasks.assigned_to t) uid
                           || String.eqb (Tasks.created_by t) uid))
             (tasks db).

(** "Users can update own time logs" and "Admins can update all time
    logs". *)
Definition time_logs_update_using (db : database) (uid : Pg.uuid)
    (OLD : TimeLogs.row) : bool :=
  (String.eqb (TimeLogs.user_id OLD) uid
   && (String.eqb (TimeLogs.approval_status OLD) "pending"
       || String.eqb (TimeLogs.approval_status OLD) "approved"))
  || is_admin db uid.

Definition time_logs_update_check (db : database) (uid : Pg.uuid)
    (NEW : TimeLogs.row) : bool :=
  String.eqb (TimeLogs.user_id NEW) uid || is_admin db uid.


(** "Users can delete own time logs" and "Admins can delete time logs". *)
Definition time_logs_delete_using (db : database) (uid : Pg.uuid)
    (OLD : TimeLogs.row) : bool :=
  (String.eqb (TimeLogs.user_id OLD) uid
   && String.eqb (TimeLogs.approval_status OLD) "pending")
  || is_admin db uid.

(** "Users can create tasks":
    [WITH CHECK (created_by = auth.uid() AND (project_id IS NULL
       OR EXISTS (... profiles.role = 'admin')
       OR EXISTS (... projects.id = project_id AND projects.manager_id = auth.uid())
       OR EXISTS (... project_members.project_id = tasks.project_id
                      AND project_members.user_id = auth.uid())))]. *)
Definition tasks_insert_check (db : database) (uid : Pg.uuid) (NEW : Tasks.row)
    : bool :=
  String.eqb (Tasks.created_by NEW) uid
  && (match Tasks.project_id NEW with None => true | Some _ => false end
      || is_admin db uid
      || manages db uid (Tasks.project_id NEW)
      || member_of db uid (Tasks.project_id NEW)).

(** "Users can update own tasks", "Admins can update all tasks" and
    "Project managers can update project tasks"; each has the same
    expression in [USING] (on the stored row) and in [WITH CHECK] (on the
    new row). *)
Definition tasks_update_using (db : database) (uid : Pg.uuid) (r : Tasks.row)
    : bool :=
  (String.eqb (Tasks.created_by r) uid || Pg.eq_opt (Tasks.assigned_to r) uid)
  || is_admin db uid
  || manages db uid (Tasks.project_id r).

(** "Admins can delete tasks". *)
Definition tasks_delete_using (db : database) (uid : Pg.uuid) (OLD : Tasks.row)
    : bool :=
  is_admin db uid.

(** "Admins can delete projects". *)
Definition projects_delete_using (db : database) (uid : Pg.uuid)
    (OLD : Projects.row) : bool :=
  is_admin db uid.

End Policy.

(** ** Expansion of the policies

    Before the store evaluates a statement of a role that is subject to
    row-level security it rewrites the statement with the policies of its
    table: the policies of the statement's command, and the SELECT
    policies too where the statement reads the table (a WHERE clause, a
    RETURNING list).  A sub-select inside a policy expression is rewritten
    in turn with the SELECT policies of the table it reads.  A table met
    again while its own policies are being expanded ends the statement
    with "infinite recursion detected in policy for relation" (SQLSTATE
    42P17).  This happens while the statement is rewritten: it does not
    depend on the rows, on the caller or on which policy would have
    passed.

    [Policy] above gives what each policy expression evaluates to once the
    statement has been expanded; [Rls] gives the expansion.  The policies
    of [notifications] are left out: no statement of the pages, and no
    policy of another table, reads that table. *)

Module Rls.
Inductive relation : Type :=
| profiles
| projects
| project_members
| tasks
| time_logs.

Inductive command : Type :=
| SELECT
| INSERT
| UPDATE
| DELETE.

Definition relation_eqb (a b : relation) : bool :=
  match a, b with
  | profiles, profiles => true
  | projects, projects => true
  | project_members, project_members => true
  | tasks, tasks => true
  | time_logs, time_logs => true
  | _, _ => false
  end.

Definition command_eqb (a b : command) : bool :=
  match a, b with
  | SELECT, SELECT => true
  | INSERT, INSERT => true
  | UPDATE, UPDATE => true
  | DELETE, DELETE => true
  | _, _ => false
  end.

(** A policy as far as its expansion goes: its table, its command, and
    the tables read by the sub-selects of its [USING] and [WITH CHECK]
    expressions, in the order they are written.  (Every sub-select of the
    policies below reads one table; [auth.uid()] is a function call, not
    a sub-select.) *)
Record policy : Type := {
  name : string;
  table : relation;
  command_of : command;
  reads : list relation
}.

(** The policies the migrations create, all of them [TO authenticated]. *)
Definition shipped : list policy :=
  [ {| name := "Users can view own profile"; table := profiles;
       command_of := SELECT; reads := [] |};
    {| name := "Admins can view all profiles"; table := profiles;
       command_of := SELECT; reads := [profiles] |};
    {| name := "Users can update own profile"; table := profiles;
       command_of := UPDATE; reads := [profiles; profiles] |};
    {| name := "Admins can insert profiles"; table := profiles;
       command_of := INSERT; reads := [profiles] |};
    {| name := "Admins can update all profiles"; table := profiles;
       command_of := UPDATE; reads := [profiles; profiles] |};
    {| name := "Admins can delete profiles"; table := profiles;
       command_of := DELETE; reads := [profiles] |};
    {| name := "Admins can view all projects"; table := projects;
       command_of := SELECT; reads := [profiles] |};
    {| name := "Project managers can view their projects"; table := projects;
       command_of := SELECT; reads := [profiles] |};
    {| name := "Project members can view assigned projects"; table := projects;
       command_of := SELECT; reads := [project_members] |};
    {| name := "Admins can insert projects"; table := projects;
       command_of := INSERT; reads := [profiles] |};
    {| name := "Admins can update all projects"; table := projects;
       command_of := UPDATE; reads := [profiles; profiles] |};
    {| name := "Project managers can update their projects"; table := projects;
       command_of := UPDATE; reads := [] |};
    {| name := "Admins can delete projects"; table := projects;
       command_of := DELETE; reads := [profiles] |};
    {| name := "Users can view project members"; table := project_members;
       command_of := SELECT; reads := [profiles; projects; project_members] |};
    {| name := "Admins can insert project members"; table := project_members;
       command_of := INSERT; reads := [profiles] |};
    {| name := "Admins can delete project members"; table := project_members;
       command_of := DELETE; reads := [profiles] |};
    {| name := "Users can view own tasks"; table := tasks;
       command_of := SELECT; reads := [] |};
    {| name := "Admins can view all tasks"; table := tasks;
       command_of := SELECT; reads := [profiles] |};
    {| name := "Project managers can view project tasks"; table := tasks;
       command_of := SELECT; reads := [projects] |};
    {| name := "Project members can view project tasks"; table := tasks;
       command_of := SELECT; reads := [project_members] |};
    {| name := "Users can create tasks"; table := tasks;
       command_of := INSERT; reads := [profiles; projects; project_members] |};
    {| name := "Users can update own tasks"; table := tasks;
       command_of := UPDATE; reads := [] |};
    {| name := "Admins can update all tasks"; table := tasks;
       command_of := UPDATE; reads := [profiles; profiles] |};
    {| name := "Project managers can update project tasks"; table := tasks;
       command_of := UPDATE; reads := [projects; projects] |};
    {| name := "Admins can delete tasks"; table := tasks;
       command_of := DELETE; reads := [profiles] |};
    {| name := "Users can view own time logs"; table := time_logs;
       command_of := SELECT; reads := [] |};
    {| name := "Admins can view all time logs"; table := time_logs;
       command_of := SELECT; reads := [profiles] |};
    {| name := "Project managers can view project time logs";
       table := time_logs; command_of := SELECT; reads := [projects] |};
    {| name := "Users can create time logs"; table := time_logs;
       command_of := INSERT; reads := [tasks] |};
    {| name := "Users can update own time logs"; table := time_logs;
       command_of := UPDATE; reads := [] |};
    {| name := "Admins can update all time logs"; table := time_logs;
       command_of := UPDATE; reads := [profiles; profiles] |};
    {| name := "Users can delete own time logs"; table := time_logs;
       command_of := DELETE; reads := [] |};
    {| name := "Admins can delete time logs"; table := time_logs;
       command_of := DELETE; reads := [profiles] |} ].

(** The policies that apply to a statement on [r]: those of [r] for one
    of the commands [cs] (the statement's own and, where it reads the
    table, SELECT). *)
Definition applicable (ps : list policy) (r : relation) (cs : list command)
    : list policy :=
  filter (fun p => relation_eqb (table p) r
                   && existsb (command_eqb (command_of p)) cs)
         ps.

(** The tables the sub-selects of those policies read. *)
Definition sub_selects (ps : list policy) (r : relation) (cs : list command)
    : list relation :=
  flat_map reads (applicable ps r cs).

Inductive verdict : Type :=
| expanded
| infinite_recursion   (* SQLSTATE 42P17 *)
| out_of_fuel.

Fixpoint first_refusal (vs : list verdict) : verdict :=
  match vs with
  | [] => expanded
  | expanded :: vs' => first_refusal vs'
  | v :: _ => v
  end.

(** The expansion of the policies of [r], the tables in [active] being
    those whose policies are being expanded around it.  Policies without
    a sub-select need no further expansion.  [fuel] bounds the nesting:
    five tables nest five deep at most (see [walk_has_fuel]). *)
Fixpoint walk (fuel : nat) (ps : list policy) (active : list relation)
    (r : relation) (cs : list command) {struct fuel} : verdict :=
  match sub_selects ps r cs with
  | [] => expanded
  | r1 :: rs =>
      if existsb (relation_eqb r) active then infinite_recursion
      else match fuel with
           | O => out_of_fuel
           | S n =>
               first_refusal
                 (map (fun r' => walk n ps (r :: active) r' [SELECT])
                      (r1 :: rs))
           end
  end.

Definition expand (ps : list policy) (r : relation) (cs : list command)
    : verdict :=
  walk 5 ps [] r cs.

(** The statement is expanded and goes on to be evaluated. *)
Definition accepted (ps : list policy) (r : relation) (cs : list command)
    : bool :=
  match expand ps r cs with
  | expanded => true
  | _ => false
  end.
End Rls.

(** ** Payloads

    The columns a request body may carry.  The pages never send [id],
    [created_at] or [updated_at] for [projects] and [time_logs]; those
    columns always take their defaults ([gen_random_uuid()], [now()]). *)

Module ProfilesValues.
Record t : Type := {
  id : Pg.field (Pg.input Pg.uuid);
  full_name : Pg.field Pg.text;
  email : Pg.field Pg.text;
  role : Pg.field Pg.text;
  status : Pg.field Pg.text
}.
End ProfilesValues.

Module ProjectsValues.
Record t : Type := {
  name : Pg.field Pg.text;
  description : Pg.field Pg.text;
  manager_id : Pg.field (Pg.input Pg.uuid);
  start_date : Pg.field (Pg.input Pg.date);
  end_date : Pg.field (Pg.input Pg.date);
  status : Pg.field Pg.text
}.
End ProjectsValues.

Module TasksValues.
Record t : Type := {
  name : Pg.field Pg.text;
  description : Pg.field Pg.text;
  project_id : Pg.field (Pg.input Pg.uuid);
  assigned_to : Pg.field (Pg.input Pg.uuid);
  status : Pg.field Pg.text;
  start_date : Pg.field (Pg.input Pg.date);
  end_date : Pg.field (Pg.input Pg.date);
  created_by : Pg.field (Pg.input Pg.uuid)
}.
End TasksValues.

Module TimeLogsValues.
Record t : Type := {
  user_id : Pg.field (Pg.input Pg.uuid);
  task_id : Pg.field (Pg.input Pg.uuid);
  project_id : Pg.field (Pg.input Pg.uuid);
  start_time : Pg.field (Pg.input Pg.timestamptz);
  end_time : Pg.field (Pg.input Pg.timestamptz);
  duration_minutes : Pg.field Z;
  date : Pg.field (Pg.input Pg.date);
  approval_status : Pg.field Pg.text
}.
End TimeLogsValues.

Notation "'assert' b 'otherwise' e ;; k" :=
  (Pg.bind (Pg.guard b e) (fun _ => k))
  (at level 61, b at next level, e at next level, right associativity).

(** ** Statements

    Each statement takes the store and returns the new store or the error
    it ends with; a failed statement changes nothing.  When a row breaks
    several rules at once the model reports the first it meets; which one
    the store reports is not relied upon. *)

Module Store.

(** A foreign key on a nullable column. *)
Definition references (key : option Pg.uuid) (ids : list Pg.uuid) : bool :=
  match key with
  | Some k => Pg.mem k ids
  | None => true
  end.

(** [ORDER BY ... DESC]: NULLs come first. *)
Definition desc (x y : option Z) : bool :=
  match x, y with
  | None, _ => true
  | Some _, None => false
  | Some a, Some b => b <=? a
  end.

Fixpoint insert_sorted {A : Type} (before : A -> A -> bool) (a : A) (l : list A)
    : list A :=
  match l with
  | [] => [a]
  | b :: l' => if before a b then a :: l else b :: insert_sorted before a l'
  end.

Definition order_by {A : Type} (before : A -> A -> bool) (l : list A) : list A :=
  fold_right (insert_sorted before) [] l.

(** *** profiles *)

Section ProfilesStatements.
Variable sx : Pg.syntax.
Variable db : database.
Variable uid : Pg.uuid.
Variable now : Pg.timestamptz.

(** Any column of another table that references [profiles(id)]; the
    references restrict a change of the key. *)
Definition profile_referenced (i : Pg.uuid) : bool :=
  existsb (fun p => Pg.eq_opt (Projects.manager_id p) i) (projects db)
  || existsb (fun m => String.eqb (ProjectMembers.user_id m) i) (project_members db)
  || existsb (fun t => Pg.eq_opt (Tasks.assigned_to t) i
                       || String.eqb (Tasks.created_by t) i) (tasks db)
  || existsb (fun l => String.eqb (TimeLogs.user_id l) i) (time_logs db).

(** One row of [UPDATE profiles SET ... WHERE ...]: the new row, the
    [BEFORE UPDATE] trigger, the policies on the new row, the
    constraints. *)
Definition profiles_update_row (v : ProfilesValues.t)
    (new_id : Pg.field Pg.uuid) (OLD : Profiles.row) : Pg.result Profiles.row :=
  i <- Pg.not_null (Pg.on_update (Some (Profiles.id OLD)) new_id) ;;
  n <- Pg.not_null (Pg.on_update (Some (Profiles.full_name OLD))
                                 (ProfilesValues.full_name v)) ;;
  e <- Pg.not_null (Pg.on_update (Some (Profiles.email OLD))
                                 (ProfilesValues.email v)) ;;
  r <- Pg.not_null (Pg.on_update (Some (Profiles.role OLD))
                                 (ProfilesValues.role v)) ;;
  s <- Pg.not_null (Pg.on_update (Some (Profiles.status OLD))
                                 (ProfilesValues.status v)) ;;
  let NEW := {| Profiles.id := i; Profiles.full_name := n;
                Profiles.email := e; Profiles.role := r;
                Profiles.status := s;
                Profiles.created_at := Profiles.created_at OLD;
                Profiles.updated_at := Some now |} in
  allowed <- Policy.profiles_update_check db uid NEW ;;
  assert (allowed && Policy.profiles_select db uid NEW)
    otherwise Pg.row_level_security_violation ;;
  assert (Profiles.role_check r) otherwise Pg.check_violation ;;
  assert (Profiles.status_check s) otherwise Pg.check_violation ;;
  assert (String.eqb i (Profiles.id OLD) || negb (profile_referenced (Profiles.id OLD)))
    otherwise Pg.foreign_key_violation ;;
  Pg.Ok NEW.

(** [supabase.from('profiles').update(v).<filter>]: the rows the filter
    selects, among those the caller may see and may update. *)
Definition profiles_update (v : ProfilesValues.t)
    (selected : Profiles.row -> bool) : Pg.result database :=
  new_id <- Pg.read_field (Pg.uuid_in sx) (ProfilesValues.id v) ;;
  rows <- Pg.for_each_row
            (fun OLD =>
               if selected OLD && Policy.profiles_select db uid OLD
                  && Policy.profiles_update_using db uid OLD
               then profiles_update_row v new_id OLD
               else Pg.Ok OLD)
            (profiles db) ;;
  assert (Pg.no_dups (map Profiles.id rows)) otherwise Pg.unique_violation ;;
  assert (Pg.no_dups (map Profiles.email rows)) otherwise Pg.unique_violation ;;
  Pg.Ok (with_profiles rows db).

(** [supabase.from('profiles').select('*').<filter>] *)
Definition profiles_select (selected : Profiles.row -> bool)
    : list Profiles.row :=
  filter (fun r => Policy.profiles_select db uid r && selected r) (profiles db).
End ProfilesStatements.

(** *** projects *)

Section ProjectsStatements.
Variable sx : Pg.syntax.
Variable db : database.
Variable uid : Pg.uuid.

(** [supabase.from('projects').insert([v])] *)
Definition projects_insert (new_id : Pg.uuid) (now : Pg.timestamptz)
    (v : ProjectsValues.t) : Pg.result database :=
  m <- Pg.read_field (Pg.uuid_in sx) (ProjectsValues.manager_id v) ;;
  sd <- Pg.read_field (Pg.date_in sx) (ProjectsValues.start_date v) ;;
  ed <- Pg.read_field (Pg.date_in sx) (ProjectsValues.end_date v) ;;
  n <- Pg.not_null (Pg.on_insert None (ProjectsValues.name v)) ;;
  s <- Pg.not_null (Pg.on_insert (Some "planned") (ProjectsValues.status v)) ;;
  let NEW := {| Projects.id := new_id; Projects.name := n;
                Projects.description :=
                  Pg.on_insert None (ProjectsValues.description v);
                Projects.manager_id := Pg.on_insert None m;
                Projects.start_date := Pg.on_insert None sd;
                Projects.end_date := Pg.on_insert None ed;
                Projects.status := s;
                Projects.created_at := Some now;
                Projects.updated_at := Some now |} in
  assert (Policy.projects_insert_check db uid NEW)
    otherwise Pg.row_level_security_violation ;;
  assert (Projects.status_check s) otherwise Pg.check_violation ;;
  assert (negb (Pg.mem new_id (map Projects.id (projects db))))
    otherwise Pg.unique_violation ;;
  assert (references (Projects.manager_id NEW) (map Profiles.id (profiles db)))
    otherwise Pg.foreign_key_violation ;;
  Pg.Ok (with_projects (projects db ++ [NEW]) db).

(** One row of [UPDATE projects SET ... WHERE ...], with the
    [BEFORE UPDATE] trigger [update_projects_updated_at]. *)
Definition projects_update_row (now : Pg.timestamptz) (v : ProjectsValues.t)
    (m : Pg.field Pg.uuid) (sd ed : Pg.field Pg.date) (OLD : Projects.row)
    : Pg.result Projects.row :=
  n <- Pg.not_null (Pg.on_update (Some (Projects.name OLD))
                                 (ProjectsValues.name v)) ;;
  s <- Pg.not_null (Pg.on_update (Some (Projects.status OLD))
                                 (ProjectsValues.status v)) ;;
  let NEW := {| Projects.id := Projects.id OLD; Projects.name := n;
                Projects.description :=
                  Pg.on_update (Projects.description OLD)
                               (ProjectsValues.description v);
                Projects.manager_id :=
                  Pg.on_update (Projects.manager_id OLD) m;
                Projects.start_date :=
                  Pg.on_update (Projects.start_date OLD) sd;
                Projects.end_date := Pg.on_update (Projects.end_date OLD) ed;
                Projects.status := s;
                Projects.created_at := Projects.created_at OLD;
                Projects.updated_at := Some now |} in
  assert (Policy.projects_update_check db uid NEW
          && Policy.projects_select db uid NEW)
    otherwise Pg.row_level_security_violation ;;
  assert (Projects.status_check s) otherwise Pg.check_violation ;;
  assert (references (Projects.manager_id NEW) (map Profiles.id (profiles db)))
    otherwise Pg.foreign_key_violation ;;
  Pg.Ok NEW.

(** [supabase.from('projects').update(v).<filter>] *)
Definition projects_update (now : Pg.timestamptz) (v : ProjectsValues.t)
    (selected : Projects.row -> bool) : Pg.result database :=
  m <- Pg.read_field (Pg.uuid_in sx) (ProjectsValues.manager_id v) ;;
  sd <- Pg.read_field (Pg.date_in sx) (ProjectsValues.start_date v) ;;
  ed <- Pg.read_field (Pg.date_in sx) (ProjectsValues.end_date v) ;;
  rows <- Pg.for_each_row
            (fun OLD =>
               if selected OLD && Policy.projects_select db uid OLD
                  && Policy.projects_update_using db uid OLD
               then projects_update_row now v m sd ed OLD
               else Pg.Ok OLD)
            (projects db) ;;
  Pg.Ok (with_projects rows db).

(** [supabase.from('projects').select('*')
      .order('created_at', { ascending: false })] *)
Definition projects_select_ordered : list Projects.row :=
  order_by (fun a b => desc (Projects.created_at a) (Projects.created_at b))
           (filter (Policy.projects_select db uid) (projects db)).
End ProjectsStatements.

(** *** tasks *)

(** [supabase.from('tasks').select(...).<filter>] *)
Definition tasks_select (db : database) (uid : Pg.uuid)
    (selected : Tasks.row -> bool) : list Tasks.row :=
  filter (fun r => Policy.tasks_select db uid r && selected r) (tasks db).

(** *** time_logs *)

Section TimeLogsStatements.
Variable sx : Pg.syntax.
Variable db : database.
Variable uid : Pg.uuid.

Definition time_logs_constraints (NEW : TimeLogs.row) : Pg.result unit :=
  assert (TimeLogs.approval_status_check (TimeLogs.approval_status NEW))
    otherwise Pg.check_violation ;;
  assert (Pg.mem (TimeLogs.user_id NEW) (map Profiles.id (profiles db)))
    otherwise Pg.foreign_key_violation ;;
  assert (Pg.mem (TimeLogs.task_id NEW) (map Tasks.id (tasks db)))
    otherwise Pg.foreign_key_violation ;;
  assert (references (TimeLogs.project_id NEW) (map Projects.id (projects db)))
    otherwise Pg.foreign_key_violation ;;
  Pg.Ok tt.

(** The typed columns of a payload, read by their input functions. *)
Record typed : Type := {
  t_user_id : Pg.field Pg.uuid;
  t_task_id : Pg.field Pg.uuid;
  t_project_id : Pg.field Pg.uuid;
  t_start_time : Pg.field Pg.timestamptz;
  t_end_time : Pg.field Pg.timestamptz;
  t_date : Pg.field Pg.date
}.

Definition read_values (v : TimeLogsValues.t) : Pg.result typed :=
  u <- Pg.read_field (Pg.uuid_in sx) (TimeLogsValues.user_id v) ;;
  t <- Pg.read_field (Pg.uuid_in sx) (TimeLogsValues.task_id v) ;;
  p <- Pg.read_field (Pg.uuid_in sx) (TimeLogsValues.project_id v) ;;
  s <- Pg.read_field (Pg.timestamptz_in sx) (TimeLogsValues.start_time v) ;;
  e <- Pg.read_field (Pg.timestamptz_in sx) (TimeLogsValues.end_time v) ;;
  d <- Pg.read_field (Pg.date_in sx) (TimeLogsValues.date v) ;;
  Pg.Ok {| t_user_id := u; t_task_id := t; t_project_id := p;
           t_start_time := s; t_end_time := e; t_date := d |}.

(** [supabase.from('time_logs').insert([v])]: defaults, the
    [BEFORE INSERT] trigger, the policy, the constraints.  Returns the
    stored row with the new store. *)
Definition time_logs_insert (new_id : Pg.uuid) (now : Pg.timestamptz)
    (v : TimeLogsValues.t) : Pg.result (database * TimeLogs.row) :=
  c <- read_values v ;;
  u <- Pg.not_null (Pg.on_insert None (t_user_id c)) ;;
  t <- Pg.not_null (Pg.on_insert None (t_task_id c)) ;;
  s <- Pg.not_null (Pg.on_insert None (t_start_time c)) ;;
  d <- Pg.not_null (Pg.on_insert None (t_date c)) ;;
  a <- Pg.not_null (Pg.on_insert (Some "approved")
                                 (TimeLogsValues.approval_status v)) ;;
  NEW <- TimeLogs.calculate_time_log_duration
           {| TimeLogs.id := new_id; TimeLogs.user_id := u;
              TimeLogs.task_id := t;
              TimeLogs.project_id := Pg.on_insert None (t_project_id c);
              TimeLogs.start_time := s;
              TimeLogs.end_time := Pg.on_insert None (t_end_time c);
              TimeLogs.duration_minutes :=
                Pg.on_insert None (TimeLogsValues.duration_minutes v);
              TimeLogs.date := d; TimeLogs.approval_status := a;
              TimeLogs.created_at := Some now;
              TimeLogs.updated_at := Some now |} ;;
  assert (Policy.time_logs_insert_check db uid NEW)
    otherwise Pg.row_level_security_violation ;;
  assert (negb (Pg.mem new_id (map TimeLogs.id (time_logs db))))
    otherwise Pg.unique_violation ;;
  doing time_logs_constraints NEW ;;
  Pg.Ok (with_time_logs (time_logs db ++ [NEW]) db, NEW).

(** One row of [UPDATE time_logs SET ... WHERE ...].  The two
    [BEFORE UPDATE] triggers fire in the order of their names:
    [calculate_duration_before_insert_update], then
    [update_time_logs_updated_at]. *)
Definition time_logs_update_row (now : Pg.timestamptz)
    (v : TimeLogsValues.t) (c : typed) (OLD : TimeLogs.row)
    : Pg.result TimeLogs.row :=
  u <- Pg.not_null (Pg.on_update (Some (TimeLogs.user_id OLD)) (t_user_id c)) ;;
  t <- Pg.not_null (Pg.on_update (Some (TimeLogs.task_id OLD)) (t_task_id c)) ;;
  s <- Pg.not_null (Pg.on_update (Some (TimeLogs.start_time OLD)) (t_start_time c)) ;;
  d <- Pg.not_null (Pg.on_update (Some (TimeLogs.date OLD)) (t_date c)) ;;
  a <- Pg.not_null (Pg.on_update (Some (TimeLogs.approval_status OLD))
                                 (TimeLogsValues.approval_status v)) ;;
  NEW <- TimeLogs.calculate_time_log_duration
           {| TimeLogs.id := TimeLogs.id OLD; TimeLogs.user_id := u;
              TimeLogs.task_id := t;
              TimeLogs.project_id :=
                Pg.on_update (TimeLogs.project_id OLD) (t_project_id c);
              TimeLogs.start_time := s;
              TimeLogs.end_time :=
                Pg.on_update (TimeLogs.end_time OLD) (t_end_time c);
              TimeLogs.duration_minutes :=
                Pg.on_update (TimeLogs.duration_minutes OLD)
                             (TimeLogsValues.duration_minutes v);
              TimeLogs.date := d; TimeLogs.approval_status := a;
              TimeLogs.created_at := TimeLogs.created_at OLD;
              TimeLogs.updated_at := TimeLogs.updated_at OLD |} ;;
  let NEW := TimeLogs.update_updated_at_column now NEW in
  assert (Policy.time_logs_update_check db uid NEW
          && Policy.time_logs_select db uid NEW)
    otherwise Pg.row_level_security_violation ;;
  doing time_logs_constraints NEW ;;
  Pg.Ok NEW.

(** [supabase.from('time_logs').update(v).<filter>] *)
Definition time_logs_update (now : Pg.timestamptz) (v : TimeLogsValues.t)
    (selected : TimeLogs.row -> bool) : Pg.result database :=
  c <- read_values v ;;
  rows <- Pg.for_each_row
            (fun OLD =>
               if selected OLD && Policy.time_logs_select db uid OLD
                  && Policy.time_logs_update_using db uid OLD
               then time_logs_update_row now v c OLD
               else Pg.Ok OLD)
            (time_logs db) ;;
  Pg.Ok (with_time_logs rows db).

(** [supabase.from('time_logs').select('*').<filter>] *)
Definition time_logs_select (selected : TimeLogs.row -> bool)
    : list TimeLogs.row :=
  filter (fun r => Policy.time_logs_select db uid r && selected r)
         (time_logs db).
End TimeLogsStatements.

(** [.maybeSingle()]: [data] is the row when there is exactly one, and
    [null] otherwise; more than one row is reported as an error. *)
Definition maybeSingle {A : Type} (rows : list A) : Pg.result (option A) :=
  match rows with
  | [] => Pg.Ok None
  | [a] => Pg.Ok (Some a)
  | _ :: _ :: _ => Pg.Err Pg.more_than_one_row
  end.


(** *** tasks: INSERT, UPDATE, DELETE *)

Definition with_tasks (l : list Tasks.row) (db : database) : database :=
  {| profiles := profiles db; projects := projects db;
     project_members := project_members db; tasks := l;
     time_logs := time_logs db |}.

Section TasksStatements.
Variable sx : Pg.syntax.
Variable db : database.
Variable uid : Pg.uuid.

(** The typed columns of a task payload, read by their input functions. *)
Record typed_task : Type := {
  tt_project_id : Pg.field Pg.uuid;
  tt_assigned_to : Pg.field Pg.uuid;
  tt_start_date : Pg.field Pg.date;
  tt_end_date : Pg.field Pg.date;
  tt_created_by : Pg.field Pg.uuid
}.

Definition read_task_values (v : TasksValues.t) : Pg.result typed_task :=
  p <- Pg.read_field (Pg.uuid_in sx) (TasksValues.project_id v) ;;
  a <- Pg.read_field (Pg.uuid_in sx) (TasksValues.assigned_to v) ;;
  sd <- Pg.read_field (Pg.date_in sx) (TasksValues.start_date v) ;;
  ed <- Pg.read_field (Pg.date_in sx) (TasksValues.end_date v) ;;
  c <- Pg.read_field (Pg.uuid_in sx) (TasksValues.created_by v) ;;
  Pg.Ok {| tt_project_id := p; tt_assigned_to := a; tt_start_date := sd;
           tt_end_date := ed; tt_created_by := c |}.

Definition tasks_constraints (NEW : Tasks.row) : Pg.result unit :=
  assert (Tasks.status_check (Tasks.status NEW)) otherwise Pg.check_violation ;;
  assert (Pg.mem (Tasks.created_by NEW) (map Profiles.id (profiles db)))
    otherwise Pg.foreign_key_violation ;;
  assert (references (Tasks.assigned_to NEW) (map Profiles.id (profiles db)))
    otherwise Pg.foreign_key_violation ;;
  assert (references (Tasks.project_id NEW) (map Projects.id (projects db)))
    otherwise Pg.foreign_key_violation ;;
  Pg.Ok tt.

(** [supabase.from('tasks').insert([v])] *)
Definition tasks_insert (new_id : Pg.uuid) (now : Pg.timestamptz)
    (v : TasksValues.t) : Pg.result database :=
  c <- read_task_values v ;;
  n <- Pg.not_null (Pg.on_insert None (TasksValues.name v)) ;;
  s <- Pg.not_null (Pg.on_insert (Some "to_do") (TasksValues.status v)) ;;
  cb <- Pg.not_null (Pg.on_insert None (tt_created_by c)) ;;
  let NEW := {| Tasks.id := new_id; Tasks.name := n;
                Tasks.description :=
                  Pg.on_insert None (TasksValues.description v);
                Tasks.project_id := Pg.on_insert None (tt_project_id c);
                Tasks.assigned_to := Pg.on_insert None (tt_assigned_to c);
                Tasks.status := s;
                Tasks.start_date := Pg.on_insert None (tt_start_date c);
                Tasks.end_date := Pg.on_insert None (tt_end_date c);
                Tasks.created_by := cb;
                Tasks.created_at := Some now;
                Tasks.updated_at := Some now |} in
  assert (Policy.tasks_insert_check db uid NEW)
    otherwise Pg.row_level_security_violation ;;
  assert (negb (Pg.mem new_id (map Tasks.id (tasks db))))
    otherwise Pg.unique_violation ;;
  doing tasks_constraints NEW ;;
  Pg.Ok (with_tasks (tasks db ++ [NEW]) db).

(** One row of [UPDATE tasks SET ... WHERE ...], with the
    [BEFORE UPDATE] trigger [update_tasks_updated_at]. *)
Definition tasks_update_row (now : Pg.timestamptz) (v : TasksValues.t)
    (c : typed_task) (OLD : Tasks.row) : Pg.result Tasks.row :=
  n <- Pg.not_null (Pg.on_update (Some (Tasks.name OLD)) (TasksValues.name v)) ;;
  s <- Pg.not_null (Pg.on_update (Some (Tasks.status OLD))
                                 (TasksValues.status v)) ;;
  cb <- Pg.not_null (Pg.on_update (Some (Tasks.created_by OLD))
                                  (tt_created_by c)) ;;
  let NEW := {| Tasks.id := Tasks.id OLD; Tasks.name := n;
                Tasks.description :=
                  Pg.on_update (Tasks.description OLD)
                               (TasksValues.description v);
                Tasks.project_id :=
                  Pg.on_update (Tasks.project_id OLD) (tt_project_id c);
                Tasks.assigned_to :=
                  Pg.on_update (Tasks.assigned_to OLD) (tt_assigned_to c);
                Tasks.status := s;
                Tasks.start_date :=
                  Pg.on_update (Tasks.start_date OLD) (tt_start_date c);
                Tasks.end_date :=
                  Pg.on_update (Tasks.end_date OLD) (tt_end_date c);
                Tasks.created_by := cb;
                Tasks.created_at := Tasks.created_at OLD;
                Tasks.updated_at := Some now |} in
  assert (Policy.tasks_update_using db uid NEW && Policy.tasks_select db uid NEW)
    otherwise Pg.row_level_security_violation ;;
  doing tasks_constraints NEW ;;
  Pg.Ok NEW.

(** [supabase.from('tasks').update(v).<filter>] *)
Definition tasks_update (now : Pg.timestamptz) (v : TasksValues.t)
    (selected : Tasks.row -> bool) : Pg.result database :=
  c <- read_task_values v ;;
  rows <- Pg.for_each_row
            (fun OLD =>
               if selected OLD && Policy.tasks_select db uid OLD
                  && Policy.tasks_update_using db uid OLD
               then tasks_update_row now v c OLD
               else Pg.Ok OLD)
            (tasks db) ;;
  Pg.Ok (with_tasks rows db).

(** [supabase.from('tasks').delete().<filter>]: the selected rows the
    caller may see and may delete go, and with them the time logs that
    reference them ([ON DELETE CASCADE]).  Rows the caller may not delete
    are skipped without an error. *)
Definition tasks_deleted (selected : Tasks.row -> bool) (r : Tasks.row) : bool :=
  selected r && Policy.tasks_select db uid r && Policy.tasks_delete_using db uid r.

Definition tasks_delete (selected : Tasks.row -> bool) : database :=
  let gone := map Tasks.id (filter (tasks_deleted selected) (tasks db)) in
  {| profiles := profiles db; projects := projects db;
     project_members := project_members db;
     tasks := filter (fun r => negb (tasks_deleted selected r)) (tasks db);
     time_logs :=
       filter (fun l => negb (Pg.mem (TimeLogs.task_id l) gone)) (time_logs db) |}.

(** [supabase.from('projects').delete().<filter>]: the deleted projects
    take with them their memberships, their tasks, and the time logs of
    the project or of one of those tasks. *)
Definition projects_deleted (selected : Projects.row -> bool) (r : Projects.row)
    : bool :=
  selected r && Policy.projects_select db uid r
  && Policy.projects_delete_using db uid r.

Definition in_ids (key : option Pg.uuid) (ids : list Pg.uuid) : bool :=
  match key with
  | Some k => Pg.mem k ids
  | None => false
  end.

Definition projects_delete (selected : Projects.row -> bool) : database :=
  let gone := map Projects.id (filter (projects_deleted selected) (projects db)) in
  let gone_tasks :=
    map Tasks.id (filter (fun t => in_ids (Tasks.project_id t) gone) (tasks db)) in
  {| profiles := profiles db;
     projects := filter (fun r => negb (projects_deleted selected r)) (projects db);
     project_members :=
       filter (fun m => negb (Pg.mem (ProjectMembers.project_id m) gone))
              (project_members db);
     tasks := filter (fun t => negb (in_ids (Tasks.project_id t) gone)) (tasks db);
     time_logs :=
       filter (fun l => negb (in_ids (TimeLogs.project_id l) gone)
                        && negb (Pg.mem (TimeLogs.task_id l) gone_tasks))
              (time_logs db) |}.

(** [supabase.from('time_logs').delete().<filter>] *)
Definition time_logs_delete (selected : TimeLogs.row -> bool) : database :=
  with_time_logs
    (filter (fun r => negb (selected r && Policy.time_logs_select db uid r
                            && Policy.time_logs_delete_using db uid r))
            (time_logs db))
    db.
End TasksStatements.


(** [supabase.from('projects').select(...).<filter>] *)
Definition projects_select (db : database) (uid : Pg.uuid)
    (selected : Projects.row -> bool) : list Projects.row :=
  filter (fun r => Policy.projects_select db uid r && selected r) (projects db).
End Store.

(** ** The pages

    A handler takes the component state and the store and returns both,
    with the requests it sent to the store, in order.  What the
    authentication context provides ([profile], [isAdmin]) and what the
    environment provides (the clock, fresh ids) are arguments. *)

Module Js.
Definition ms_per_day : Z := 86400000.

(** [new Date(s).getTime()] for a date-only string ['YYYY-MM-DD']:
    midnight UTC of that day. *)
Definition Date_of_date (d : Pg.date) : Z := d * ms_per_day.

(** [date.toISOString()], read back by a [timestamptz] column. *)
Definition toISOString (ms : Z) : Pg.timestamptz := ms * 1000.

(** [date.toISOString().split('T')[0]]: the UTC day of the instant. *)
Definition toISOString_date (ms : Z) : Pg.date := ms / ms_per_day.

(** [x || y] on strings: the empty string is falsy. *)
Definition or_else (x y : string) : string :=
  if String.eqb x "" then y else x.
End Js.

Inductive request : Type :=
| select_from (table : string)
| insert_into (table : string)
| update_of (table : string).

Record outcome (S : Type) : Type := {
  state_of : S;
  store_of : database;
  requests_of : list request
}.
Arguments state_of {S} o.
Arguments store_of {S} o.
Arguments requests_of {S} o.

(** What a handler that deletes returns: the table of the DELETE request it
    sent, if it sent one, and the outcome of what it did after. *)
Record deletion (S : Type) : Type := {
  delete_sent : option string;
  and_then : outcome S
}.
Arguments delete_sent {S} d.
Arguments and_then {S} d.

(** *** components/Layout.tsx *)

Module Layout.
Record nav_item : Type := {
  to : string;
  label : string;
  roles : list string
}.

Definition navItems : list nav_item :=
  [ {| to := "/"; label := "Dashboard";
       roles := ["admin"; "project_manager"; "employee"] |};
    {| to := "/projects"; label := "Projects";
       roles := ["admin"; "project_manager"; "employee"] |};
    {| to := "/tasks"; label := "Tasks";
       roles := ["admin"; "project_manager"; "employee"] |};
    {| to := "/time-tracking"; label := "Time Tracking";
       roles := ["admin"; "project_manager"; "employee"] |};
    {| to := "/calendar"; label := "Calendar";
       roles := ["admin"; "project_manager"; "employee"] |};
    {| to := "/reports"; label := "Reports";
       roles := ["admin"; "project_manager"] |};
    {| to := "/users"; label := "Users"; roles := ["admin"] |} ].

(** [profile?.role || 'employee'] *)
Definition role_of (profile : option Profiles.row) : string :=
  match profile with
  | Some p => Js.or_else (Profiles.role p) "employee"
  | None => "employee"
  end.

Definition filteredNavItems (profile : option Profiles.row) : list nav_item :=
  filter (fun item => Pg.mem (role_of profile) (roles item)) navItems.
End Layout.

(** *** pages/Users.tsx *)

Module Users.
Record form : Type := { f_role : string; f_status : string }.

Record state : Type := {
  users : list Profiles.row;
  loading : bool;
  modalOpen : bool;
  editingUser : option Profiles.row;
  formData : form
}.

Definition initial : state :=
  {| users := []; loading := true; modalOpen := false; editingUser := None;
     formData := {| f_role := "employee"; f_status := "active" |} |}.

(** [fetchUsers]: all visible profiles, newest first. *)
Definition fetchUsers (db : database) (uid : Pg.uuid) (st : state)
    : outcome state :=
  let data :=
    Store.order_by
      (fun a b => Store.desc (Profiles.created_at a) (Profiles.created_at b))
      (Store.profiles_select db uid (fun _ => true)) in
  {| state_of := {| users := data; loading := false;
                    modalOpen := modalOpen st; editingUser := editingUser st;
                    formData := formData st |};
     store_of := db;
     requests_of := [select_from "profiles"] |}.

(** The effect run after the first render:
    [if (!isAdmin) { return; } fetchUsers();] *)
Definition effect (isAdmin : bool) (db : database) (uid : Pg.uuid) (st : state)
    : outcome state :=
  if negb isAdmin
  then {| state_of := st; store_of := db; requests_of := [] |}
  else fetchUsers db uid st.

Inductive view : Type :=
| permission_denied   (* "You don't have permission to view this page" *)
| spinner
| users_table (rows : list Profiles.row).

Definition render (isAdmin : bool) (st : state) : view :=
  if negb isAdmin then permission_denied
  else if loading st then spinner
  else users_table (users st).

(** Mounting the page: the effect, then the view of the resulting state. *)
Definition mount (isAdmin : bool) (db : database) (uid : Pg.uuid)
    : view * outcome state :=
  let o := effect isAdmin db uid initial in
  (render isAdmin (state_of o), o).

(** [openEditModal(user)]: the form takes the user's role and status. *)
Definition openEditModal (user : Profiles.row) (st : state) : state :=
  {| users := users st; loading := loading st; modalOpen := true;
     editingUser := Some user;
     formData := {| f_role := Profiles.role user;
                    f_status := Profiles.status user |} |}.

(** The body [handleSubmit] sends: [role] and [status] from the form. *)
Definition handleSubmit_body (f : form) : ProfilesValues.t :=
  {| ProfilesValues.id := Pg.Absent; ProfilesValues.full_name := Pg.Absent;
     ProfilesValues.email := Pg.Absent;
     ProfilesValues.role := Pg.Val (f_role f);
     ProfilesValues.status := Pg.Val (f_status f) |}.

(** [handleSubmit]: [if (!editingUser) return;], then
    [.update({ role, status }).eq('id', editingUser.id)]; on success closes
    the modal, forgets the edited user and refetches. *)
Definition handleSubmit (sx : Pg.syntax) (uid : Pg.uuid) (now : Pg.timestamptz)
    (db : database) (st : state) : outcome state :=
  match editingUser st with
  | None => {| state_of := st; store_of := db; requests_of := [] |}
  | Some u =>
      match Store.profiles_update sx db uid now (handleSubmit_body (formData st))
              (fun r => String.eqb (Profiles.id r) (Profiles.id u)) with
      | Pg.Ok db' =>
          let o := fetchUsers db' uid
                     {| users := users st; loading := loading st;
                        modalOpen := false; editingUser := None;
                        formData := formData st |} in
          {| state_of := state_of o; store_of := store_of o;
             requests_of := update_of "profiles" :: requests_of o |}
      | Pg.Err _ =>
          {| state_of := st; store_of := db;
             requests_of := [update_of "profiles"] |}
      end
  end.

(** [user.status === 'active' ? 'inactive' : 'active'] *)
Definition newStatus (user : Profiles.row) : string :=
  if String.eqb (Profiles.status user) "active" then "inactive" else "active".

Definition toggleUserStatus_body (user : Profiles.row) : ProfilesValues.t :=
  {| ProfilesValues.id := Pg.Absent; ProfilesValues.full_name := Pg.Absent;
     ProfilesValues.email := Pg.Absent; ProfilesValues.role := Pg.Absent;
     ProfilesValues.status := Pg.Val (newStatus user) |}.

(** [toggleUserStatus(user)]: [.update({ status: newStatus }).eq('id', user.id)],
    then refetches; [user] is the row the table shows. *)
Definition toggleUserStatus (sx : Pg.syntax) (uid : Pg.uuid)
    (now : Pg.timestamptz) (user : Profiles.row) (db : database) (st : state)
    : outcome state :=
  match Store.profiles_update sx db uid now (toggleUserStatus_body user)
          (fun r => String.eqb (Profiles.id r) (Profiles.id user)) with
  | Pg.Ok db' =>
      let o := fetchUsers db' uid st in
      {| state_of := state_of o; store_of := store_of o;
         requests_of := update_of "profiles" :: requests_of o |}
  | Pg.Err _ =>
      {| state_of := st; store_of := db;
         requests_of := [update_of "profiles"] |}
  end.

(** [getRoleBadge] and [getStatusBadge]: the style of a badge. *)
Definition getRoleBadge (role : string) : string :=
  if String.eqb role "admin" then "badge badge-danger"
  else if String.eqb role "project_manager" then "badge badge-primary"
  else if String.eqb role "employee" then "badge badge-gray"
  else "badge badge-gray".

Definition getStatusBadge (status : string) : string :=
  if String.eqb status "active" then "badge badge-success" else "badge badge-gray".
End Users.

(** *** The time tracking page *)

Module TimeTracking.
Record task : Type := { id : Pg.uuid; name : Pg.text }.

Record form : Type := {
  task_id : string;
  start_time : string;
  end_time : string;
  date : Pg.input Pg.date
}.

Record state : Type := {
  timeLogs : list TimeLogs.row;
  tasks : list task;
  activeLog : option TimeLogs.row;
  loading : bool;
  modalOpen : bool;
  elapsedTime : Z;
  formData : form
}.

Definition blank_form (now : Z) : form :=
  {| task_id := ""; start_time := ""; end_time := "";
     date := Pg.Lit (Js.toISOString_date now) |}.

Definition initial (now : Z) : state :=
  {| timeLogs := []; tasks := []; activeLog := None; loading := true;
     modalOpen := false; elapsedTime := 0; formData := blank_form now |}.

Definition setActiveLog (a : option TimeLogs.row) (st : state) : state :=
  {| timeLogs := timeLogs st; tasks := tasks st; activeLog := a;
     loading := loading st; modalOpen := modalOpen st;
     elapsedTime := elapsedTime st; formData := formData st |}.

Definition setElapsedTime (e : Z) (st : state) : state :=
  {| timeLogs := timeLogs st; tasks := tasks st; activeLog := activeLog st;
     loading := loading st; modalOpen := modalOpen st;
     elapsedTime := e; formData := formData st |}.

Definition setTimeLogs (l : list TimeLogs.row) (st : state) : state :=
  {| timeLogs := l; tasks := tasks st; activeLog := activeLog st;
     loading := loading st; modalOpen := modalOpen st;
     elapsedTime := elapsedTime st; formData := formData st |}.

Definition setTasks (l : list task) (st : state) : state :=
  {| timeLogs := timeLogs st; tasks := l; activeLog := activeLog st;
     loading := loading st; modalOpen := modalOpen st;
     elapsedTime := elapsedTime st; formData := formData st |}.

Definition setLoading (b : bool) (st : state) : state :=
  {| timeLogs := timeLogs st; tasks := tasks st; activeLog := activeLog st;
     loading := b; modalOpen := modalOpen st;
     elapsedTime := elapsedTime st; formData := formData st |}.

Definition setModalOpen (b : bool) (st : state) : state :=
  {| timeLogs := timeLogs st; tasks := tasks st; activeLog := activeLog st;
     loading := loading st; modalOpen := b;
     elapsedTime := elapsedTime st; formData := formData st |}.

Definition setFormData (f : form) (st : state) : state :=
  {| timeLogs := timeLogs st; tasks := tasks st; activeLog := activeLog st;
     loading := loading st; modalOpen := modalOpen st;
     elapsedTime := elapsedTime st; formData := f |}.

Definition is_null {A : Type} (o : option A) : bool :=
  match o with Some _ => false | None => true end.

Section Session.
Variable sx : Pg.syntax.
Variable uid : Pg.uuid.                  (* auth.uid() of the session *)
Variable profile : option Profiles.row.  (* useAuth().profile *)

(** The key [user_id: profile?.id]: left out of the body when the
    profile is not loaded. *)
Definition profile_id : Pg.field (Pg.input Pg.uuid) :=
  match profile with
  | Some p => Pg.Val (Pg.Lit (Profiles.id p))
  | None => Pg.Absent
  end.

(** [checkActiveLog]: [.eq('user_id', profile?.id).is('end_time', null)
    .maybeSingle()], then [setActiveLog(data)]; [data] is [null] when
    the request fails.  Here the select is evaluated; for the select the
    store refuses see [DeployedTimeTracking.checkActiveLog]. *)
Definition checkActiveLog (db : database) (st : state) : outcome state :=
  let data :=
    match profile with
    | Some p =>
        match Store.maybeSingle
                (Store.time_logs_select db uid
                   (fun r => String.eqb (TimeLogs.user_id r) (Profiles.id p)
                             && is_null (TimeLogs.end_time r))) with
        | Pg.Ok d => d
        | Pg.Err _ => None
        end
    | None => None
    end in
  {| state_of := setActiveLog data st; store_of := db;
     requests_of := [select_from "time_logs"] |}.

(** [fetchTimeLogs]: the caller's last fifty logs, latest start first;
    on failure only [loading] is cleared. *)
Definition fetchTimeLogs (db : database) (st : state) : outcome state :=
  let st' :=
    match profile with
    | Some p =>
        setTimeLogs
          (firstn 50
             (Store.order_by
                (fun a b => TimeLogs.start_time b <=? TimeLogs.start_time a)
                (Store.time_logs_select db uid
                   (fun r => String.eqb (TimeLogs.user_id r) (Profiles.id p)))))
          st
    | None => st
    end in
  {| state_of := setLoading false st'; store_of := db;
     requests_of := [select_from "time_logs"] |}.

(** [fetchTasks]: [select('id, name')] of the tasks assigned to or
    created by the caller. *)
Definition fetchTasks (db : database) (st : state) : outcome state :=
  let data :=
    match profile with
    | Some p =>
        map (fun t => {| id := Tasks.id t; name := Tasks.name t |})
            (Store.tasks_select db uid
               (fun t => Pg.eq_opt (Tasks.assigned_to t) (Profiles.id p)
                         || String.eqb (Tasks.created_by t) (Profiles.id p)))
    | None => []
    end in
  {| state_of := setTasks data st; store_of := db;
     requests_of := [select_from "tasks"] |}.

(** The body [startTimer] sends: [approval_status], [end_time] and the
    other columns are left out. *)
Definition startTimer_body (now : Z) (taskId : Pg.uuid) : TimeLogsValues.t :=
  {| TimeLogsValues.user_id := profile_id;
     TimeLogsValues.task_id := Pg.Val (Pg.Lit taskId);
     TimeLogsValues.project_id := Pg.Absent;
     TimeLogsValues.start_time := Pg.Val (Pg.Lit (Js.toISOString now));
     TimeLogsValues.end_time := Pg.Absent;
     TimeLogsValues.duration_minutes := Pg.Absent;
     TimeLogsValues.date := Pg.Val (Pg.Lit (Js.toISOString_date now));
     TimeLogsValues.approval_status := Pg.Absent |}.

(** [.insert([...]).select().single()]: the stored row is returned, so
    the caller must also be allowed to read it. *)
Definition insert_returning (db : database) (new_id : Pg.uuid)
    (server_now : Pg.timestamptz) (v : TimeLogsValues.t)
    : Pg.result (database * TimeLogs.row) :=
  r <- Store.time_logs_insert sx db uid new_id server_now v ;;
  assert (Policy.time_logs_select (fst r) uid (snd r))
    otherwise Pg.row_level_security_violation ;;
  Pg.Ok r.

(** [startTimer(taskId)]: inserts, and on success [setActiveLog(data)];
    on failure the error is logged and nothing changes. *)
Definition startTimer (now : Z) (server_now : Pg.timestamptz)
    (new_id : Pg.uuid) (taskId : Pg.uuid) (db : database) (st : state)
    : outcome state :=
  match insert_returning db new_id server_now (startTimer_body now taskId) with
  | Pg.Ok (db', data) =>
      {| state_of := setActiveLog (Some data) st; store_of := db';
         requests_of := [insert_into "time_logs"] |}
  | Pg.Err _ =>
      {| state_of := st; store_of := db;
         requests_of := [insert_into "time_logs"] |}
  end.

Definition stopTimer_body (now : Z) : TimeLogsValues.t :=
  {| TimeLogsValues.user_id := Pg.Absent;
     TimeLogsValues.task_id := Pg.Absent;
     TimeLogsValues.project_id := Pg.Absent;
     TimeLogsValues.start_time := Pg.Absent;
     TimeLogsValues.end_time := Pg.Val (Pg.Lit (Js.toISOString now));
     TimeLogsValues.duration_minutes := Pg.Absent;
     TimeLogsValues.date := Pg.Absent;
     TimeLogsValues.approval_status := Pg.Absent |}.

(** [stopTimer]: [if (!activeLog) return;] then
    [.update({ end_time }).eq('id', activeLog.id)]; on success clears
    the active log and the elapsed time and refetches the logs. *)
Definition stopTimer (now : Z) (server_now : Pg.timestamptz)
    (db : database) (st : state) : outcome state :=
  match activeLog st with
  | None => {| state_of := st; store_of := db; requests_of := [] |}
  | Some log =>
      match Store.time_logs_update sx db uid server_now (stopTimer_body now)
              (fun r => String.eqb (TimeLogs.id r) (TimeLogs.id log)) with
      | Pg.Ok db' =>
          let o := fetchTimeLogs db' (setElapsedTime 0 (setActiveLog None st)) in
          {| state_of := state_of o; store_of := store_of o;
             requests_of := update_of "time_logs" :: requests_of o |}
      | Pg.Err _ =>
          {| state_of := st; store_of := db;
             requests_of := [update_of "time_logs"] |}
      end
  end.

(** The body [handleManualEntry] sends: the form's strings as typed,
    and [approval_status: 'pending']. *)
Definition handleManualEntry_body (f : form) : TimeLogsValues.t :=
  {| TimeLogsValues.user_id := profile_id;
     TimeLogsValues.task_id := Pg.Val (Pg.Text (task_id f));
     TimeLogsValues.project_id := Pg.Absent;
     TimeLogsValues.start_time := Pg.Val (Pg.Text (start_time f));
     TimeLogsValues.end_time := Pg.Val (Pg.Text (end_time f));
     TimeLogsValues.duration_minutes := Pg.Absent;
     TimeLogsValues.date := Pg.Val (date f);
     TimeLogsValues.approval_status := Pg.Val "pending" |}.

(** [handleManualEntry]: inserts; on success closes the modal, resets
    the form and refetches the logs. *)
Definition handleManualEntry (now : Z) (server_now : Pg.timestamptz)
    (new_id : Pg.uuid) (db : database) (st : state) : outcome state :=
  match Store.time_logs_insert sx db uid new_id server_now
          (handleManualEntry_body (formData st)) with
  | Pg.Ok (db', _) =>
      let o := fetchTimeLogs db'
                 (setFormData (blank_form now) (setModalOpen false st)) in
      {| state_of := state_of o; store_of := store_of o;
         requests_of := insert_into "time_logs" :: requests_of o |}
  | Pg.Err _ =>
      {| state_of := st; store_of := db;
         requests_of := [insert_into "time_logs"] |}
  end.

(** The effect run when the page mounts:
    [fetchTimeLogs(); fetchTasks(); checkActiveLog();] *)
Definition effect (db : database) (st : state) : outcome state :=
  let o1 := fetchTimeLogs db st in
  let o2 := fetchTasks db (state_of o1) in
  let o3 := checkActiveLog db (state_of o2) in
  {| state_of := state_of o3; store_of := db;
     requests_of := requests_of o1 ++ requests_of o2 ++ requests_of o3 |}.
End Session.

(** The interval callback while a log is active:
    [setElapsedTime(Math.floor((now - start) / 1000))]. *)
Definition tick (now : Z) (st : state) : state :=
  match activeLog st with
  | Some log => setElapsedTime ((now - TimeLogs.start_time log / 1000) / 1000) st
  | None => st
  end.

(** The controls the page renders: the spinner alone while loading; then
    the manual entry button, and either the stop button (a log is
    active) or one start button per task. *)
Inductive control : Type :=
| manual_entry_button
| stop_button
| start_button (taskId : Pg.uuid).

Definition render (st : state) : list control :=
  if loading st then []
  else manual_entry_button ::
       match activeLog st with
       | Some _ => [stop_button]
       | None => map (fun t => start_button (id t)) (tasks st)
       end.

(** The number of running logs of a user: rows with [end_time] NULL. *)
Definition running (user : Pg.uuid) (db : database) : list TimeLogs.row :=
  filter (fun r => String.eqb (TimeLogs.user_id r) user
                   && is_null (TimeLogs.end_time r))
         (time_logs db).

(** What the user can do on the page, and the control that must be on
    screen for it: click a start button, click the stop button, type into
    the manual entry form, submit it. *)
Inductive action : Type :=
| click_start (taskId : Pg.uuid)
| click_stop
| type_form (f : form)
| submit_manual_entry.


(** The handler an action runs; [now], [server_now] and [new_id] are the
    browser clock, the store clock and the id the store draws. *)
Definition perform (sx : Pg.syntax) (uid : Pg.uuid) (profile : option Profiles.row)
    (now : Z) (server_now : Pg.timestamptz) (new_id : Pg.uuid) (a : action)
    (db : database) (st : state) : outcome state :=
  match a with
  | click_start taskId => startTimer sx uid profile now server_now new_id taskId db st
  | click_stop => stopTimer sx uid profile now server_now db st
  | type_form f =>
      {| state_of := setFormData f st; store_of := db; requests_of := [] |}
  | submit_manual_entry => handleManualEntry sx uid profile now server_now new_id db st
  end.
End TimeTracking.

(** *** The dashboard *)

Module Dashboard.
Record Stats : Type := {
  totalTasks : nat;
  inProgressTasks : nat;
  completedTasks : nat;
  totalProjects : nat;
  totalTimeToday : Z;
  overdueTasks : nat
}.

Record state : Type := {
  stats : Stats;
  recentTasks : list Tasks.row;
  loading : bool
}.

Definition initial : state :=
  {| stats := {| totalTasks := 0; inProgressTasks := 0; completedTasks := 0;
                 totalProjects := 0; totalTimeToday := 0; overdueTasks := 0 |};
     recentTasks := []; loading := true |}.

(** [tasks?.filter(t => t.status === s).List.length || 0]; [tasks] is [null]
    when the request failed. *)
Definition with_status (s : string) (tasks : option (list Tasks.row)) : nat :=
  match tasks with
  | Some l => List.length (filter (fun t => String.eqb (Tasks.status t) s) l)
  | None => 0%nat
  end.

(** [tasks?.filter(t => t.end_date && new Date(t.end_date) < new Date()
      && t.status !== 'completed').List.length || 0] *)
Definition overdue (now : Z) (tasks : option (list Tasks.row)) : nat :=
  match tasks with
  | Some l =>
      List.length
        (filter
           (fun t =>
              match Tasks.end_date t with
              | Some d => (Js.Date_of_date d <? now)
                          && negb (String.eqb (Tasks.status t) "completed")
              | None => false
              end)
           l)
  | None => 0%nat
  end.

(** [timeLogs?.reduce((sum, log) => sum + (log.duration_minutes || 0), 0) || 0] *)
Definition total_minutes (logs : list TimeLogs.row) : Z :=
  fold_left
    (fun sum log =>
       sum + match TimeLogs.duration_minutes log with
             | Some m => m
             | None => 0
             end)
    logs 0.

Section Session.
Variable uid : Pg.uuid.
Variable profile : option Profiles.row.
Variable isAdmin : bool.

(** The tasks the dashboard counts: all visible tasks for an admin,
    those assigned to or created by the profile otherwise. *)
Definition tasksQuery (db : database) (p : Profiles.row) : list Tasks.row :=
  Store.tasks_select db uid
    (fun t => isAdmin
              || (Pg.eq_opt (Tasks.assigned_to t) (Profiles.id p)
                  || String.eqb (Tasks.created_by t) (Profiles.id p))).

Definition projectsQuery (db : database) (p : Profiles.row) : list Projects.row :=
  filter (fun r => Policy.projects_select db uid r
                   && (isAdmin || Pg.eq_opt (Projects.manager_id r) (Profiles.id p)))
         (projects db).

Definition timeQuery (now : Z) (db : database) (p : Profiles.row)
    : list TimeLogs.row :=
  Store.time_logs_select db uid
    (fun r => (TimeLogs.date r =? Js.toISOString_date now)
              && (isAdmin || String.eqb (TimeLogs.user_id r) (Profiles.id p))).

(** [fetchDashboardData]: [if (!profile) return;], the three counted
    queries, the five most recent tasks, and [setLoading(false)] in
    every case. *)
Definition fetchDashboardData (now : Z) (db : database) (st : state)
    : outcome state :=
  match profile with
  | None =>
      {| state_of := {| stats := stats st; recentTasks := recentTasks st;
                        loading := false |};
         store_of := db; requests_of := [] |}
  | Some p =>
      let tasks := tasksQuery db p in
      {| state_of :=
           {| stats :=
                {| totalTasks := List.length tasks;
                   inProgressTasks := with_status "in_progress" (Some tasks);
                   completedTasks := with_status "completed" (Some tasks);
                   totalProjects := List.length (projectsQuery db p);
                   totalTimeToday := total_minutes (timeQuery now db p);
                   overdueTasks := overdue now (Some tasks) |};
              recentTasks :=
                firstn 5
                  (Store.order_by
                     (fun a b => Store.desc (Tasks.created_at a)
                                            (Tasks.created_at b))
                     (Store.tasks_select db uid (fun _ => true)));
              loading := false |};
         store_of := db;
         requests_of := [select_from "tasks"; select_from "projects";
                         select_from "time_logs"; select_from "tasks"] |}
  end.
End Session.
End Dashboard.

(** *** The calendar *)

Module Calendar.
Record state : Type := {
  currentDate : Z;
  tasks : list Tasks.row;
  selectedDate : option Z
}.

Section DateFns.
(** The local time zone: the offset of local time from UTC, in
    milliseconds, at a given instant. *)
Variable tz : Z -> Z.
(** [startOfMonth], [endOfMonth] and [eachDayOfInterval] of the date
    library. *)
Variable startOfMonth : Z -> Z.
Variable endOfMonth : Z -> Z.
Variable eachDayOfInterval : Z -> Z -> list Z.

(** The local calendar day an instant falls on. *)
Definition local_day (t : Z) : Z := (t + tz t) / Js.ms_per_day.

(** [isSameDay(a, b)]: both instants fall on one local day. *)
Definition isSameDay (a b : Z) : bool := local_day a =? local_day b.

(** [.gte('end_date', x)] and [.lte('end_date', x)] on the nullable
    column: NULL satisfies neither. *)
Definition gte (o : option Pg.date) (x : Pg.date) : bool :=
  match o with Some d => x <=? d | None => false end.
Definition lte (o : option Pg.date) (x : Pg.date) : bool :=
  match o with Some d => d <=? x | None => false end.

(** [fetchTasks]: the caller's tasks whose [end_date] lies in the
    displayed month. *)
Definition fetchTasks (uid : Pg.uuid) (profile : option Profiles.row)
    (db : database) (st : state) : outcome state :=
  let data :=
    match profile with
    | Some p =>
        Store.tasks_select db uid
          (fun t => (Pg.eq_opt (Tasks.assigned_to t) (Profiles.id p)
                     || String.eqb (Tasks.created_by t) (Profiles.id p))
                    && gte (Tasks.end_date t)
                           (Js.toISOString_date (startOfMonth (currentDate st)))
                    && lte (Tasks.end_date t)
                           (Js.toISOString_date (endOfMonth (currentDate st))))
    | None => tasks st
    end in
  {| state_of := {| currentDate := currentDate st; tasks := data;
                    selectedDate := selectedDate st |};
     store_of := db; requests_of := [select_from "tasks"] |}.

(** [getTasksForDate(date)]:
    [tasks.filter(task => { if (!task.end_date) return false;
       return isSameDay(new Date(task.end_date), date); })] *)
Definition getTasksForDate (st : state) (date : Z) : list Tasks.row :=
  filter (fun task =>
            match Tasks.end_date task with
            | None => false
            | Some d => isSameDay (Js.Date_of_date d) date
            end)
         (tasks st).

Definition daysInMonth (st : state) : list Z :=
  eachDayOfInterval (startOfMonth (currentDate st)) (endOfMonth (currentDate st)).

(** The cells of the month grid, each with its tasks. *)
Definition cells (st : state) : list (Z * list Tasks.row) :=
  map (fun day => (day, getTasksForDate st day)) (daysInMonth st).

Definition selectedDayTasks (st : state) : list Tasks.row :=
  match selectedDate st with
  | Some d => getTasksForDate st d
  | None => []
  end.
End DateFns.
End Calendar.

(** *** The projects page *)

Module ProjectsPage.
(** The form: what the inputs hold.  An untouched or cleared input
    holds the empty string; a typed column filled from a stored row
    holds that row's value. *)
Record form : Type := {
  name : string;
  description : string;
  manager_id : Pg.input Pg.uuid;
  start_date : Pg.input Pg.date;
  end_date : Pg.input Pg.date;
  status : string
}.

Record state : Type := {
  projects : list Projects.row;
  users : list Profiles.row;
  loading : bool;
  modalOpen : bool;
  editingProject : option Projects.row;
  formData : form
}.

Definition blank_form : form :=
  {| name := ""; description := ""; manager_id := Pg.Text "";
     start_date := Pg.Text ""; end_date := Pg.Text ""; status := "planned" |}.

Definition initial : state :=
  {| projects := []; users := []; loading := true; modalOpen := false;
     editingProject := None; formData := blank_form |}.

(** [x || ''] on a nullable column of a stored row. *)
Definition or_blank {A : Type} (o : option A) : Pg.input A :=
  match o with
  | Some a => Pg.Lit a
  | None => Pg.Text ""
  end.

Definition openEditModal (project : Projects.row) (st : state) : state :=
  {| projects := projects st; users := users st; loading := loading st;
     modalOpen := true; editingProject := Some project;
     formData :=
       {| name := Projects.name project;
          description :=
            match Projects.description project with
            | Some d => Js.or_else d ""
            | None => ""
            end;
          manager_id := or_blank (Projects.manager_id project);
          start_date := or_blank (Projects.start_date project);
          end_date := or_blank (Projects.end_date project);
          status := Projects.status project |} |}.

Definition resetForm (st : state) : state :=
  {| projects := projects st; users := users st; loading := loading st;
     modalOpen := modalOpen st; editingProject := None;
     formData := blank_form |}.

Definition setModalOpen (b : bool) (st : state) : state :=
  {| projects := projects st; users := users st; loading := loading st;
     modalOpen := b; editingProject := editingProject st;
     formData := formData st |}.

(** The request body is [formData] itself: every key is present and
    carries the string the input holds. *)
Definition body (f : form) : ProjectsValues.t :=
  {| ProjectsValues.name := Pg.Val (name f);
     ProjectsValues.description := Pg.Val (description f);
     ProjectsValues.manager_id := Pg.Val (manager_id f);
     ProjectsValues.start_date := Pg.Val (start_date f);
     ProjectsValues.end_date := Pg.Val (end_date f);
     ProjectsValues.status := Pg.Val (status f) |}.

Section Session.
Variable sx : Pg.syntax.
Variable uid : Pg.uuid.

(** [fetchProjects]: every visible project, newest first. *)
Definition fetchProjects (db : database) (st : state) : outcome state :=
  {| state_of :=
       {| projects := Store.projects_select_ordered db uid;
          users := users st; loading := false; modalOpen := modalOpen st;
          editingProject := editingProject st; formData := formData st |};
     store_of := db; requests_of := [select_from "projects"] |}.

(** [fetchUsers]: the profiles that can manage a project. *)
Definition fetchUsers (db : database) (st : state) : outcome state :=
  {| state_of :=
       {| projects := projects st;
          users := Store.profiles_select db uid
                     (fun p => Pg.mem (Profiles.role p)
                                      ["admin"; "project_manager"]);
          loading := loading st; modalOpen := modalOpen st;
          editingProject := editingProject st; formData := formData st |};
     store_of := db; requests_of := [select_from "profiles"] |}.

(** [handleSubmit]: updates the project being edited, or inserts a new
    one; on success closes the modal, resets the form and refetches;
    on failure logs the error and changes nothing. *)
Definition handleSubmit (server_now : Pg.timestamptz) (new_id : Pg.uuid)
    (db : database) (st : state) : outcome state :=
  let sent :=
    match editingProject st with
    | Some p =>
        (update_of "projects",
         Store.projects_update sx db uid server_now (body (formData st))
           (fun r => String.eqb (Projects.id r) (Projects.id p)))
    | None =>
        (insert_into "projects",
         Store.projects_insert sx db uid new_id server_now (body (formData st)))
    end in
  match snd sent with
  | Pg.Ok db' =>
      let o := fetchProjects db' (resetForm (setModalOpen false st)) in
      {| state_of := state_of o; store_of := store_of o;
         requests_of := fst sent :: requests_of o |}
  | Pg.Err _ =>
      {| state_of := st; store_of := db; requests_of := [fst sent] |}
  end.

(** The effect run when the page mounts:
    [fetchProjects(); if (isAdmin) { fetchUsers(); }] *)
Definition effect (isAdmin : bool) (db : database) (st : state)
    : outcome state :=
  let o1 := fetchProjects db st in
  if isAdmin then
    let o2 := fetchUsers db (state_of o1) in
    {| state_of := state_of o2; store_of := db;
       requests_of := requests_of o1 ++ requests_of o2 |}
  else o1.
End Session.

(** [handleDelete(id)]: asks for confirmation ([confirmed] is the answer);
    when confirmed sends the DELETE and refetches.  Here the DELETE is
    evaluated, which never fails; for the DELETE the store refuses see
    [DeployedProjectsPage.handleDelete]. *)
Definition handleDelete (uid : Pg.uuid) (confirmed : bool) (id : Pg.uuid)
    (db : database) (st : state) : deletion state :=
  if confirmed then
    {| delete_sent := Some "projects";
       and_then :=
         fetchProjects uid
           (Store.projects_delete db uid (fun r => String.eqb (Projects.id r) id))
           st |}
  else
    {| delete_sent := None;
       and_then := {| state_of := st; store_of := db; requests_of := [] |} |}.
End ProjectsPage.

(** *** The tasks page *)

Module TasksPage.
Record project : Type := { p_id : Pg.uuid; p_name : Pg.text }.
Record user : Type := { u_id : Pg.uuid; u_full_name : Pg.text }.

(** The form: what the inputs hold (see the project form). *)
Record form : Type := {
  name : string;
  description : string;
  project_id : Pg.input Pg.uuid;
  assigned_to : Pg.input Pg.uuid;
  status : string;
  start_date : Pg.input Pg.date;
  end_date : Pg.input Pg.date
}.

Record state : Type := {
  tasks : list Tasks.row;
  projects : list project;
  users : list user;
  loading : bool;
  modalOpen : bool;
  editingTask : option Tasks.row;
  filterStatus : string;
  formData : form
}.

Definition blank_form : form :=
  {| name := ""; description := ""; project_id := Pg.Text "";
     assigned_to := Pg.Text ""; status := "to_do";
     start_date := Pg.Text ""; end_date := Pg.Text "" |}.

Definition initial : state :=
  {| tasks := []; projects := []; users := []; loading := true;
     modalOpen := false; editingTask := None; filterStatus := "all";
     formData := blank_form |}.

Definition setTasks (l : list Tasks.row) (st : state) : state :=
  {| tasks := l; projects := projects st; users := users st;
     loading := false; modalOpen := modalOpen st;
     editingTask := editingTask st; filterStatus := filterStatus st;
     formData := formData st |}.

Definition setModalOpen (b : bool) (st : state) : state :=
  {| tasks := tasks st; projects := projects st; users := users st;
     loading := loading st; modalOpen := b; editingTask := editingTask st;
     filterStatus := filterStatus st; formData := formData st |}.

Definition setFilterStatus (s : string) (st : state) : state :=
  {| tasks := tasks st; projects := projects st; users := users st;
     loading := loading st; modalOpen := modalOpen st;
     editingTask := editingTask st; filterStatus := s;
     formData := formData st |}.

Definition resetForm (st : state) : state :=
  {| tasks := tasks st; projects := projects st; users := users st;
     loading := loading st; modalOpen := modalOpen st; editingTask := None;
     filterStatus := filterStatus st; formData := blank_form |}.

Definition openEditModal (task : Tasks.row) (st : state) : state :=
  {| tasks := tasks st; projects := projects st; users := users st;
     loading := loading st; modalOpen := true; editingTask := Some task;
     filterStatus := filterStatus st;
     formData :=
       {| name := Tasks.name task;
          description :=
            match Tasks.description task with
            | Some d => Js.or_else d ""
            | None => ""
            end;
          project_id := ProjectsPage.or_blank (Tasks.project_id task);
          assigned_to := ProjectsPage.or_blank (Tasks.assigned_to task);
          status := Tasks.status task;
          start_date := ProjectsPage.or_blank (Tasks.start_date task);
          end_date := ProjectsPage.or_blank (Tasks.end_date task) |} |}.

(** [x || null] on what a select holds: the empty string becomes
    [null]. *)
Definition or_null (i : Pg.input Pg.uuid) : Pg.field (Pg.input Pg.uuid) :=
  match i with
  | Pg.Lit s => if String.eqb s "" then Pg.Null else Pg.Val i
  | Pg.Text s => if String.eqb s "" then Pg.Null else Pg.Val i
  end.

(** [taskData]: the form, [created_by: profile?.id], and
    [project_id] and [assigned_to] with [|| null]. *)
Definition taskData (profile : option Profiles.row) (f : form) : TasksValues.t :=
  {| TasksValues.name := Pg.Val (name f);
     TasksValues.description := Pg.Val (description f);
     TasksValues.project_id := or_null (project_id f);
     TasksValues.assigned_to := or_null (assigned_to f);
     TasksValues.status := Pg.Val (status f);
     TasksValues.start_date := Pg.Val (start_date f);
     TasksValues.end_date := Pg.Val (end_date f);
     TasksValues.created_by :=
       match profile with
       | Some p => Pg.Val (Pg.Lit (Profiles.id p))
       | None => Pg.Absent
       end |}.

Definition status_body (newStatus : string) : TasksValues.t :=
  {| TasksValues.name := Pg.Absent; TasksValues.description := Pg.Absent;
     TasksValues.project_id := Pg.Absent; TasksValues.assigned_to := Pg.Absent;
     TasksValues.status := Pg.Val newStatus;
     TasksValues.start_date := Pg.Absent; TasksValues.end_date := Pg.Absent;
     TasksValues.created_by := Pg.Absent |}.

Section Session.
Variable sx : Pg.syntax.
Variable uid : Pg.uuid.
Variable profile : option Profiles.row.

(** [fetchTasks]: the visible tasks, newest first; those of one status
    when the filter is not ['all']. *)
Definition fetchTasks (db : database) (st : state) : outcome state :=
  {| state_of :=
       setTasks
         (Store.order_by
            (fun a b => Store.desc (Tasks.created_at a) (Tasks.created_at b))
            (Store.tasks_select db uid
               (fun t => String.eqb (filterStatus st) "all"
                         || String.eqb (Tasks.status t) (filterStatus st))))
         st;
     store_of := db; requests_of := [select_from "tasks"] |}.

(** [fetchProjects]: [select('id, name')] of the visible projects. *)
Definition fetchProjects (db : database) (st : state) : outcome state :=
  {| state_of :=
       {| tasks := tasks st;
          projects :=
            map (fun p => {| p_id := Projects.id p; p_name := Projects.name p |})
                (Store.projects_select db uid (fun _ => true));
          users := users st; loading := loading st; modalOpen := modalOpen st;
          editingTask := editingTask st; filterStatus := filterStatus st;
          formData := formData st |};
     store_of := db; requests_of := [select_from "projects"] |}.

(** [fetchUsers]: [select('id, full_name')] of the visible profiles. *)
Definition fetchUsers (db : database) (st : state) : outcome state :=
  {| state_of :=
       {| tasks := tasks st; projects := projects st;
          users :=
            map (fun p => {| u_id := Profiles.id p;
                             u_full_name := Profiles.full_name p |})
                (Store.profiles_select db uid (fun _ => true));
          loading := loading st; modalOpen := modalOpen st;
          editingTask := editingTask st; filterStatus := filterStatus st;
          formData := formData st |};
     store_of := db; requests_of := [select_from "profiles"] |}.

(** The effect run when the page mounts and when the filter changes:
    [fetchTasks(); fetchProjects(); fetchUsers();] *)
Definition effect (db : database) (st : state) : outcome state :=
  let o1 := fetchTasks db st in
  let o2 := fetchProjects db (state_of o1) in
  let o3 := fetchUsers db (state_of o2) in
  {| state_of := state_of o3; store_of := db;
     requests_of := requests_of o1 ++ requests_of o2 ++ requests_of o3 |}.

(** [handleSubmit]: updates the task being edited, or inserts a new one;
    on success closes the modal, resets the form and refetches; on failure
    logs the error and changes nothing. *)
Definition handleSubmit (server_now : Pg.timestamptz) (new_id : Pg.uuid)
    (db : database) (st : state) : outcome state :=
  let sent :=
    match editingTask st with
    | Some t =>
        (update_of "tasks",
         Store.tasks_update sx db uid server_now (taskData profile (formData st))
           (fun r => String.eqb (Tasks.id r) (Tasks.id t)))
    | None =>
        (insert_into "tasks",
         Store.tasks_insert sx db uid new_id server_now
           (taskData profile (formData st)))
    end in
  match snd sent with
  | Pg.Ok db' =>
      let o := fetchTasks db' (resetForm (setModalOpen false st)) in
      {| state_of := state_of o; store_of := store_of o;
         requests_of := fst sent :: requests_of o |}
  | Pg.Err _ =>
      {| state_of := st; store_of := db; requests_of := [fst sent] |}
  end.

(** [handleStatusChange(taskId, newStatus)]:
    [.update({ status: newStatus }).eq('id', taskId)], then refetches. *)
Definition handleStatusChange (server_now : Pg.timestamptz) (taskId : Pg.uuid)
    (newStatus : string) (db : database) (st : state) : outcome state :=
  match Store.tasks_update sx db uid server_now (status_body newStatus)
          (fun r => String.eqb (Tasks.id r) taskId) with
  | Pg.Ok db' =>
      let o := fetchTasks db' st in
      {| state_of := state_of o; store_of := store_of o;
         requests_of := update_of "tasks" :: requests_of o |}
  | Pg.Err _ =>
      {| state_of := st; store_of := db; requests_of := [update_of "tasks"] |}
  end.

(** [handleDelete(id)]: asks for confirmation; when confirmed sends the
    DELETE and refetches.  Here the DELETE is evaluated, which never
    fails; for the DELETE the store refuses see
    [DeployedTasksPage.handleDelete]. *)
Definition handleDelete (confirmed : bool) (id : Pg.uuid) (db : database)
    (st : state) : deletion state :=
  if confirmed then
    {| delete_sent := Some "tasks";
       and_then :=
         fetchTasks
           (Store.tasks_delete db uid (fun r => String.eqb (Tasks.id r) id)) st |}
  else
    {| delete_sent := None;
       and_then := {| state_of := st; store_of := db; requests_of := [] |} |}.
End Session.
End TasksPage.

(** ** The pages against the store as deployed

    The handlers above are written against a store that evaluates every
    statement.  Here are the handlers of the same pages with the answer
    the deployed store gives first: the statement is expanded with the
    policies [ps] installed for its table ([Rls]), and a refused expansion
    reaches the handler as the request's [error] (with [data] null).  What
    a handler does with an accepted statement is what it does above.
    [ps] says only which tables the policies read; what the policies
    evaluate to is [Policy] throughout (two sets of policies can agree on
    that and differ in how they read, as when a sub-select is moved into
    a function that reads its table without the table's policies).  The
    policies of the migrations are [Rls.shipped]. *)

Module DeployedTimeTracking.
Section Session.
Variable ps : list Rls.policy.
Variable sx : Pg.syntax.
Variable uid : Pg.uuid.
Variable profile : option Profiles.row.

(** [fetchTimeLogs]: [if (error) throw error] skips [setTimeLogs];
    [finally] clears [loading]. *)
Definition fetchTimeLogs (db : database) (st : TimeTracking.state)
    : outcome TimeTracking.state :=
  if Rls.accepted ps Rls.time_logs [Rls.SELECT]
  then TimeTracking.fetchTimeLogs uid profile db st
  else {| state_of := TimeTracking.setLoading false st; store_of := db;
          requests_of := [select_from "time_logs"] |}.

(** [checkActiveLog]: the error is not looked at; [setActiveLog(data)]
    with [data] null. *)
Definition checkActiveLog (db : database) (st : TimeTracking.state)
    : outcome TimeTracking.state :=
  if Rls.accepted ps Rls.time_logs [Rls.SELECT]
  then TimeTracking.checkActiveLog uid profile db st
  else {| state_of := TimeTracking.setActiveLog None st; store_of := db;
          requests_of := [select_from "time_logs"] |}.

(** [startTimer]: an INSERT with RETURNING ([.select().single()]);
    [if (error) throw error] leaves the state as it is. *)
Definition startTimer (now : Z) (server_now : Pg.timestamptz)
    (new_id : Pg.uuid) (taskId : Pg.uuid) (db : database)
    (st : TimeTracking.state) : outcome TimeTracking.state :=
  if Rls.accepted ps Rls.time_logs [Rls.INSERT; Rls.SELECT]
  then TimeTracking.startTimer sx uid profile now server_now new_id taskId db st
  else {| state_of := st; store_of := db;
          requests_of := [insert_into "time_logs"] |}.

(** [stopTimer]: [if (!activeLog) return;], an UPDATE with a filter on
    [id]; on success the logs are fetched again. *)
Definition stopTimer (now : Z) (server_now : Pg.timestamptz)
    (db : database) (st : TimeTracking.state) : outcome TimeTracking.state :=
  match TimeTracking.activeLog st with
  | None => {| state_of := st; store_of := db; requests_of := [] |}
  | Some log =>
      let failed := {| state_of := st; store_of := db;
                       requests_of := [update_of "time_logs"] |} in
      if Rls.accepted ps Rls.time_logs [Rls.UPDATE; Rls.SELECT] then
        match Store.time_logs_update sx db uid server_now
                (TimeTracking.stopTimer_body now)
                (fun r => String.eqb (TimeLogs.id r) (TimeLogs.id log)) with
        | Pg.Ok db' =>
            let o := fetchTimeLogs db'
                       (TimeTracking.setElapsedTime 0
                          (TimeTracking.setActiveLog None st)) in
            {| state_of := state_of o; store_of := store_of o;
               requests_of := update_of "time_logs" :: requests_of o |}
        | Pg.Err _ => failed
        end
      else failed
  end.
End Session.

(** A start or a stop, by any user on any page: the session, the state of
    the page, the clocks and the id the store would draw. *)
Inductive operation : Type :=
| start (uid : Pg.uuid) (profile : option Profiles.row)
    (st : TimeTracking.state) (now : Z) (server_now : Pg.timestamptz)
    (new_id taskId : Pg.uuid)
| stop (uid : Pg.uuid) (profile : option Profiles.row)
    (st : TimeTracking.state) (now : Z) (server_now : Pg.timestamptz).

Definition perform (ps : list Rls.policy) (sx : Pg.syntax) (op : operation)
    (db : database) : outcome TimeTracking.state :=
  match op with
  | start uid profile st now server_now new_id taskId =>
      startTimer ps sx uid profile now server_now new_id taskId db st
  | stop uid profile st now server_now =>
      stopTimer ps sx uid profile now server_now db st
  end.

(** The store after a sequence of starts and stops. *)
Definition run (ps : list Rls.policy) (sx : Pg.syntax) (ops : list operation)
    (db : database) : database :=
  fold_left (fun db op => store_of (perform ps sx op db)) ops db.
End DeployedTimeTracking.

Module DeployedUsers.
Section Session.
Variable ps : list Rls.policy.
Variable sx : Pg.syntax.
Variable uid : Pg.uuid.
Variable now : Pg.timestamptz.

(** [fetchUsers]: [if (error) throw error] skips [setUsers]; [finally]
    clears [loading]. *)
Definition fetchUsers (db : database) (st : Users.state) : outcome Users.state :=
  if Rls.accepted ps Rls.profiles [Rls.SELECT]
  then Users.fetchUsers db uid st
  else {| state_of := {| Users.users := Users.users st; Users.loading := false;
                         Users.modalOpen := Users.modalOpen st;
                         Users.editingUser := Users.editingUser st;
                         Users.formData := Users.formData st |};
          store_of := db; requests_of := [select_from "profiles"] |}.

(** [handleSubmit]: an UPDATE with a filter on [id]. *)
Definition handleSubmit (db : database) (st : Users.state)
    : outcome Users.state :=
  match Users.editingUser st with
  | None => {| state_of := st; store_of := db; requests_of := [] |}
  | Some u =>
      let failed := {| state_of := st; store_of := db;
                       requests_of := [update_of "profiles"] |} in
      if Rls.accepted ps Rls.profiles [Rls.UPDATE; Rls.SELECT] then
        match Store.profiles_update sx db uid now
                (Users.handleSubmit_body (Users.formData st))
                (fun r => String.eqb (Profiles.id r) (Profiles.id u)) with
        | Pg.Ok db' =>
            let o := fetchUsers db'
                       {| Users.users := Users.users st;
                          Users.loading := Users.loading st;
                          Users.modalOpen := false; Users.editingUser := None;
                          Users.formData := Users.formData st |} in
            {| state_of := state_of o; store_of := store_of o;
               requests_of := update_of "profiles" :: requests_of o |}
        | Pg.Err _ => failed
        end
      else failed
  end.

(** [toggleUserStatus(user)]: an UPDATE with a filter on [id]. *)
Definition toggleUserStatus (user : Profiles.row) (db : database)
    (st : Users.state) : outcome Users.state :=
  let failed := {| state_of := st; store_of := db;
                   requests_of := [update_of "profiles"] |} in
  if Rls.accepted ps Rls.profiles [Rls.UPDATE; Rls.SELECT] then
    match Store.profiles_update sx db uid now (Users.toggleUserStatus_body user)
            (fun r => String.eqb (Profiles.id r) (Profiles.id user)) with
    | Pg.Ok db' =>
        let o := fetchUsers db' st in
        {| state_of := state_of o; store_of := store_of o;
           requests_of := update_of "profiles" :: requests_of o |}
    | Pg.Err _ => failed
    end
  else failed.
End Session.
End DeployedUsers.

Module DeployedTasksPage.
Section Session.
Variable ps : list Rls.policy.
Variable sx : Pg.syntax.
Variable uid : Pg.uuid.
Variable profile : option Profiles.row.

(** [fetchTasks]: [if (error) throw error] skips [setTasks]; [finally]
    clears [loading]. *)
Definition fetchTasks (db : database) (st : TasksPage.state)
    : outcome TasksPage.state :=
  if Rls.accepted ps Rls.tasks [Rls.SELECT]
  then TasksPage.fetchTasks uid db st
  else {| state_of := TasksPage.setTasks (TasksPage.tasks st) st;
          store_of := db; requests_of := [select_from "tasks"] |}.

(** [handleSubmit]: an UPDATE with a filter on [id], or an INSERT without
    RETURNING. *)
Definition handleSubmit (server_now : Pg.timestamptz) (new_id : Pg.uuid)
    (db : database) (st : TasksPage.state) : outcome TasksPage.state :=
  let sent :=
    match TasksPage.editingTask st with
    | Some t =>
        (update_of "tasks",
         if Rls.accepted ps Rls.tasks [Rls.UPDATE; Rls.SELECT]
         then Some (Store.tasks_update sx db uid server_now
                      (TasksPage.taskData profile (TasksPage.formData st))
                      (fun r => String.eqb (Tasks.id r) (Tasks.id t)))
         else None)
    | None =>
        (insert_into "tasks",
         if Rls.accepted ps Rls.tasks [Rls.INSERT]
         then Some (Store.tasks_insert sx db uid new_id server_now
                      (TasksPage.taskData profile (TasksPage.formData st)))
         else None)
    end in
  match snd sent with
  | Some (Pg.Ok db') =>
      let o := fetchTasks db'
                 (TasksPage.resetForm (TasksPage.setModalOpen false st)) in
      {| state_of := state_of o; store_of := store_of o;
         requests_of := fst sent :: requests_of o |}
  | _ => {| state_of := st; store_of := db; requests_of := [fst sent] |}
  end.

(** [handleDelete(id)]: a DELETE with a filter on [id];
    [if (error) throw error] skips the refetch. *)
Definition handleDelete (confirmed : bool) (id : Pg.uuid) (db : database)
    (st : TasksPage.state) : deletion TasksPage.state :=
  if confirmed then
    {| delete_sent := Some "tasks";
       and_then :=
         if Rls.accepted ps Rls.tasks [Rls.DELETE; Rls.SELECT]
         then fetchTasks
                (Store.tasks_delete db uid (fun r => String.eqb (Tasks.id r) id))
                st
         else {| state_of := st; store_of := db; requests_of := [] |} |}
  else
    {| delete_sent := None;
       and_then := {| state_of := st; store_of := db; requests_of := [] |} |}.
End Session.
End DeployedTasksPage.

Module DeployedProjectsPage.
Section Session.
Variable ps : list Rls.policy.
Variable uid : Pg.uuid.

(** [fetchProjects]: [if (error) throw error] skips [setProjects];
    [finally] clears [loading]. *)
Definition fetchProjects (db : database) (st : ProjectsPage.state)
    : outcome ProjectsPage.state :=
  if Rls.accepted ps Rls.projects [Rls.SELECT]
  then ProjectsPage.fetchProjects uid db st
  else {| state_of :=
            {| ProjectsPage.projects := ProjectsPage.projects st;
               ProjectsPage.users := ProjectsPage.users st;
               ProjectsPage.loading := false;
               ProjectsPage.modalOpen := ProjectsPage.modalOpen st;
               ProjectsPage.editingProject := ProjectsPage.editingProject st;
               ProjectsPage.formData := ProjectsPage.formData st |};
          store_of := db; requests_of := [select_from "projects"] |}.

(** [handleDelete(id)]: a DELETE with a filter on [id];
    [if (error) throw error] skips the refetch. *)
Definition handleDelete (confirmed : bool) (id : Pg.uuid) (db : database)
    (st : ProjectsPage.state) : deletion ProjectsPage.state :=
  if confirmed then
    {| delete_sent := Some "projects";
       and_then :=
         if Rls.accepted ps Rls.projects [Rls.DELETE; Rls.SELECT]
         then fetchProjects
                (Store.projects_delete db uid
                   (fun r => String.eqb (Projects.id r) id))
                st
         else {| state_of := st; store_of := db; requests_of := [] |} |}
  else
    {| delete_sent := None;
       and_then := {| state_of := st; store_of := db; requests_of := [] |} |}.
(** [handleSubmit]: an UPDATE with a filter on [id], or an INSERT without
    RETURNING; on success [fetchProjects] runs again. *)
Definition handleSubmit (sx : Pg.syntax) (server_now : Pg.timestamptz)
    (new_id : Pg.uuid) (db : database) (st : ProjectsPage.state)
    : outcome ProjectsPage.state :=
  let sent :=
    match ProjectsPage.editingProject st with
    | Some p =>
        (update_of "projects",
         if Rls.accepted ps Rls.projects [Rls.UPDATE; Rls.SELECT]
         then Some (Store.projects_update sx db uid server_now
                      (ProjectsPage.body (ProjectsPage.formData st))
                      (fun r => String.eqb (Projects.id r) (Projects.id p)))
         else None)
    | None =>
        (insert_into "projects",
         if Rls.accepted ps Rls.projects [Rls.INSERT]
         then Some (Store.projects_insert sx db uid new_id server_now
                      (ProjectsPage.body (ProjectsPage.formData st)))
         else None)
    end in
  match snd sent with
  | Some (Pg.Ok db') =>
      let o := fetchProjects db'
                 (ProjectsPage.resetForm (ProjectsPage.setModalOpen false st)) in
      {| state_of := state_of o; store_of := store_of o;
         requests_of := fst sent :: requests_of o |}
  | _ => {| state_of := st; store_of := db; requests_of := [fst sent] |}
  end.
End Session.
End DeployedProjectsPage.

(** *** The reports page

    Of [fetchReports], the task statistics and the project progress: what
    it passes to [setTaskStats] and [setProjectProgress], and the total the
    page renders from the statistics.  The hours (floating point) are not
    modelled. *)

Module Reports.
Record TaskStats : Type := { status : string; count : nat }.

Record ProjectProgress : Type := {
  name : Pg.text;
  completed : nat;
  total : nat
}.

(** [acc[k] = (acc[k] || 0) + 1] on an object used as a map; its keys are
    kept in the order they were first written. *)
Fixpoint bump (k : string) (acc : list (string * nat)) : list (string * nat) :=
  match acc with
  | [] => [(k, 1%nat)]
  | (k', n) :: acc' =>
      if String.eqb k k' then (k', S n) :: acc' else (k', n) :: bump k acc'
  end.

(** [tasks.reduce((acc, task) => { acc[task.status] = ...; return acc; }, {})] *)
Definition statusCounts (tasks : list Tasks.row) : list (string * nat) :=
  fold_left (fun acc task => bump (Tasks.status task) acc) tasks [].

(** [s.replace('_', ' ')]: the first underscore only. *)
Fixpoint replace_underscore (s : string) : string :=
  match s with
  | EmptyString => EmptyString
  | String c s' =>
      if Ascii.eqb c "_"%char then String " "%char s'
      else String c (replace_underscore s')
  end.

(** [s.toUpperCase()] on the ASCII letters, which is all a status holds. *)
Definition upper (c : Ascii.ascii) : Ascii.ascii :=
  let n := Ascii.nat_of_ascii c in
  if ((97 <=? n) && (n <=? 122))%nat then Ascii.ascii_of_nat (n - 32) else c.

Fixpoint toUpperCase (s : string) : string :=
  match s with
  | EmptyString => EmptyString
  | String c s' => String (upper c) (toUpperCase s')
  end.

(** [Object.entries(statusCounts).map(([status, count]) => ({ status:
      status.replace('_', ' ').toUpperCase(), count }))] *)
Definition statsData (counts : list (string * nat)) : list TaskStats :=
  map (fun e => {| status := toUpperCase (replace_underscore (fst e));
                   count := snd e |})
      counts.

(** What [fetchReports] passes to [setTaskStats]. *)
Definition taskStats (db : database) (uid : Pg.uuid) : list TaskStats :=
  statsData (statusCounts (Store.tasks_select db uid (fun _ => true))).

(** What [fetchReports] passes to [setProjectProgress]: for every visible
    project, its visible tasks and the completed ones among them. *)
Definition progressData (db : database) (uid : Pg.uuid) : list ProjectProgress :=
  map (fun project =>
         let projectTasks :=
           Store.tasks_select db uid
             (fun t => Pg.eq_opt (Tasks.project_id t) (Projects.id project)) in
         {| name := Projects.name project;
            completed :=
              List.length (filter (fun t => String.eqb (Tasks.status t) "completed")
                             projectTasks);
            total := List.length projectTasks |})
      (Store.projects_select db uid (fun _ => true)).

(** The "Total Tasks" card:
    [taskStats.reduce((sum, stat) => sum + stat.count, 0)] *)
Definition totalTasks (stats : list TaskStats) : nat :=
  fold_left (fun sum stat => (sum + count stat)%nat) stats 0%nat.
End Reports.

(** ** Vocabulary of the properties *)

Module Spec.
Definition us_per_minute : Z := 60000000.

(** Whole minutes of an interval, truncated toward zero. *)
Definition truncated_minutes (interval : Z) : Z :=
  Z.quot interval us_per_minute.

(** Whole minutes of an interval, rounded to the nearest minute, a half
    minute away from zero. *)
Definition nearest_minutes (interval : Z) : Z :=
  Z.sgn interval * ((Z.abs interval + us_per_minute / 2) / us_per_minute).

(** The duration rule of a [time_logs] row. *)
Definition duration_rule (minutes : Z -> Z) (r : TimeLogs.row) : Prop :=
  match TimeLogs.end_time r with
  | Some e =>
      TimeLogs.duration_minutes r = Some (minutes (e - TimeLogs.start_time r))
  | None => TimeLogs.duration_minutes r = None
  end.

(** The stores a history of statements leads to, as far as [time_logs]
    is concerned: the table starts empty; rows enter by INSERT and change
    by UPDATE; anything else (statements on other tables, DELETE) keeps
    or drops rows of [time_logs] without changing them. *)
Inductive history (sx : Pg.syntax) : database -> Prop :=
| history_start (db : database) :
    time_logs db = [] -> history sx db
| history_insert (db db' : database) (uid new_id : Pg.uuid)
    (now : Pg.timestamptz) (v : TimeLogsValues.t) (r : TimeLogs.row) :
    history sx db ->
    Store.time_logs_insert sx db uid new_id now v = Pg.Ok (db', r) ->
    history sx db'
| history_update (db db' : database) (uid : Pg.uuid) (now : Pg.timestamptz)
    (v : TimeLogsValues.t) (selected : TimeLogs.row -> bool) :
    history sx db ->
    Store.time_logs_update sx db uid now v selected = Pg.Ok db' ->
    history sx db'
| history_other (db db' : database) :
    history sx db ->
    incl (time_logs db') (time_logs db) ->
    history sx db'.


(** The page knows the user's running log, and can stop it: it holds no
    active log and the user has none running, or it holds the one that is
    running and that log is ['approved'], as a log started by the timer is
    stored.  The status matters: the owner's update policy covers pending
    and approved logs only, so a log that an admin has rejected cannot be
    stopped by its owner (see [stop_then_start_on_rejected_log]). *)
Definition in_sync (uid : Pg.uuid) (db : database) (st : TimeTracking.state) : Prop :=
  match TimeTracking.activeLog st with
  | None => TimeTracking.running uid db = []
  | Some a =>
      exists r, TimeTracking.running uid db = [r]
                /\ TimeLogs.id r = TimeLogs.id a
                /\ TimeLogs.approval_status r = "approved"
  end.

(** The body of an update that sets [approval_status] and nothing else. *)
Definition set_approval_status (s : Pg.text) : TimeLogsValues.t :=
  {| TimeLogsValues.user_id := Pg.Absent; TimeLogsValues.task_id := Pg.Absent;
     TimeLogsValues.project_id := Pg.Absent;
     TimeLogsValues.start_time := Pg.Absent;
     TimeLogsValues.end_time := Pg.Absent;
     TimeLogsValues.duration_minutes := Pg.Absent;
     TimeLogsValues.date := Pg.Absent;
     TimeLogsValues.approval_status := Pg.Val s |}.

(** A stored log with another [approval_status] and [updated_at]. *)
Definition with_approval_status (s : Pg.text) (now : Pg.timestamptz)
    (r : TimeLogs.row) : TimeLogs.row :=
  {| TimeLogs.id := TimeLogs.id r; TimeLogs.user_id := TimeLogs.user_id r;
     TimeLogs.task_id := TimeLogs.task_id r;
     TimeLogs.project_id := TimeLogs.project_id r;
     TimeLogs.start_time := TimeLogs.start_time r;
     TimeLogs.end_time := TimeLogs.end_time r;
     TimeLogs.duration_minutes := TimeLogs.duration_minutes r;
     TimeLogs.date := TimeLogs.date r; TimeLogs.approval_status := s;
     TimeLogs.created_at := TimeLogs.created_at r;
     TimeLogs.updated_at := Some now |}.

(** The list is in descending order of [key]. *)
Definition descending {A : Type} (key : A -> Z) (l : list A) : Prop :=
  StronglySorted (fun a b => key b <= key a) l.

(** The [profiles] table satisfies its constraints: the primary key, the
    unique [email], and the CHECKs on [role] and [status]. *)
Definition profiles_ok (db : database) : bool :=
  Pg.no_dups (map Profiles.id (profiles db))
  && Pg.no_dups (map Profiles.email (profiles db))
  && forallb (fun p => Profiles.role_check (Profiles.role p)
                       && Profiles.status_check (Profiles.status p))
             (profiles db).

(** A stored profile with another [role], [status] and [updated_at]. *)
Definition with_role_status (r s : Pg.text) (now : Pg.timestamptz)
    (p : Profiles.row) : Profiles.row :=
  {| Profiles.id := Profiles.id p; Profiles.full_name := Profiles.full_name p;
     Profiles.email := Profiles.email p; Profiles.role := r;
     Profiles.status := s; Profiles.created_at := Profiles.created_at p;
     Profiles.updated_at := Some now |}.

(** The table after the profile [i] has been changed by [g]. *)
Definition change_profile (i : Pg.uuid) (g : Profiles.row -> Profiles.row)
    (l : list Profiles.row) : list Profiles.row :=
  map (fun p => if String.eqb (Profiles.id p) i then g p else p) l.

(** A key that is left out or carries [null]. *)
Definition is_null {A : Type} (f : Pg.field A) : Prop :=
  match f with
  | Pg.Val _ => False
  | _ => True
  end.

(** [n] is the number of elements of [l] that satisfy [P]. *)
Inductive number_of {A : Type} (P : A -> Prop) : list A -> nat -> Prop :=
| number_of_nil : number_of P [] 0
| number_of_yes (a : A) (l : list A) (n : nat) :
    P a -> number_of P l n -> number_of P (a :: l) (S n)
| number_of_no (a : A) (l : list A) (n : nat) :
    ~ P a -> number_of P l n -> number_of P (a :: l) n.

(** A task is overdue at [now]: it has an end date, the end date (the
    instant its day starts, UTC) is strictly before [now], and it is not
    completed. *)
Definition overdue_at (now : Z) (t : Tasks.row) : Prop :=
  exists d, Tasks.end_date t = Some d
            /\ Js.Date_of_date d < now
            /\ Tasks.status t <> "completed".
End Spec.

(** ** Sample data *)

Module Sample.
(** Input functions that read a decimal day number and a decimal
    microsecond count; they stand in for the store's where a concrete
    store is needed. *)
Fixpoint digits (s : string) (acc : Z) : option Z :=
  match s with
  | EmptyString => Some acc
  | String c s' =>
      let n := Z.of_nat (Ascii.nat_of_ascii c) - 48 in
      if (0 <=? n) && (n <=? 9) then digits s' (10 * acc + n) else None
  end.

Definition number_in (s : string) : option Z :=
  match s with
  | EmptyString => None
  | _ => digits s 0
  end.

Definition sx : Pg.syntax :=
  {| Pg.uuid_in := fun s => if String.eqb s "" then None else Some s;
     Pg.date_in := number_in;
     Pg.timestamptz_in := number_in |}.

Definition profile (i : Pg.uuid) (r : Pg.text) : Profiles.row :=
  {| Profiles.id := i; Profiles.full_name := i; Profiles.email := i;
     Profiles.role := r; Profiles.status := "active";
     Profiles.created_at := Some 0; Profiles.updated_at := Some 0 |}.

Definition alice : Profiles.row := profile "alice" "employee".
Definition root : Profiles.row := profile "root" "admin".

Definition task (i : Pg.uuid) (owner : Pg.uuid) (st : Pg.text)
    (e : option Pg.date) : Tasks.row :=
  {| Tasks.id := i; Tasks.name := i; Tasks.description := None;
     Tasks.project_id := None; Tasks.assigned_to := None;
     Tasks.status := st; Tasks.start_date := None; Tasks.end_date := e;
     Tasks.created_by := owner; Tasks.created_at := Some 0;
     Tasks.updated_at := Some 0 |}.

(** A store with an employee, an admin, and one task of the employee. *)
Definition db0 : database :=
  {| profiles := [alice; root]; projects := []; project_members := [];
     tasks := [task "t1" "alice" "in_progress" None]; time_logs := [] |}.

(** 2025-01-01 09:00:00 UTC and 09:01:30 UTC, in microseconds, and the
    day number of 2025-01-01. *)
Definition t_09_00_00 : Pg.timestamptz := 1735722000000000.
Definition t_09_01_30 : Pg.timestamptz := 1735722090000000.
Definition d_2025_01_01 : Pg.date := 20089.

Definition entry (s e : Pg.timestamptz) : TimeLogsValues.t :=
  {| TimeLogsValues.user_id := Pg.Val (Pg.Lit "alice");
     TimeLogsValues.task_id := Pg.Val (Pg.Lit "t1");
     TimeLogsValues.project_id := Pg.Absent;
     TimeLogsValues.start_time := Pg.Val (Pg.Lit s);
     TimeLogsValues.end_time := Pg.Val (Pg.Lit e);
     TimeLogsValues.duration_minutes := Pg.Absent;
     TimeLogsValues.date := Pg.Val (Pg.Lit d_2025_01_01);
     TimeLogsValues.approval_status := Pg.Absent |}.

(** The store after the employee logs 09:00:00 to 09:01:30. *)
Definition logged : Pg.result (database * TimeLogs.row) :=
  Store.time_logs_insert sx db0 "alice" "l1" 5 (entry t_09_00_00 t_09_01_30).

Definition db1 : database :=
  match logged with Pg.Ok (db, _) => db | Pg.Err _ => db0 end.

Definition row1 : TimeLogs.row :=
  {| TimeLogs.id := "l1"; TimeLogs.user_id := "alice";
     TimeLogs.task_id := "t1"; TimeLogs.project_id := None;
     TimeLogs.start_time := t_09_00_00;
     TimeLogs.end_time := Some t_09_01_30;
     TimeLogs.duration_minutes := Some 2; TimeLogs.date := d_2025_01_01;
     TimeLogs.approval_status := "approved";
     TimeLogs.created_at := Some 5; TimeLogs.updated_at := Some 5 |}.

(** The employee's time tracking page.  [now0] is 09:00:00 on the
    clock of the browser, in milliseconds. *)
Definition now0 : Z := 1735722000000.

(** The state once [fetchTimeLogs] and [fetchTasks] have answered and
    [checkActiveLog] has not yet: a page just opened. *)
Definition opening (db : database) : TimeTracking.state :=
  state_of
    (TimeTracking.fetchTasks "alice" (Some alice) db
       (state_of (TimeTracking.fetchTimeLogs "alice" (Some alice) db
                    (TimeTracking.initial now0)))).

(** The state once all three requests of the mount effect have
    answered. *)
Definition mounted (db : database) : TimeTracking.state :=
  state_of (TimeTracking.effect "alice" (Some alice) db
              (TimeTracking.initial now0)).

(** The employee starts a timer on the mounted page ... *)
Definition first_start : outcome TimeTracking.state :=
  TimeTracking.startTimer sx "alice" (Some alice) now0 5 "l1" "t1"
    db0 (mounted db0).

(** ... opens the page again (a second tab, a reload) and clicks a start
    button before [checkActiveLog] has answered. *)
Definition second_start : outcome TimeTracking.state :=
  TimeTracking.startTimer sx "alice" (Some alice) (now0 + 2000) 6 "l2" "t1"
    (store_of first_start) (opening (store_of first_start)).

(** A body that sets [role] and nothing else, and one that sets
    [full_name] and nothing else. *)
Definition set_role (r : Pg.text) : ProfilesValues.t :=
  {| ProfilesValues.id := Pg.Absent; ProfilesValues.full_name := Pg.Absent;
     ProfilesValues.email := Pg.Absent; ProfilesValues.role := Pg.Val r;
     ProfilesValues.status := Pg.Absent |}.

Definition set_full_name (n : Pg.text) : ProfilesValues.t :=
  {| ProfilesValues.id := Pg.Absent; ProfilesValues.full_name := Pg.Val n;
     ProfilesValues.email := Pg.Absent; ProfilesValues.role := Pg.Absent;
     ProfilesValues.status := Pg.Absent |}.

Definition is_alice (r : Profiles.row) : bool :=
  String.eqb (Profiles.id r) "alice".

(** The employee renames herself; she asks for the role of a project
    manager; the admin gives it to her. *)
Definition renamed : Pg.result database :=
  Store.profiles_update sx db0 "alice" 9 (set_full_name "Alice A.") is_alice.

Definition db_renamed : database :=
  match renamed with Pg.Ok db => db | Pg.Err _ => db0 end.

Definition self_promoted : Pg.result database :=
  Store.profiles_update sx db0 "alice" 9 (set_role "project_manager") is_alice.

Definition promoted : Pg.result database :=
  Store.profiles_update sx db0 "root" 9 (set_role "project_manager") is_alice.

(** A dashboard day: [now1] is 2025-01-02 10:00:00 UTC in milliseconds;
    three tasks of the employee, two of them due the day before. *)
Definition now1 : Z := 1735812000000.

Definition db_tasks : database :=
  {| profiles := [alice; root]; projects := []; project_members := [];
     tasks := [task "late" "alice" "in_progress" (Some d_2025_01_01);
               task "done" "alice" "completed" (Some d_2025_01_01);
               task "open" "alice" "to_do" None];
     time_logs := [] |}.

(** The calendar showing that store, in a zone five hours behind UTC. *)
Definition tz_minus_5 (t : Z) : Z := - 18000000.

Definition calendar : Calendar.state :=
  {| Calendar.currentDate := now1; Calendar.tasks := tasks db_tasks;
     Calendar.selectedDate := Some now1 |}.

(** A project with a name and nothing else, created by the admin at
    store time 9, and the project page's untouched form with a name
    typed in. *)
Definition bare_project : ProjectsValues.t :=
  {| ProjectsValues.name := Pg.Val "Apollo";
     ProjectsValues.description := Pg.Null;
     ProjectsValues.manager_id := Pg.Null;
     ProjectsValues.start_date := Pg.Null;
     ProjectsValues.end_date := Pg.Null;
     ProjectsValues.status := Pg.Absent |}.

Definition apollo : Projects.row :=
  {| Projects.id := "p1"; Projects.name := "Apollo";
     Projects.description := None; Projects.manager_id := None;
     Projects.start_date := None; Projects.end_date := None;
     Projects.status := "planned"; Projects.created_at := Some 9;
     Projects.updated_at := Some 9 |}.

Definition named_form : ProjectsPage.form :=
  {| ProjectsPage.name := "Apollo"; ProjectsPage.description := "";
     ProjectsPage.manager_id := Pg.Text "";
     ProjectsPage.start_date := Pg.Text "";
     ProjectsPage.end_date := Pg.Text ""; ProjectsPage.status := "planned" |}.

Definition new_project_page : ProjectsPage.state :=
  {| ProjectsPage.projects := []; ProjectsPage.users := [alice; root];
     ProjectsPage.loading := false; ProjectsPage.modalOpen := true;
     ProjectsPage.editingProject := None;
     ProjectsPage.formData := named_form |}.

(** The manual entry form, filled in with what the sample input
    functions read as 09:00:00 and 09:01:30 of 2025-01-01, and its
    submission. *)
Definition manual_form : TimeTracking.form :=
  {| TimeTracking.task_id := "t1";
     TimeTracking.start_time := "1735722000000000";
     TimeTracking.end_time := "1735722090000000";
     TimeTracking.date := Pg.Text "20089" |}.

Definition manual_entry : outcome TimeTracking.state :=
  TimeTracking.handleManualEntry sx "alice" (Some alice) now0 5 "m1" db0
    (TimeTracking.setFormData manual_form (mounted db0)).

(** The timer of [first_start], stopped ninety seconds later. *)
Definition stopped : outcome TimeTracking.state :=
  TimeTracking.stopTimer sx "alice" (Some alice) (now0 + 90000) 7
    (store_of first_start) (state_of first_start).

(** Midnight of 2025-01-01 and of 2024-12-31 on the local clock of a
    zone five hours behind UTC, and midnight of 2025-01-01 UTC, as
    JavaScript dates. *)
Definition jan_1_local : Z := 1735707600000.
Definition dec_31_local : Z := 1735621200000.
Definition jan_1_utc : Z := 1735689600000.
Definition tz_utc (t : Z) : Z := 0.

(** The employee's running log after an admin has rejected it, and her
    page, which still holds it as the active log. *)
Definition rejected_log : TimeLogs.row :=
  {| TimeLogs.id := "l1"; TimeLogs.user_id := "alice";
     TimeLogs.task_id := "t1"; TimeLogs.project_id := None;
     TimeLogs.start_time := t_09_00_00; TimeLogs.end_time := None;
     TimeLogs.duration_minutes := None; TimeLogs.date := d_2025_01_01;
     TimeLogs.approval_status := "rejected";
     TimeLogs.created_at := Some 5; TimeLogs.updated_at := Some 6 |}.

Definition db_rejected : database :=
  with_time_logs [rejected_log] db0.

Definition page_rejected : TimeTracking.state :=
  TimeTracking.setActiveLog (Some rejected_log) (mounted db0).

(** The pending manual entry of [manual_entry], as stored. *)
Definition pending_entry : TimeLogs.row :=
  {| TimeLogs.id := "m1"; TimeLogs.user_id := "alice";
     TimeLogs.task_id := "t1"; TimeLogs.project_id := None;
     TimeLogs.start_time := t_09_00_00;
     TimeLogs.end_time := Some t_09_01_30;
     TimeLogs.duration_minutes := Some 2; TimeLogs.date := d_2025_01_01;
     TimeLogs.approval_status := "pending";
     TimeLogs.created_at := Some 5; TimeLogs.updated_at := Some 5 |}.

Definition db_pending : database := with_time_logs [pending_entry] db0.

(** A second employee, and a store that holds a pending entry of the first
    and an approved log of the second. *)
Definition bob_log : TimeLogs.row :=
  {| TimeLogs.id := "b1"; TimeLogs.user_id := "bob";
     TimeLogs.task_id := "t9"; TimeLogs.project_id := None;
     TimeLogs.start_time := t_09_00_00;
     TimeLogs.end_time := Some t_09_01_30;
     TimeLogs.duration_minutes := Some 2; TimeLogs.date := d_2025_01_01;
     TimeLogs.approval_status := "approved";
     TimeLogs.created_at := Some 5; TimeLogs.updated_at := Some 5 |}.

Definition db_shared : database := with_time_logs [pending_entry; bob_log] db0.

Definition all_approved : Pg.result database :=
  Store.time_logs_update sx db_shared "alice" 9
    (Spec.set_approval_status "approved") (fun _ => true).

Definition db_all_approved : database :=
  match all_approved with Pg.Ok db => db | Pg.Err _ => db_shared end.

(** A team: two employees and the admin; a task the first employee
    created and assigned to the second, with a log of the second on it,
    and a task of the first with a log of her own. *)
Definition bob : Profiles.row := profile "bob" "employee".

Definition shared_task : Tasks.row :=
  {| Tasks.id := "t9"; Tasks.name := "Review"; Tasks.description := None;
     Tasks.project_id := None; Tasks.assigned_to := Some "bob";
     Tasks.status := "to_do"; Tasks.start_date := Some d_2025_01_01;
     Tasks.end_date := Some (d_2025_01_01 + 7); Tasks.created_by := "alice";
     Tasks.created_at := Some 1; Tasks.updated_at := Some 1 |}.

Definition db_team : database :=
  {| profiles := [alice; bob; root]; projects := []; project_members := [];
     tasks := [task "t1" "alice" "in_progress" None; shared_task];
     time_logs := [pending_entry; bob_log] |}.

(** The tasks page of the second employee, with the shared task opened
    for editing, and of the first, with a new task typed in. *)
Definition tasks_page_bob : TasksPage.state :=
  TasksPage.openEditModal shared_task
    (state_of (TasksPage.effect "bob" db_team TasksPage.initial)).

Definition new_task_form : TasksPage.form :=
  {| TasksPage.name := "Write report"; TasksPage.description := "";
     TasksPage.project_id := Pg.Text ""; TasksPage.assigned_to := Pg.Text "";
     TasksPage.status := "to_do";
     TasksPage.start_date := Pg.Lit d_2025_01_01;
     TasksPage.end_date := Pg.Lit (d_2025_01_01 + 1) |}.

Definition tasks_page_alice : TasksPage.state :=
  {| TasksPage.tasks := []; TasksPage.projects := []; TasksPage.users := [];
     TasksPage.loading := false; TasksPage.modalOpen := true;
     TasksPage.editingTask := None; TasksPage.filterStatus := "all";
     TasksPage.formData := new_task_form |}.

Definition undated_task_page : TasksPage.state :=
  {| TasksPage.tasks := []; TasksPage.projects := []; TasksPage.users := [];
     TasksPage.loading := false; TasksPage.modalOpen := true;
     TasksPage.editingTask := None; TasksPage.filterStatus := "all";
     TasksPage.formData :=
       {| TasksPage.name := "Write report"; TasksPage.description := "";
          TasksPage.project_id := Pg.Text ""; TasksPage.assigned_to := Pg.Text "";
          TasksPage.status := "to_do";
          TasksPage.start_date := Pg.Lit d_2025_01_01;
          TasksPage.end_date := Pg.Text "" |} |}.

Definition task_created : Pg.result database :=
  Store.tasks_insert sx db0 "alice" "t2" 9
    (TasksPage.taskData (Some alice) new_task_form).

Definition db_task_created : database :=
  match task_created with Pg.Ok db => db | Pg.Err _ => db0 end.

(** The users page of the admin, with the first employee opened for
    editing and the role changed in the form. *)
Definition users_page_root : Users.state :=
  state_of (Users.fetchUsers db_team "root" Users.initial).

Definition users_page_editing : Users.state :=
  let st := Users.openEditModal alice users_page_root in
  {| Users.users := Users.users st; Users.loading := Users.loading st;
     Users.modalOpen := Users.modalOpen st;
     Users.editingUser := Users.editingUser st;
     Users.formData := {| Users.f_role := "project_manager";
                          Users.f_status := "active" |} |}.

(** A project manager and two projects, one managed by her and one by the
    admin; the second employee is a member of the first project.  The
    first project has a task, with a log booked on the project and a log
    booked on the task alone. *)
Definition carol : Profiles.row := profile "carol" "project_manager".

Definition gemini : Projects.row :=
  {| Projects.id := "p7"; Projects.name := "Gemini";
     Projects.description := Some "Two at a time";
     Projects.manager_id := Some "carol";
     Projects.start_date := Some d_2025_01_01;
     Projects.end_date := Some (d_2025_01_01 + 30);
     Projects.status := "in_progress"; Projects.created_at := Some 2;
     Projects.updated_at := Some 2 |}.

Definition hermes : Projects.row :=
  {| Projects.id := "p8"; Projects.name := "Hermes";
     Projects.description := None; Projects.manager_id := Some "root";
     Projects.start_date := None; Projects.end_date := None;
     Projects.status := "planned"; Projects.created_at := Some 3;
     Projects.updated_at := Some 3 |}.

Definition gemini_task : Tasks.row :=
  {| Tasks.id := "t7"; Tasks.name := "Dock"; Tasks.description := None;
     Tasks.project_id := Some "p7"; Tasks.assigned_to := Some "bob";
     Tasks.status := "in_progress"; Tasks.start_date := None;
     Tasks.end_date := None; Tasks.created_by := "carol";
     Tasks.created_at := Some 4; Tasks.updated_at := Some 4 |}.

Definition log_on (i : Pg.uuid) (t : Pg.uuid) (p : option Pg.uuid)
    : TimeLogs.row :=
  {| TimeLogs.id := i; TimeLogs.user_id := "bob"; TimeLogs.task_id := t;
     TimeLogs.project_id := p; TimeLogs.start_time := t_09_00_00;
     TimeLogs.end_time := Some t_09_01_30;
     TimeLogs.duration_minutes := Some 2; TimeLogs.date := d_2025_01_01;
     TimeLogs.approval_status := "approved";
     TimeLogs.created_at := Some 5; TimeLogs.updated_at := Some 5 |}.

Definition db_projects : database :=
  {| profiles := [alice; bob; carol; root];
     projects := [gemini; hermes];
     project_members :=
       [ {| ProjectMembers.id := "pm1"; ProjectMembers.project_id := "p7";
            ProjectMembers.user_id := "bob";
            ProjectMembers.created_at := Some 4 |} ];
     tasks := [task "t1" "alice" "in_progress" None; gemini_task];
     time_logs := [pending_entry; log_on "l7" "t7" (Some "p7");
                   log_on "l8" "t7" None] |}.

(** The project page of the manager, with her project opened for editing
    and renamed, and the same with the admin chosen as manager. *)
Definition projects_page_carol : ProjectsPage.state :=
  let st := ProjectsPage.openEditModal gemini
              (state_of (ProjectsPage.fetchProjects "carol" db_projects
                           ProjectsPage.initial)) in
  {| ProjectsPage.projects := ProjectsPage.projects st;
     ProjectsPage.users := ProjectsPage.users st;
     ProjectsPage.loading := ProjectsPage.loading st;
     ProjectsPage.modalOpen := ProjectsPage.modalOpen st;
     ProjectsPage.editingProject := ProjectsPage.editingProject st;
     ProjectsPage.formData :=
       {| ProjectsPage.name := "Gemini II";
          ProjectsPage.description :=
            ProjectsPage.description (ProjectsPage.formData st);
          ProjectsPage.manager_id :=
            ProjectsPage.manager_id (ProjectsPage.formData st);
          ProjectsPage.start_date :=
            ProjectsPage.start_date (ProjectsPage.formData st);
          ProjectsPage.end_date :=
            ProjectsPage.end_date (ProjectsPage.formData st);
          ProjectsPage.status :=
            ProjectsPage.status (ProjectsPage.formData st) |} |}.

(** Policies that expand: the shipped ones without their sub-selects on
    [profiles] and [project_members], as when the admin test and the
    membership test go through functions that read those tables without
    their policies. *)
Definition repaired : list Rls.policy :=
  map (fun p =>
         {| Rls.name := Rls.name p; Rls.table := Rls.table p;
            Rls.command_of := Rls.command_of p;
            Rls.reads :=
              filter (fun r => negb (Rls.relation_eqb r Rls.profiles
                                     || Rls.relation_eqb r Rls.project_members))
                     (Rls.reads p) |})
      Rls.shipped.

(** January 2025 as the date library gives it five hours behind UTC: the
    first and the last instant of the month and its days, each at local
    midnight. *)
Definition jan_31_local_end : Z := jan_1_local + 31 * Js.ms_per_day - 1.

Definition january_2025 : list Z :=
  map (fun k => jan_1_local + Z.of_nat k * Js.ms_per_day) (seq 0 31).
End Sample.

(* ===================================================================== *)
(** * Part II: properties                                                 *)
(* ===================================================================== *)

(** ** Reading the outcome of a statement *)

Lemma bind_Ok {A B : Type} (m : Pg.result A) (k : A -> Pg.result B) (b : B) :
  Pg.bind m k = Pg.Ok b -> exists a, m = Pg.Ok a /\ k a = Pg.Ok b.
Proof.
  destruct m as [a | e]; simpl; intros H.
  - exists a; split; [reflexivity | exact H].
  - discriminate H.
Qed.

Lemma guard_Ok (b : bool) (e : Pg.error) (u : unit) :
  Pg.guard b e = Pg.Ok u -> b = true.
Proof.
  destruct b; simpl; intros H; [reflexivity | discriminate H].
Qed.

Lemma not_null_Ok {A : Type} (o : option A) (a : A) :
  Pg.not_null o = Pg.Ok a -> o = Some a.
Proof.
  destruct o; simpl; intros H; [injection H as ->; reflexivity | discriminate H].
Qed.

(** Splits a hypothesis [x <- m ;; k = Ok b] into its steps. *)
Ltac steps H :=
  repeat match type of H with
         | Pg.bind (Pg.guard _ _) _ = Pg.Ok _ =>
             let u := fresh "u" in
             let G := fresh "G" in
             apply bind_Ok in H; destruct H as (u & G & H);
             apply guard_Ok in G
         | Pg.bind (Pg.not_null _) _ = Pg.Ok _ =>
             let a := fresh "a" in
             let N := fresh "N" in
             apply bind_Ok in H; destruct H as (a & N & H);
             apply not_null_Ok in N
         | Pg.bind _ _ = Pg.Ok _ =>
             let a := fresh "a" in
             let E := fresh "E" in
             apply bind_Ok in H; destruct H as (a & E & H)
         end.

Lemma for_each_row_In {A : Type} (f : A -> Pg.result A) (l l' : list A) :
  Pg.for_each_row f l = Pg.Ok l' ->
  forall r', In r' l' -> exists r, In r l /\ f r = Pg.Ok r'.
Proof.
  revert l'; induction l as [| a l IH]; simpl; intros l' H r' Hin.
  - injection H as <-. destruct Hin.
  - steps H. injection H as <-.
    destruct Hin as [<- | Hin].
    + exists a; split; [left; reflexivity | assumption].
    + destruct (IH _ E0 _ Hin) as (r & Hr & Hf).
      exists r; split; [right; assumption | assumption].
Qed.

Lemma for_each_row_length {A : Type} (f : A -> Pg.result A) (l l' : list A) :
  Pg.for_each_row f l = Pg.Ok l' -> List.length l' = List.length l.
Proof.
  revert l'; induction l as [| a l IH]; simpl; intros l' H.
  - injection H as <-; reflexivity.
  - steps H. injection H as <-. simpl. f_equal. apply IH; assumption.
Qed.

Lemma for_each_row_map {A B : Type} (f : A -> Pg.result A) (g : A -> B)
    (l l' : list A) :
  (forall a a', In a l -> f a = Pg.Ok a' -> g a' = g a) ->
  Pg.for_each_row f l = Pg.Ok l' ->
  map g l' = map g l.
Proof.
  revert l'; induction l as [| a l IH]; simpl; intros l' Hf H.
  - injection H as <-; reflexivity.
  - steps H. injection H as <-. simpl. f_equal.
    + apply Hf; [left; reflexivity | assumption].
    + apply IH; [intros; apply Hf; [right |]; assumption | assumption].
Qed.

Lemma for_each_row_forward {A : Type} (f : A -> Pg.result A) (l l' : list A) :
  Pg.for_each_row f l = Pg.Ok l' ->
  forall r, In r l -> exists r', f r = Pg.Ok r' /\ In r' l'.
Proof.
  revert l'; induction l as [| a l IH]; simpl; intros l' H r Hin.
  - destruct Hin.
  - steps H. injection H as <-.
    destruct Hin as [<- | Hin].
    + exists a0; split; [assumption | left; reflexivity].
    + destruct (IH _ E0 _ Hin) as (r' & Hf & Hr').
      exists r'; split; [assumption | right; assumption].
Qed.


(** ** The duration trigger *)

Lemma round_half_away_minutes (interval : Z) :
  Pg.round_half_away (Pg.extract_epoch interval / (60 # 1))%Q
  = Spec.nearest_minutes interval.
Proof.
  unfold Pg.round_half_away, Pg.extract_epoch, Spec.nearest_minutes,
    Spec.us_per_minute.
  cbn [Qdiv Qmult Qinv Qnum Qden].
  change (Z.pos (1000000 * 60)) with 60000000.
  rewrite Z.mul_1_r.
  change (60000000 / 2) with 30000000.
  f_equal.
  replace (2 * Z.abs interval + 60000000)
    with (2 * (Z.abs interval + 30000000)) by lia.
  apply Z.div_mul_cancel_l; lia.
Qed.

(** The rounded value is a nearest whole minute: it is off by at most half
    a minute. *)
Lemma nearest_minutes_nearest (interval : Z) :
  2 * Z.abs (Spec.us_per_minute * Spec.nearest_minutes interval - interval)
  <= Spec.us_per_minute.
Proof.
  unfold Spec.nearest_minutes, Spec.us_per_minute.
  change (60000000 / 2) with 30000000.
  pose proof (Z.div_mod (Z.abs interval + 30000000) 60000000 ltac:(lia)) as D.
  pose proof (Z.mod_pos_bound (Z.abs interval + 30000000) 60000000 ltac:(lia)) as B.
  destruct (Z.sgn_spec interval) as [[? ->] | [[? ->] | [? ->]]]; lia.
Qed.

(** Rounding and truncation agree exactly when the seconds left over are
    fewer than thirty. *)
Lemma nearest_minutes_truncated (interval : Z) :
  Spec.nearest_minutes interval = Spec.truncated_minutes interval
  <-> Z.abs (Z.rem interval Spec.us_per_minute) < Spec.us_per_minute / 2.
Proof.
  unfold Spec.nearest_minutes, Spec.truncated_minutes, Spec.us_per_minute.
  change (60000000 / 2) with 30000000.
  pose proof (Z.div_mod (Z.abs interval + 30000000) 60000000 ltac:(lia)) as D.
  pose proof (Z.mod_pos_bound (Z.abs interval + 30000000) 60000000 ltac:(lia)) as B.
  pose proof (Z.quot_rem' interval 60000000) as Q.
  pose proof (Z.rem_bound_abs interval 60000000 ltac:(lia)) as R.
  assert (S : 0 <= Z.rem interval 60000000 * interval)
    by (apply Z.rem_sign_mul; lia).
  destruct (Z.sgn_spec interval) as [[? ->] | [[? ->] | [? ->]]]; nia.
Qed.

Lemma calculate_time_log_duration_rule (NEW r : TimeLogs.row) :
  TimeLogs.calculate_time_log_duration NEW = Pg.Ok r ->
  Spec.duration_rule Spec.nearest_minutes r
  /\ exists d, r = TimeLogs.set_duration_minutes d NEW.
Proof.
  unfold TimeLogs.calculate_time_log_duration, Spec.duration_rule.
  destruct (TimeLogs.end_time NEW) as [e |] eqn:He; intros H.
  - steps H. injection H as <-. simpl. rewrite He.
    unfold Pg.numeric_to_int4 in E.
    destruct (Pg.in_int4 _); [| discriminate E].
    injection E as <-. rewrite round_half_away_minutes. eauto.
  - injection H as <-. simpl. rewrite He. eauto.
Qed.

Section Duration.
Variable sx : Pg.syntax.

Lemma set_updated_at_duration_rule (m : Z -> Z) (t : option Pg.timestamptz)
    (r : TimeLogs.row) :
  Spec.duration_rule m r -> Spec.duration_rule m (TimeLogs.set_updated_at t r).
Proof.
  unfold Spec.duration_rule; simpl; auto.
Qed.

(** An INSERT appends one row, and that row obeys the rounding rule
    whatever the body carried in [duration_minutes]. *)
Lemma time_logs_insert_duration (db db' : database) (uid new_id : Pg.uuid)
    (now : Pg.timestamptz) (v : TimeLogsValues.t) (r : TimeLogs.row) :
  Store.time_logs_insert sx db uid new_id now v = Pg.Ok (db', r) ->
  time_logs db' = time_logs db ++ [r]
  /\ Spec.duration_rule Spec.nearest_minutes r.
Proof.
  unfold Store.time_logs_insert; intros H. steps H.
  injection H as <- <-. split; [reflexivity |].
  apply calculate_time_log_duration_rule in E0. apply E0.
Qed.

(** An UPDATE leaves a row as it was or rewrites it; a rewritten row
    obeys the rounding rule. *)
Lemma time_logs_update_duration (db db' : database) (uid : Pg.uuid)
    (now : Pg.timestamptz) (v : TimeLogsValues.t)
    (selected : TimeLogs.row -> bool) :
  Store.time_logs_update sx db uid now v selected = Pg.Ok db' ->
  forall r, In r (time_logs db') ->
    In r (time_logs db) \/ Spec.duration_rule Spec.nearest_minutes r.
Proof.
  unfold Store.time_logs_update; intros H r Hin. steps H.
  injection H as <-. simpl in Hin.
  destruct (for_each_row_In _ _ _ E0 _ Hin) as (old & Hold & Hf).
  destruct (selected old && _ && _).
  - right. unfold Store.time_logs_update_row in Hf. steps Hf.
    injection Hf as <-. apply set_updated_at_duration_rule.
    apply calculate_time_log_duration_rule in E1. apply E1.
  - left. injection Hf as <-. assumption.
Qed.

(** C1 (as amended).  After any history of inserts and updates, every
    [time_logs] row with an [end_time] stores in [duration_minutes] the
    minutes of [end_time - start_time] rounded to the nearest integer (a
    half minute away from zero), and every row without an [end_time]
    stores NULL; a row that ends ninety seconds after it starts stores 2. *)
Theorem time_log_duration_is_rounded (db : database) (r : TimeLogs.row) :
  Spec.history sx db ->
  In r (time_logs db) ->
  Spec.duration_rule Spec.nearest_minutes r
  /\ (TimeLogs.end_time r = Some (TimeLogs.start_time r + 90 * 1000000) ->
      TimeLogs.duration_minutes r = Some 2).
Proof.
  intros Hh Hin.
  assert (R : Spec.duration_rule Spec.nearest_minutes r).
  { revert r Hin.
    induction Hh as [db H0 | db db' uid new_id now v r0 _ IH H
                    | db db' uid now v selected _ IH H
                    | db db' _ IH H]; intros r Hin.
    - rewrite H0 in Hin. destruct Hin.
    - apply time_logs_insert_duration in H. destruct H as [Hl Hr].
      rewrite Hl in Hin. apply in_app_or in Hin.
      destruct Hin as [Hin | [<- | []]]; [apply IH; assumption | assumption].
    - destruct (time_logs_update_duration _ _ _ _ _ _ H _ Hin) as [Hold | Hr];
        [apply IH; assumption | assumption].
    - apply IH, H, Hin. }
  split; [exact R |].
  intros He. unfold Spec.duration_rule in R. rewrite He in R. rewrite R.
  f_equal.
  replace (TimeLogs.start_time r + 90 * 1000000 - TimeLogs.start_time r)
    with 90000000 by lia.
  reflexivity.
Qed.
End Duration.

Lemma sample_logged : Sample.logged = Pg.Ok (Sample.db1, Sample.row1).
Proof. vm_compute. reflexivity. Qed.

Lemma time_log_duration_is_rounded_witness :
  Spec.history Sample.sx Sample.db1
  /\ In Sample.row1 (time_logs Sample.db1)
  /\ Spec.duration_rule Spec.nearest_minutes Sample.row1
  /\ (TimeLogs.end_time Sample.row1
      = Some (TimeLogs.start_time Sample.row1 + 90 * 1000000) ->
      TimeLogs.duration_minutes Sample.row1 = Some 2).
Proof.
  assert (H : Spec.history Sample.sx Sample.db1).
  { apply (Spec.history_insert Sample.sx Sample.db0 Sample.db1 "alice" "l1" 5
             (Sample.entry Sample.t_09_00_00 Sample.t_09_01_30) Sample.row1).
    - apply Spec.history_start. reflexivity.
    - vm_compute. reflexivity. }
  assert (I : In Sample.row1 (time_logs Sample.db1)).
  { vm_compute. left. reflexivity. }
  split; [exact H |]. split; [exact I |].
  exact (time_log_duration_is_rounded Sample.sx Sample.db1 Sample.row1 H I).
Defined.

(** C1 as stated fails: the row logged from 09:00:00 to 09:01:30 stores 2
    minutes, where truncation toward zero gives 1. *)
Lemma time_log_duration_is_not_truncated :
  Store.time_logs_insert Sample.sx Sample.db0 "alice" "l1" 5
    (Sample.entry Sample.t_09_00_00 Sample.t_09_01_30)
  = Pg.Ok (Sample.db1, Sample.row1)
  /\ TimeLogs.start_time Sample.row1 = Sample.t_09_00_00
  /\ TimeLogs.end_time Sample.row1 = Some Sample.t_09_01_30
  /\ Spec.truncated_minutes (Sample.t_09_01_30 - Sample.t_09_00_00) = 1
  /\ TimeLogs.duration_minutes Sample.row1 = Some 2
  /\ ~ Spec.duration_rule Spec.truncated_minutes Sample.row1.
Proof.
  split; [exact sample_logged |].
  repeat split; try reflexivity.
  unfold Spec.duration_rule. simpl. intros H. discriminate H.
Qed.

(** ** Timers and manual entries *)

Section Timers.
Variable sx : Pg.syntax.
Variable uid : Pg.uuid.
Variable profile : option Profiles.row.

(** What an INSERT into [time_logs] stores: one more row, whose
    [approval_status] is the one sent, or ['approved'] when none is sent,
    and whose [end_time] is the one sent, or NULL. *)
Lemma time_logs_insert_row (db db' : database) (new_id : Pg.uuid)
    (now : Pg.timestamptz) (v : TimeLogsValues.t) (r : TimeLogs.row) :
  Store.time_logs_insert sx db uid new_id now v = Pg.Ok (db', r) ->
  db' = with_time_logs (time_logs db ++ [r]) db
  /\ Pg.on_insert (Some "approved") (TimeLogsValues.approval_status v)
     = Some (TimeLogs.approval_status r)
  /\ (exists c, Store.read_values sx v = Pg.Ok c
                /\ TimeLogs.end_time r = Pg.on_insert None (Store.t_end_time c))
  /\ TimeLogs.user_id r = uid.
Proof.
  unfold Store.time_logs_insert; intros H. steps H.
  injection H as <- <-.
  apply calculate_time_log_duration_rule in E0. destruct E0 as [_ [d ->]].
  simpl. split; [reflexivity |]. split; [assumption |].
  split; [exists a; split; [assumption | reflexivity] |].
  unfold Policy.time_logs_insert_check in G. simpl in G.
  apply andb_prop in G. destruct G as [G _].
  apply String.eqb_eq in G. exact G.
Qed.

Lemma startTimer_body_read (now : Z) (taskId : Pg.uuid) :
  exists c, Store.read_values sx (TimeTracking.startTimer_body profile now taskId)
            = Pg.Ok c
            /\ Store.t_end_time c = Pg.Absent.
Proof.
  unfold Store.read_values, TimeTracking.startTimer_body,
    TimeTracking.profile_id.
  destruct profile; simpl; eexists; split; reflexivity.
Qed.

(** The two ways a timer start can end. *)
Lemma startTimer_outcome (now : Z) (server_now : Pg.timestamptz)
    (new_id taskId : Pg.uuid) (db : database) (st : TimeTracking.state) :
  let o := TimeTracking.startTimer sx uid profile now server_now new_id
             taskId db st in
  (store_of o = db /\ state_of o = st)
  \/ exists r,
       store_of o = with_time_logs (time_logs db ++ [r]) db
       /\ state_of o = TimeTracking.setActiveLog (Some r) st
       /\ TimeLogs.user_id r = uid
       /\ TimeLogs.approval_status r = "approved"
       /\ TimeLogs.end_time r = None
       /\ TimeLogs.duration_minutes r = None.
Proof.
  unfold TimeTracking.startTimer, TimeTracking.insert_returning.
  destruct (Store.time_logs_insert sx db uid new_id server_now _)
    as [[db' r] | e] eqn:H; simpl; [| left; auto].
  destruct (Policy.time_logs_select db' uid r); simpl; [| left; auto].
  right. exists r.
  pose proof (time_logs_insert_duration _ _ _ _ _ _ _ _ H) as [_ D].
  apply time_logs_insert_row in H.
  destruct H as (-> & Ha & (c & Hc & He) & Hu).
  destruct (startTimer_body_read now taskId) as (c' & Hc' & Hn).
  rewrite Hc in Hc'. injection Hc' as <-. rewrite Hn in He. simpl in He.
  unfold Spec.duration_rule in D. rewrite He in D.
  simpl in Ha. injection Ha as Ha.
  repeat split; auto.
Qed.


Lemma fetchTimeLogs_activeLog (db : database) (st : TimeTracking.state) :
  TimeTracking.activeLog
    (state_of (TimeTracking.fetchTimeLogs uid profile db st))
  = TimeTracking.activeLog st
  /\ store_of (TimeTracking.fetchTimeLogs uid profile db st) = db.
Proof.
  unfold TimeTracking.fetchTimeLogs. destruct profile; split; reflexivity.
Qed.




(** C10.  With no active log, [stopTimer] returns at once: it sends no
    request, and the store and the component state are as before. *)
Theorem stopTimer_idle_is_noop (now : Z) (server_now : Pg.timestamptz)
    (db : database) (st : TimeTracking.state) :
  TimeTracking.activeLog st = None ->
  TimeTracking.stopTimer sx uid profile now server_now db st
  = {| state_of := st; store_of := db; requests_of := [] |}.
Proof.
  intros H. unfold TimeTracking.stopTimer. rewrite H. reflexivity.
Qed.
End Timers.

Lemma stopTimer_idle_is_noop_witness :
  TimeTracking.activeLog (Sample.mounted Sample.db0) = None
  /\ TimeTracking.stopTimer Sample.sx "alice" (Some Sample.alice)
       Sample.now0 5 Sample.db0 (Sample.mounted Sample.db0)
     = {| state_of := Sample.mounted Sample.db0; store_of := Sample.db0;
          requests_of := [] |}.
Proof.
  split; [reflexivity |].
  apply (stopTimer_idle_is_noop Sample.sx "alice" (Some Sample.alice)
           Sample.now0 5 Sample.db0 (Sample.mounted Sample.db0)).
  reflexivity.
Defined.

Lemma existsb_task_mem (db : database) (taskId : Pg.uuid) (P : Tasks.row -> bool) :
  existsb (fun t => String.eqb (Tasks.id t) taskId && P t) (tasks db) = true ->
  Pg.mem taskId (map Tasks.id (tasks db)) = true.
Proof.
  unfold Pg.mem. induction (tasks db) as [| t l IH]; simpl; intros H.
  - discriminate H.
  - apply orb_prop in H. destruct H as [H | H].
    + apply andb_prop in H. destruct H as [H _]. rewrite String.eqb_sym, H.
      reflexivity.
    + rewrite (IH H). apply orb_true_r.
Qed.

(** A timer start goes through whenever the caller has a profile, owns or
    is assigned the task, and the fresh id is fresh: nothing in it looks at
    the logs already running. *)
Lemma startTimer_succeeds (sx : Pg.syntax) (p : Profiles.row) (now : Z)
    (server_now : Pg.timestamptz) (new_id taskId : Pg.uuid) (db : database)
    (st : TimeTracking.state) :
  Pg.mem (Profiles.id p) (map Profiles.id (profiles db)) = true ->
  existsb (fun t => String.eqb (Tasks.id t) taskId
                    && (Pg.eq_opt (Tasks.assigned_to t) (Profiles.id p)
                        || String.eqb (Tasks.created_by t) (Profiles.id p)))
          (tasks db) = true ->
  Pg.mem new_id (map TimeLogs.id (time_logs db)) = false ->
  exists r,
    TimeTracking.startTimer sx (Profiles.id p) (Some p) now server_now new_id
      taskId db st
    = {| state_of := TimeTracking.setActiveLog (Some r) st;
         store_of := with_time_logs (time_logs db ++ [r]) db;
         requests_of := [insert_into "time_logs"] |}
    /\ TimeLogs.user_id r = Profiles.id p
    /\ TimeLogs.end_time r = None.
Proof.
  intros Hp Ht Hf.
  pose proof (existsb_task_mem _ _ _ Ht) as Hm.
  unfold TimeTracking.startTimer, TimeTracking.insert_returning,
    Store.time_logs_insert, Store.time_logs_constraints.
  simpl.
  unfold Policy.time_logs_insert_check. simpl.
  rewrite String.eqb_refl, Ht, Hf, Hp, Hm. simpl.
  unfold Policy.time_logs_select. simpl. rewrite String.eqb_refl. simpl.
  eexists. split; [reflexivity |]. split; reflexivity.
Qed.

(** A start the store accepts (the profile exists, the task is assigned
    to or created by the user, the id is fresh) adds one running log to
    those the user already has, whether or not one is running. *)
Lemma startTimer_adds_a_running_log (sx : Pg.syntax) (p : Profiles.row)
    (now : Z) (server_now : Pg.timestamptz) (new_id taskId : Pg.uuid)
    (db : database) (st : TimeTracking.state) :
  Pg.mem (Profiles.id p) (map Profiles.id (profiles db)) = true ->
  existsb (fun t => String.eqb (Tasks.id t) taskId
                    && (Pg.eq_opt (Tasks.assigned_to t) (Profiles.id p)
                        || String.eqb (Tasks.created_by t) (Profiles.id p)))
          (tasks db) = true ->
  Pg.mem new_id (map TimeLogs.id (time_logs db)) = false ->
  List.length
    (TimeTracking.running (Profiles.id p)
       (store_of (TimeTracking.startTimer sx (Profiles.id p) (Some p) now
                    server_now new_id taskId db st)))
  = S (List.length (TimeTracking.running (Profiles.id p) db)).
Proof.
  intros Hp Ht Hf.
  destruct (startTimer_succeeds sx p now server_now new_id taskId db st Hp Ht Hf)
    as (r & -> & Hu & He).
  unfold TimeTracking.running. simpl.
  rewrite filter_app, length_app. simpl.
  rewrite Hu, He, String.eqb_refl. simpl. lia.
Qed.

(** The handler itself has no check: against a store that evaluates its
    statements, the employee has one running log; the page, opened
    again, offers the start buttons until [checkActiveLog] answers; a
    click then stores a second running log.  From then on
    [checkActiveLog] finds two rows, reports no active log, and the page
    keeps offering the start buttons. *)
Theorem startTimer_runs_two_timers :
  List.length (TimeTracking.running "alice" (store_of Sample.first_start)) = 1%nat
  /\ In (TimeTracking.start_button "t1")
        (TimeTracking.render (Sample.opening (store_of Sample.first_start)))
  /\ List.length (TimeTracking.running "alice" (store_of Sample.second_start)) = 2%nat
  /\ TimeTracking.activeLog (Sample.mounted (store_of Sample.second_start)) = None
  /\ In (TimeTracking.start_button "t1")
        (TimeTracking.render (Sample.mounted (store_of Sample.second_start))).
Proof.
  repeat split; vm_compute; auto.
Qed.

(** ** One page, used alone

    What the render-time guard does achieve: as long as the page's active
    log mirrors the store and nothing else writes the user's logs, the
    start buttons are on screen only when no log is running, and the
    user never has more than one. *)


Section Sessions.
Variable sx : Pg.syntax.
Variable uid : Pg.uuid.
Variable profile : option Profiles.row.






(** The mount effect brings a page in sync with a store in which the user
    has no running log. *)
Lemma effect_in_sync (p : Profiles.row) (db : database) (st : TimeTracking.state) :
  Profiles.id p = uid ->
  TimeTracking.running uid db = [] ->
  Spec.in_sync uid db (state_of (TimeTracking.effect uid (Some p) db st)).
Proof.
  intros Hp Hr. unfold Spec.in_sync, TimeTracking.effect. simpl.
  unfold Store.time_logs_select.
  assert (F : filter
                (fun r => Policy.time_logs_select db uid r
                          && (String.eqb (TimeLogs.user_id r) (Profiles.id p)
                              && TimeTracking.is_null (TimeLogs.end_time r)))
                (time_logs db) = []).
  { unfold TimeTracking.running in Hr. rewrite Hp.
    induction (time_logs db) as [| r l IH]; [reflexivity |].
    simpl in *.
    destruct (String.eqb (TimeLogs.user_id r) uid
              && TimeTracking.is_null (TimeLogs.end_time r));
      [discriminate Hr |].
    rewrite andb_false_r. apply IH. exact Hr. }
  rewrite F. simpl. exact Hr.
Qed.
(** X7.  A stop leaves the [approval_status] of every log as it was: a log
    started by the timer stays ['approved']. *)
Lemma stopTimer_keeps_approval_status (now : Z) (server_now : Pg.timestamptz)
    (db : database) (st : TimeTracking.state) :
  map TimeLogs.approval_status
      (time_logs (store_of (TimeTracking.stopTimer sx uid profile now server_now
                              db st)))
  = map TimeLogs.approval_status (time_logs db).
Proof.
  unfold TimeTracking.stopTimer.
  destruct (TimeTracking.activeLog st) as [a |]; [| reflexivity].
  destruct (Store.time_logs_update sx db uid server_now _ _) as [db' | e] eqn:H;
    [| reflexivity].
  cbn [store_of].
  rewrite (proj2 (fetchTimeLogs_activeLog uid profile db' _)).
  unfold Store.time_logs_update in H. steps H. injection H as <-. simpl.
  eapply for_each_row_map; [| exact E0].
  intros OLD NEW _ Hf. cbv beta in Hf.
  destruct (String.eqb (TimeLogs.id OLD) (TimeLogs.id a) && _ && _);
    [| injection Hf as <-; reflexivity].
  unfold Store.time_logs_update_row in Hf. steps Hf. injection Hf as <-.
  apply calculate_time_log_duration_rule in E1. destruct E1 as [_ [d ->]].
  simpl in *. congruence.
Qed.

(** On the sample store: the timer started at 09:00:00 and stopped
    ninety seconds later leaves one approved log of 2 minutes and no active
    log; the manual entry for the same interval is stored pending. *)
Lemma start_stop_and_manual_entry_samples :
  map (fun r => (TimeLogs.approval_status r, TimeLogs.end_time r,
                 TimeLogs.duration_minutes r))
      (time_logs (store_of Sample.stopped))
  = [("approved", Some 1735722090000000, Some 2)]
  /\ TimeTracking.activeLog (state_of Sample.stopped) = None
  /\ map (fun r => (TimeLogs.approval_status r, TimeLogs.end_time r,
                    TimeLogs.duration_minutes r))
         (time_logs (store_of Sample.manual_entry))
     = [("pending", Some 1735722090000000, Some 2)].
Proof.
  repeat split; vm_compute; reflexivity.
Qed.

End Sessions.

(** ** Profiles: who may change a role or a status *)

Lemma scalar_subquery_Some {A : Type} (rows : list A) (x : A) :
  Pg.scalar_subquery rows = Pg.Ok (Some x) -> rows = [x].
Proof.
  destruct rows as [| a [| b rows]]; simpl; intros H;
    [discriminate H | injection H as ->; reflexivity | discriminate H].
Qed.

Lemma eq_opt_true (o : option string) (s : string) :
  Pg.eq_opt o s = true -> o = Some s.
Proof.
  destruct o as [x |]; simpl; intros H; [| discriminate H].
  apply String.eqb_eq in H. subst; reflexivity.
Qed.

Section ProfileUpdates.
Variable sx : Pg.syntax.
Variable db : database.
Variable uid : Pg.uuid.
Variable now : Pg.timestamptz.
Hypothesis not_admin : Policy.is_admin db uid = false.

(** What the policy "Users can update own profile" accepts as a new row,
    for a stored row of the caller: the same key, role and status. *)
Lemma profiles_update_own_check_keeps (OLD NEW : Profiles.row) :
  In OLD (profiles db) ->
  Profiles.id OLD = uid ->
  Policy.profiles_update_own_check db uid NEW = Pg.Ok true ->
  Profiles.id NEW = Profiles.id OLD
  /\ Profiles.role NEW = Profiles.role OLD
  /\ Profiles.status NEW = Profiles.status OLD.
Proof.
  intros Hin Hid. unfold Policy.profiles_update_own_check.
  destruct (String.eqb uid (Profiles.id NEW)) eqn:Hn; [| discriminate].
  apply String.eqb_eq in Hn.
  assert (Hm : In OLD (filter (fun p => String.eqb (Profiles.id p) uid)
                         (profiles db))).
  { apply filter_In. split; [assumption |]. rewrite Hid.
    apply String.eqb_refl. }
  intros H. steps H.
  destruct (Pg.eq_opt a (Profiles.role NEW)) eqn:Hr; [| discriminate H].
  steps H. injection H as Hs.
  apply eq_opt_true in Hr, Hs. subst a a0.
  apply scalar_subquery_Some in E, E0.
  destruct (filter _ (profiles db)) as [| m [| m' rest]];
    try discriminate E.
  destruct Hm as [<- | []].
  simpl in E, E0. injection E as E. injection E0 as E0.
  rewrite Hid. auto.
Qed.

(** A row a non-admin caller's UPDATE rewrites keeps its key, role and
    status. *)
Lemma profiles_update_row_keeps (v : ProfilesValues.t)
    (new_id : Pg.field Pg.uuid) (selected : Profiles.row -> bool)
    (OLD NEW : Profiles.row) :
  In OLD (profiles db) ->
  (if selected OLD && Policy.profiles_select db uid OLD
      && Policy.profiles_update_using db uid OLD
   then Store.profiles_update_row db uid now v new_id OLD
   else Pg.Ok OLD) = Pg.Ok NEW ->
  (Profiles.id NEW, Profiles.role NEW, Profiles.status NEW)
  = (Profiles.id OLD, Profiles.role OLD, Profiles.status OLD).
Proof.
  intros Hin.
  destruct (selected OLD && _ && _) eqn:Hc; intros H;
    [| injection H as <-; reflexivity].
  apply andb_prop in Hc. destruct Hc as [_ Hu].
  unfold Policy.profiles_update_using, Policy.profiles_update_admin,
    Policy.profiles_update_own_using in Hu.
  rewrite not_admin, orb_false_r in Hu. apply String.eqb_eq in Hu.
  unfold Store.profiles_update_row in H. steps H.
  apply andb_prop in G. destruct G as [G _]. subst a4.
  unfold Policy.profiles_update_check, Policy.profiles_update_admin in E.
  rewrite not_admin in E.
  destruct (profiles_update_own_check_keeps OLD _ Hin (eq_sym Hu) E)
    as (Hi & Hr & Hs).
  injection H as <-. simpl in *. congruence.
Qed.

(** C5.  Whatever a caller who is not an admin sends as an update of
    [profiles], and whichever rows it selects, a successful update
    leaves the key, the role and the status of every profile as they
    were (so a body that would change the caller's own role or status is
    refused); this holds in particular for the caller's own profile. *)
Theorem non_admin_update_keeps_role_and_status (v : ProfilesValues.t)
    (selected : Profiles.row -> bool) (db' : database) :
  Store.profiles_update sx db uid now v selected = Pg.Ok db' ->
  map (fun r => (Profiles.id r, Profiles.role r, Profiles.status r))
      (profiles db')
  = map (fun r => (Profiles.id r, Profiles.role r, Profiles.status r))
        (profiles db).
Proof.
  unfold Store.profiles_update. intros H. steps H. injection H as <-.
  simpl. apply (for_each_row_map _ _ _ _ (fun OLD NEW Hin Hf =>
    profiles_update_row_keeps v a selected OLD NEW Hin Hf) E0).
Qed.

(** The same, read as a refusal: a body that carries another role or
    another status for the caller's own profile is not accepted. *)
Lemma non_admin_update_refused (v : ProfilesValues.t)
    (selected : Profiles.row -> bool) (OLD : Profiles.row) (x : Pg.text) :
  In OLD (profiles db) ->
  Profiles.id OLD = uid ->
  selected OLD = true ->
  (ProfilesValues.role v = Pg.Val x /\ x <> Profiles.role OLD)
  \/ (ProfilesValues.status v = Pg.Val x /\ x <> Profiles.status OLD) ->
  Pg.is_ok (Store.profiles_update sx db uid now v selected) = false.
Proof.
  intros Hin Hid Hsel Hx.
  destruct (Store.profiles_update sx db uid now v selected) as [db' | e] eqn:H;
    [exfalso | reflexivity].
  unfold Store.profiles_update in H. steps H. clear H G G0.
  destruct (for_each_row_forward _ _ _ E0 _ Hin) as (NEW & Hf & _).
  pose proof (profiles_update_row_keeps v a selected OLD NEW Hin Hf) as K.
  injection K as _ Kr Ks.
  unfold Policy.profiles_select, Policy.profiles_update_using,
    Policy.profiles_update_own_using in Hf.
  rewrite Hsel, Hid, String.eqb_refl in Hf. simpl in Hf.
  unfold Store.profiles_update_row in Hf. steps Hf. injection Hf as <-.
  simpl in Kr, Ks.
  destruct Hx as [[Hv Hne] | [Hv Hne]]; rewrite Hv in *; simpl in *;
    congruence.
Qed.
End ProfileUpdates.

Lemma non_admin_update_keeps_role_and_status_witness :
  Policy.is_admin Sample.db0 "alice" = false
  /\ Store.profiles_update Sample.sx Sample.db0 "alice" 9
       (Sample.set_full_name "Alice A.") Sample.is_alice
     = Pg.Ok Sample.db_renamed
  /\ map Profiles.full_name (profiles Sample.db_renamed) = ["Alice A."; "root"]
  /\ map (fun r => (Profiles.id r, Profiles.role r, Profiles.status r))
         (profiles Sample.db_renamed)
     = map (fun r => (Profiles.id r, Profiles.role r, Profiles.status r))
           (profiles Sample.db0).
Proof.
  assert (A : Policy.is_admin Sample.db0 "alice" = false) by reflexivity.
  assert (U : Store.profiles_update Sample.sx Sample.db0 "alice" 9
                (Sample.set_full_name "Alice A.") Sample.is_alice
              = Pg.Ok Sample.db_renamed) by (vm_compute; reflexivity).
  split; [exact A |]. split; [exact U |]. split; [reflexivity |].
  exact (non_admin_update_keeps_role_and_status Sample.sx Sample.db0 "alice" 9 A
           (Sample.set_full_name "Alice A.") Sample.is_alice Sample.db_renamed U).
Defined.

(** The employee's request for another role is refused by the policy; the
    same body sent by the admin is accepted and changes the role. *)
Lemma role_change_needs_admin :
  Sample.self_promoted = Pg.Err Pg.row_level_security_violation
  /\ exists db, Sample.promoted = Pg.Ok db
                /\ map Profiles.role (profiles db) = ["project_manager"; "admin"].
Proof.
  split; [vm_compute; reflexivity |].
  eexists. split; vm_compute; reflexivity.
Qed.

(** ** Navigation and the Users page *)

(** C6.  For a profile whose role is ['employee'] the navigation keeps the
    five common entries and drops Reports and Users; and the Users page,
    mounted for a caller who is not an admin, shows the permission-denied
    view in every state and sends no request. *)
Theorem employee_navigation_and_users_page (p : Profiles.row) :
  Profiles.role p = "employee" ->
  map Layout.label (Layout.filteredNavItems (Some p))
  = ["Dashboard"; "Projects"; "Tasks"; "Time Tracking"; "Calendar"]
  /\ (forall item, In item (Layout.filteredNavItems (Some p)) ->
        Layout.label item <> "Reports" /\ Layout.label item <> "Users")
  /\ (forall st, Users.render false st = Users.permission_denied)
  /\ (forall db uid,
        Users.mount false db uid
        = (Users.permission_denied,
           {| state_of := Users.initial; store_of := db; requests_of := [] |})).
Proof.
  intros H.
  assert (F : Layout.filteredNavItems (Some p)
              = firstn 5 Layout.navItems).
  { unfold Layout.filteredNavItems, Layout.role_of. rewrite H. reflexivity. }
  rewrite F. split; [reflexivity |]. split; [| split; reflexivity].
  intros item Hin. simpl in Hin.
  repeat (destruct Hin as [<- | Hin]; [split; discriminate |]).
  destruct Hin.
Qed.

Lemma employee_navigation_and_users_page_witness :
  Profiles.role Sample.alice = "employee"
  /\ map Layout.label (Layout.filteredNavItems (Some Sample.alice))
     = ["Dashboard"; "Projects"; "Tasks"; "Time Tracking"; "Calendar"]
  /\ Users.mount false Sample.db0 "alice"
     = (Users.permission_denied,
        {| state_of := Users.initial; store_of := Sample.db0;
           requests_of := [] |}).
Proof.
  pose proof (employee_navigation_and_users_page Sample.alice eq_refl)
    as (N & _ & _ & M).
  split; [reflexivity |]. split; [exact N | exact (M Sample.db0 "alice")].
Defined.

(** For comparison: an admin sees all seven entries, and the Users page
    mounted for an admin fetches the profiles. *)
Lemma admin_navigation_and_users_page :
  map Layout.label (Layout.filteredNavItems (Some Sample.root))
  = ["Dashboard"; "Projects"; "Tasks"; "Time Tracking"; "Calendar";
     "Reports"; "Users"]
  /\ requests_of (snd (Users.mount true Sample.db0 "root"))
     = [select_from "profiles"]
  /\ fst (Users.mount true Sample.db0 "root")
     = Users.users_table [Sample.alice; Sample.root].
Proof.
  repeat split; vm_compute; reflexivity.
Qed.

(** ** The calendar *)

Section CalendarCells.
Variable tz : Z -> Z.
Variable startOfMonth : Z -> Z.
Variable endOfMonth : Z -> Z.
Variable eachDayOfInterval : Z -> Z -> list Z.

(** The cell of a day holds the tasks whose [end_date], taken as the
    instant that day starts in UTC, falls on the same local day. *)
Lemma getTasksForDate_In (st : Calendar.state) (date : Z) (t : Tasks.row) :
  In t (Calendar.getTasksForDate tz st date)
  <-> In t (Calendar.tasks st)
      /\ exists d, Tasks.end_date t = Some d
                   /\ Calendar.local_day tz (Js.Date_of_date d)
                      = Calendar.local_day tz date.
Proof.
  unfold Calendar.getTasksForDate, Calendar.isSameDay.
  rewrite filter_In. split; intros [Hin H]; split; try assumption.
  - destruct (Tasks.end_date t) as [d |]; [| discriminate H].
    exists d. split; [reflexivity |]. apply Z.eqb_eq. assumption.
  - destruct H as (d & -> & H). apply Z.eqb_eq. assumption.
Qed.

(** A task without an [end_date] is in the cell of no date: not in
    [getTasksForDate] for any date, hence in no cell of the month grid
    and not among the tasks of the selected day; the month query does
    not even fetch it. *)
Theorem task_without_end_date_not_in_calendar (st : Calendar.state)
    (t : Tasks.row) :
  Tasks.end_date t = None ->
  (forall date, ~ In t (Calendar.getTasksForDate tz st date))
  /\ (forall cell,
        In cell (Calendar.cells tz startOfMonth endOfMonth eachDayOfInterval st) ->
        ~ In t (snd cell))
  /\ ~ In t (Calendar.selectedDayTasks tz st)
  /\ (forall uid p db,
        ~ In t (Calendar.tasks
                  (state_of (Calendar.fetchTasks startOfMonth endOfMonth
                               uid (Some p) db st)))).
Proof.
  intros Hn.
  assert (G : forall date, ~ In t (Calendar.getTasksForDate tz st date)).
  { intros date Hin. apply getTasksForDate_In in Hin.
    destruct Hin as (_ & d & Hd & _). congruence. }
  split; [exact G |]. split; [| split].
  - intros cell Hin. unfold Calendar.cells in Hin. apply in_map_iff in Hin.
    destruct Hin as (day & <- & _). simpl. apply G.
  - unfold Calendar.selectedDayTasks.
    destruct (Calendar.selectedDate st); [apply G | intros []].
  - intros uid p db Hin. simpl in Hin. unfold Store.tasks_select in Hin.
    apply filter_In in Hin. destruct Hin as [_ Hin].
    rewrite Hn in Hin. unfold Calendar.lte in Hin.
    rewrite !andb_false_r in Hin. discriminate Hin.
Qed.
End CalendarCells.

Lemma task_without_end_date_not_in_calendar_witness :
  Tasks.end_date (Sample.task "open" "alice" "to_do" None) = None
  /\ In (Sample.task "open" "alice" "to_do" None) (Calendar.tasks Sample.calendar)
  /\ forall date,
       ~ In (Sample.task "open" "alice" "to_do" None)
            (Calendar.getTasksForDate Sample.tz_minus_5 Sample.calendar date).
Proof.
  split; [reflexivity |]. split; [right; right; left; reflexivity |].
  exact (proj1 (task_without_end_date_not_in_calendar Sample.tz_minus_5
                  (fun t => t) (fun t => t) (fun a b => [a; b])
                  Sample.calendar (Sample.task "open" "alice" "to_do" None)
                  eq_refl)).
Defined.

(** The day a cell compares with is the local day of the instant the end
    date starts in UTC: on a UTC clock the two sample tasks due on
    2025-01-01 are in the cell of that day; five hours behind UTC they are
    in the cell of the day before. *)
Lemma calendar_cells_sample :
  map Tasks.id (Calendar.getTasksForDate Sample.tz_utc Sample.calendar
                  Sample.jan_1_utc)
  = ["late"; "done"]
  /\ map Tasks.id (Calendar.getTasksForDate Sample.tz_minus_5 Sample.calendar
                     Sample.jan_1_local)
     = []
  /\ map Tasks.id (Calendar.getTasksForDate Sample.tz_minus_5 Sample.calendar
                     Sample.dec_31_local)
     = ["late"; "done"].
Proof.
  repeat split; vm_compute; reflexivity.
Qed.

(** ** The dashboard *)

Lemma overdue_number_of (now : Z) (l : list Tasks.row) :
  Spec.number_of (Spec.overdue_at now) l (Dashboard.overdue now (Some l)).
Proof.
  unfold Dashboard.overdue.
  induction l as [| t l IH]; simpl; [constructor |].
  destruct (Tasks.end_date t) as [d |] eqn:Hd.
  - destruct (Js.Date_of_date d <? now) eqn:Hlt; simpl.
    + destruct (String.eqb (Tasks.status t) "completed") eqn:Hs; simpl.
      * apply Spec.number_of_no; [| exact IH].
        intros (d' & _ & _ & Hne). apply String.eqb_eq in Hs. contradiction.
      * apply Spec.number_of_yes; [| exact IH].
        exists d. split; [assumption |]. split.
        -- apply Z.ltb_lt. assumption.
        -- apply String.eqb_neq. assumption.
    + apply Spec.number_of_no; [| exact IH].
      intros (d' & Hd' & Hlt' & _). rewrite Hd in Hd'. injection Hd' as <-.
      apply Z.ltb_ge in Hlt. lia.
  - apply Spec.number_of_no; [| exact IH].
    intros (d' & Hd' & _). congruence.
Qed.

Lemma number_of_unique {A : Type} (P : A -> Prop) (l : list A) (n m : nat) :
  Spec.number_of P l n -> Spec.number_of P l m -> n = m.
Proof.
  intros Hn; revert m.
  induction Hn as [| a l n Pa _ IH | a l n Pa _ IH]; intros m Hm;
    inversion Hm; subst; auto; contradiction.
Qed.

(** The day before the local day of [now] ends before [now], in any zone
    less than a day ahead of UTC. *)
Lemma yesterday_before_now (now off : Z) :
  off < Js.ms_per_day ->
  Js.Date_of_date ((now + off) / Js.ms_per_day - 1) < now.
Proof.
  unfold Js.Date_of_date, Js.ms_per_day. intros H.
  pose proof (Z.div_mod (now + off) 86400000 ltac:(lia)) as D.
  pose proof (Z.mod_pos_bound (now + off) 86400000 ltac:(lia)) as B.
  lia.
Qed.

(** C4.  The dashboard's [overdueTasks] is the number of fetched tasks
    that have an end date strictly before now and are not completed.  A
    task due yesterday adds one to the count when it is in progress and
    nothing when it is completed. *)
Theorem overdueTasks_counts_overdue (uid : Pg.uuid) (p : Profiles.row)
    (isAdmin : bool) (now : Z) (db : database) (st : Dashboard.state) :
  Spec.number_of (Spec.overdue_at now)
    (Dashboard.tasksQuery uid isAdmin db p)
    (Dashboard.overdueTasks
       (Dashboard.stats
          (state_of (Dashboard.fetchDashboardData uid (Some p) isAdmin now db st))))
  /\ forall (t : Tasks.row) (l : list Tasks.row) (off : Z),
       off < Js.ms_per_day ->
       Tasks.end_date t = Some ((now + off) / Js.ms_per_day - 1) ->
       (Tasks.status t = "in_progress" ->
        Dashboard.overdue now (Some (t :: l)) = S (Dashboard.overdue now (Some l)))
       /\ (Tasks.status t = "completed" ->
           Dashboard.overdue now (Some (t :: l)) = Dashboard.overdue now (Some l)).
Proof.
  split; [apply overdue_number_of |].
  intros t l off Hoff Hd.
  pose proof (yesterday_before_now now off Hoff) as Y.
  apply Z.ltb_lt in Y.
  unfold Dashboard.overdue. simpl. rewrite Hd, Y.
  split; intros ->; reflexivity.
Qed.

(** On the sample store, at 10:00 on 2025-01-02: of the employee's three
    tasks only the one due on 2025-01-01 and still in progress is counted. *)
Lemma overdueTasks_counts_overdue_witness :
  Dashboard.overdueTasks
    (Dashboard.stats
       (state_of (Dashboard.fetchDashboardData "alice" (Some Sample.alice) false
                    Sample.now1 Sample.db_tasks Dashboard.initial)))
  = 1%nat
  /\ Spec.number_of (Spec.overdue_at Sample.now1)
       (Dashboard.tasksQuery "alice" false Sample.db_tasks Sample.alice) 1
  /\ Dashboard.overdue Sample.now1
       (Some [Sample.task "late" "alice" "in_progress" (Some Sample.d_2025_01_01)])
     = 1%nat
  /\ Dashboard.overdue Sample.now1
       (Some [Sample.task "done" "alice" "completed" (Some Sample.d_2025_01_01)])
     = 0%nat.
Proof.
  pose proof (overdueTasks_counts_overdue "alice" Sample.alice false
                Sample.now1 Sample.db_tasks Dashboard.initial) as [N E].
  split; [reflexivity |]. split; [exact N |].
  split.
  - exact (proj1 (E (Sample.task "late" "alice" "in_progress"
                       (Some Sample.d_2025_01_01)) [] 0 eq_refl eq_refl) eq_refl).
  - exact (proj2 (E (Sample.task "done" "alice" "completed"
                       (Some Sample.d_2025_01_01)) [] 0 eq_refl eq_refl) eq_refl).
Defined.

(** ** Projects: creating and fetching *)

Lemma insert_sorted_In {A : Type} (before : A -> A -> bool) (a x : A) (l : list A) :
  In x (Store.insert_sorted before a l) <-> x = a \/ In x l.
Proof.
  induction l as [| b l IH]; simpl.
  - intuition auto.
  - destruct (before a b); simpl; [intuition auto |].
    rewrite IH. intuition auto.
Qed.

Lemma order_by_In {A : Type} (before : A -> A -> bool) (x : A) (l : list A) :
  In x (Store.order_by before l) <-> In x l.
Proof.
  unfold Store.order_by. induction l as [| a l IH]; simpl; [reflexivity |].
  rewrite insert_sorted_In, IH. intuition auto.
Qed.

Lemma read_field_null {A : Type} (parse : string -> option A)
    (f : Pg.field (Pg.input A)) :
  Spec.is_null f ->
  exists g, Pg.read_field parse f = Pg.Ok g /\ Pg.on_insert None g = None.
Proof.
  destruct f; simpl; intros H; [| | destruct H];
    eexists; split; reflexivity.
Qed.

Lemma on_insert_null {A : Type} (f : Pg.field A) :
  Spec.is_null f -> Pg.on_insert None f = None.
Proof.
  destruct f; simpl; intros H; [| | destruct H]; reflexivity.
Qed.

(** What a store that evaluates the statement does with a body that
    carries nulls, a body no form of the pages sends (see
    [project_form_body_has_no_null]): an admin's insert of a body that has
    a name and leaves [description], [manager_id], [start_date] and
    [end_date] out or [null] goes through, and the admin's next fetch
    returns the project with these four columns NULL; the only values
    filled in are the declared defaults (the fresh id, the status
    ['planned'], the two timestamps). *)
Theorem project_null_fields_round_trip (sx : Pg.syntax) (db : database)
    (uid new_id : Pg.uuid) (now : Pg.timestamptz) (v : ProjectsValues.t)
    (n : Pg.text) (st : ProjectsPage.state) :
  Policy.is_admin db uid = true ->
  Pg.mem new_id (map Projects.id (projects db)) = false ->
  ProjectsValues.name v = Pg.Val n ->
  ProjectsValues.status v = Pg.Absent ->
  Spec.is_null (ProjectsValues.description v) ->
  Spec.is_null (ProjectsValues.manager_id v) ->
  Spec.is_null (ProjectsValues.start_date v) ->
  Spec.is_null (ProjectsValues.end_date v) ->
  let created :=
    {| Projects.id := new_id; Projects.name := n;
       Projects.description := None; Projects.manager_id := None;
       Projects.start_date := None; Projects.end_date := None;
       Projects.status := "planned"; Projects.created_at := Some now;
       Projects.updated_at := Some now |} in
  exists db',
    Store.projects_insert sx db uid new_id now v = Pg.Ok db'
    /\ projects db' = projects db ++ [created]
    /\ In created (Store.projects_select_ordered db' uid)
    /\ In created
         (ProjectsPage.projects (state_of (ProjectsPage.fetchProjects uid db' st)))
    /\ forall r, In r (Store.projects_select_ordered db' uid) ->
                 Projects.id r = new_id -> r = created.
Proof.
  intros Ha Hf Hn Hs Hd Hm Hsd Hed created.
  unfold Store.projects_insert.
  destruct (read_field_null (Pg.uuid_in sx) _ Hm) as (m & -> & Em).
  destruct (read_field_null (Pg.date_in sx) _ Hsd) as (sd & -> & Esd).
  destruct (read_field_null (Pg.date_in sx) _ Hed) as (ed & -> & Eed).
  simpl. rewrite Hn, Hs. simpl.
  rewrite Em, Esd, Eed, (on_insert_null _ Hd).
  unfold Policy.projects_insert_check. rewrite Ha, Hf. simpl.
  eexists. split; [reflexivity |]. split; [reflexivity |].
  assert (V : forall r, In r (Store.projects_select_ordered
                                (with_projects (projects db ++ [created]) db) uid)
                        <-> In r (projects db ++ [created])).
  { intros r. unfold Store.projects_select_ordered. rewrite order_by_In.
    rewrite filter_In. unfold Policy.projects_select, Policy.is_admin in *.
    simpl. rewrite Ha. simpl. intuition auto. }
  assert (I : In created (projects db ++ [created]))
    by (apply in_or_app; right; left; reflexivity).
  split; [apply V; exact I |]. split; [simpl; apply V; exact I |].
  intros r Hr Hid. apply V in Hr. apply in_app_or in Hr.
  destruct Hr as [Hr | [<- | []]]; [| reflexivity].
  exfalso. apply (in_map Projects.id) in Hr. rewrite Hid in Hr.
  assert (M : Pg.mem new_id (map Projects.id (projects db)) = true).
  { unfold Pg.mem. apply existsb_exists. exists new_id.
    split; [assumption | apply String.eqb_refl]. }
  congruence.
Qed.

Lemma project_null_fields_round_trip_witness :
  exists db',
    Store.projects_insert Sample.sx Sample.db0 "root" "p1" 9 Sample.bare_project
    = Pg.Ok db'
    /\ projects db' = projects Sample.db0 ++ [Sample.apollo]
    /\ In Sample.apollo (Store.projects_select_ordered db' "root")
    /\ In Sample.apollo
         (ProjectsPage.projects
            (state_of (ProjectsPage.fetchProjects "root" db' ProjectsPage.initial)))
    /\ forall r, In r (Store.projects_select_ordered db' "root") ->
                 Projects.id r = "p1" -> r = Sample.apollo.
Proof.
  exact (project_null_fields_round_trip Sample.sx Sample.db0 "root" "p1" 9
           Sample.bare_project "Apollo" ProjectsPage.initial
           eq_refl eq_refl eq_refl eq_refl I I I I).
Defined.

(** The project form itself never sends [null]: every key of its body
    carries the string its input holds, the empty string for an input left
    blank. *)
Lemma project_form_body_has_no_null (f : ProjectsPage.form) :
  ~ Spec.is_null (ProjectsValues.description (ProjectsPage.body f))
  /\ ~ Spec.is_null (ProjectsValues.manager_id (ProjectsPage.body f))
  /\ ~ Spec.is_null (ProjectsValues.start_date (ProjectsPage.body f))
  /\ ~ Spec.is_null (ProjectsValues.end_date (ProjectsPage.body f)).
Proof.
  repeat split; intros H; exact H.
Qed.

(** Where the store's [uuid] input rejects the empty string, submitting
    the form with the manager left blank creates nothing. *)
Lemma blank_manager_is_refused (sx : Pg.syntax) (uid new_id : Pg.uuid)
    (server_now : Pg.timestamptz) (db : database) (st : ProjectsPage.state) :
  Pg.uuid_in sx "" = None ->
  ProjectsPage.editingProject st = None ->
  ProjectsPage.manager_id (ProjectsPage.formData st) = Pg.Text "" ->
  ProjectsPage.handleSubmit sx uid server_now new_id db st
  = {| state_of := st; store_of := db;
       requests_of := [insert_into "projects"] |}.
Proof.
  intros Hu He Hm. unfold ProjectsPage.handleSubmit. rewrite He. simpl.
  unfold Store.projects_insert. simpl. rewrite Hm. simpl. rewrite Hu.
  reflexivity.
Qed.

Lemma blank_manager_is_refused_sample :
  store_of (ProjectsPage.handleSubmit Sample.sx "root" 9 "p1" Sample.db0
              Sample.new_project_page)
  = Sample.db0.
Proof.
  rewrite (blank_manager_is_refused Sample.sx "root" "p1" 9 Sample.db0
             Sample.new_project_page eq_refl eq_refl eq_refl).
  reflexivity.
Qed.

(** ** The decimals kept by the division do not matter

    The trigger is modelled with the exact quotient.  The store rounds the
    quotient to some number of decimals before the cast rounds it to an
    integer; with eight decimals or more the two roundings give what one
    rounding of the exact quotient gives, because a quotient by sixty
    million that is not a half-integer is at least 1/60000000 away from
    one. *)

Lemma two_roundings (a h : Z) :
  0 <= a -> 15000000 < h ->
  let R := (2 * a * (2 * h) + 60000000) / (2 * 60000000) in
  (2 * R + 2 * h) / (2 * (2 * h)) = (2 * a + 60000000) / (2 * 60000000).
Proof.
  intros Ha Hh R.
  set (m := (2 * a + 60000000) / (2 * 60000000)).
  pose proof (Z.div_mod (2 * a + 60000000) (2 * 60000000) ltac:(lia)) as Dm.
  pose proof (Z.mod_pos_bound (2 * a + 60000000) (2 * 60000000) ltac:(lia)) as Bm.
  fold m in Dm.
  pose proof (Z.div_mod (2 * a * (2 * h) + 60000000) (2 * 60000000) ltac:(lia)) as DR.
  pose proof (Z.mod_pos_bound (2 * a * (2 * h) + 60000000) (2 * 60000000) ltac:(lia))
    as BR.
  fold R in DR.
  assert (Hm : 0 <= m) by (apply Z.div_pos; lia).
  (* (2m-1) M <= 2a <= (2m+1) M - 2 *)
  assert (L : (2 * m - 1) * 60000000 <= 2 * a) by lia.
  assert (U : 2 * a <= (2 * m + 1) * 60000000 - 2) by lia.
  assert (L' : (2 * m - 1) * 60000000 * h <= 2 * a * h)
    by (apply Z.mul_le_mono_nonneg_r; lia).
  assert (U' : 2 * a * h <= ((2 * m + 1) * 60000000 - 2) * h)
    by (apply Z.mul_le_mono_nonneg_r; lia).
  symmetry. apply (Z.div_unique _ _ m (2 * R + 2 * h - m * (2 * (2 * h)))).
  - left. nia.
  - lia.
Qed.

Lemma pow10_split (s : nat) :
  (8 <= s)%nat -> exists h, 10 ^ Z.of_nat s = 2 * h /\ 15000000 < h.
Proof.
  intros H. exists (50000000 * 10 ^ (Z.of_nat s - 8)).
  replace (Z.of_nat s) with (8 + (Z.of_nat s - 8)) at 1 by lia.
  rewrite Z.pow_add_r by lia.
  assert (0 < 10 ^ (Z.of_nat s - 8)) by (apply Z.pow_pos_nonneg; lia).
  change (10 ^ 8) with 100000000. lia.
Qed.

Lemma round_signed (s R h : Z) :
  s = 1 \/ s = 0 \/ s = -1 -> 0 <= R -> 0 < h ->
  Z.sgn (s * R) * ((2 * Z.abs (s * R) + 2 * h) / (2 * (2 * h)))
  = s * ((2 * R + 2 * h) / (2 * (2 * h))).
Proof.
  intros Hs HR Hh.
  assert (Z0 : 2 * h / (2 * (2 * h)) = 0) by (apply Z.div_small; lia).
  destruct (Z.eq_dec R 0) as [-> | Rn].
  - rewrite !Z.mul_0_r. change (Z.sgn 0) with 0. change (Z.abs 0) with 0.
    rewrite Z.add_0_l, Z0. lia.
  - destruct Hs as [-> | [-> | ->]].
    + rewrite Z.mul_1_l, (Z.abs_eq R), (Z.sgn_pos R) by lia. reflexivity.
    + reflexivity.
    + replace (-1 * R) with (- R) by lia.
      rewrite Z.abs_opp, (Z.abs_eq R), Z.sgn_opp, (Z.sgn_pos R) by lia.
      reflexivity.
Qed.

Lemma division_scale_is_immaterial (rscale : nat) (interval : Z) :
  (8 <= rscale)%nat ->
  Pg.round_half_away (Pg.numeric_div rscale (Pg.extract_epoch interval) (60 # 1))
  = Pg.round_half_away (Pg.extract_epoch interval / (60 # 1))%Q.
Proof.
  intros Hs. destruct (pow10_split rscale Hs) as (h & Hp & Hh).
  unfold Pg.numeric_div, Pg.round_half_away, Pg.extract_epoch.
  cbn [Qdiv Qmult Qinv Qnum Qden].
  change (Z.pos (1000000 * 60 * 1)) with 60000000.
  change (Z.pos (1000000 * 60)) with 60000000.
  rewrite Hp, Z2Pos.id by lia.
  rewrite !Z.mul_1_r.
  assert (A : Z.abs (interval * (2 * h)) = Z.abs interval * (2 * h))
    by (rewrite Z.abs_mul; f_equal; lia).
  assert (Sg : Z.sgn (interval * (2 * h)) = Z.sgn interval)
    by (rewrite Z.sgn_mul, (Z.sgn_pos (2 * h)) by lia; lia).
  rewrite A, Sg.
  replace (2 * (Z.abs interval * (2 * h))) with (2 * Z.abs interval * (2 * h))
    by lia.
  rewrite round_signed.
  - f_equal. apply (two_roundings (Z.abs interval) h (Z.abs_nonneg _) Hh).
  - destruct (Z.sgn_spec interval) as [[_ ->] | [[_ ->] | [_ ->]]]; auto.
  - apply Z.div_pos; lia.
  - lia.
Qed.

(* ===================================================================== *)
(** * Part III: further properties of the store and the pages             *)
(* ===================================================================== *)

(** ** More on running a statement over the rows *)

Lemma for_each_row_map_Ok {A : Type} (f : A -> Pg.result A) (g : A -> A)
    (l : list A) :
  (forall a, In a l -> f a = Pg.Ok (g a)) ->
  Pg.for_each_row f l = Pg.Ok (map g l).
Proof.
  induction l as [| a l IH]; simpl; intros H; [reflexivity |].
  rewrite (H a (or_introl eq_refl)). simpl.
  rewrite IH by (intros; apply H; right; assumption). reflexivity.
Qed.

Lemma for_each_row_filter {A : Type} (f : A -> Pg.result A) (P : A -> bool)
    (l l' : list A) :
  (forall a a', In a l -> f a = Pg.Ok a' ->
     P a' = P a /\ (P a = true -> a' = a)) ->
  Pg.for_each_row f l = Pg.Ok l' ->
  filter P l' = filter P l.
Proof.
  revert l'; induction l as [| a l IH]; simpl; intros l' Hf H.
  - injection H as <-; reflexivity.
  - steps H. injection H as <-. simpl.
    destruct (Hf a a0 (or_introl eq_refl) E) as [HP Heq].
    assert (T : filter P a1 = filter P l).
    { apply IH; [| assumption].
      intros b b' Hb Hfb. apply Hf; [right |]; assumption. }
    rewrite HP, T.
    destruct (P a); [rewrite Heq by reflexivity |]; reflexivity.
Qed.

Lemma map_id_when {A : Type} (g : A -> A) (l : list A) :
  (forall a, In a l -> g a = a) -> map g l = l.
Proof.
  induction l as [| a l IH]; simpl; intros H; [reflexivity |].
  rewrite H by (left; reflexivity).
  rewrite IH by (intros; apply H; right; assumption). reflexivity.
Qed.

(** The caller's own logs are never hidden by the select policy. *)
Lemma own_logs_visible (db : database) (uid : Pg.uuid)
    (Q : TimeLogs.row -> bool) :
  Store.time_logs_select db uid
    (fun r => String.eqb (TimeLogs.user_id r) uid && Q r)
  = filter (fun r => String.eqb (TimeLogs.user_id r) uid && Q r) (time_logs db).
Proof.
  unfold Store.time_logs_select. apply filter_ext. intros r.
  unfold Policy.time_logs_select.
  destruct (String.eqb (TimeLogs.user_id r) uid); simpl;
    [reflexivity | apply andb_false_r].
Qed.

(** ** Time logs: who may write what *)

(** X1.  An INSERT into [time_logs] stores a log only for the caller, and only
    on a task that is assigned to the caller or was created by the caller;
    this binds an admin like everybody else. *)
Theorem time_logs_insert_only_own (sx : Pg.syntax) (db db' : database)
    (uid new_id : Pg.uuid) (now : Pg.timestamptz) (v : TimeLogsValues.t)
    (r : TimeLogs.row) :
  Store.time_logs_insert sx db uid new_id now v = Pg.Ok (db', r) ->
  TimeLogs.user_id r = uid
  /\ exists t, In t (tasks db)
               /\ Tasks.id t = TimeLogs.task_id r
               /\ (Tasks.assigned_to t = Some uid \/ Tasks.created_by t = uid).
Proof.
  unfold Store.time_logs_insert. intros H. steps H. injection H as _ <-.
  unfold Policy.time_logs_insert_check in G.
  apply andb_prop in G. destruct G as [Gu Gt].
  apply String.eqb_eq in Gu. split; [exact Gu |].
  apply existsb_exists in Gt. destruct Gt as (t & Hin & Ht).
  apply andb_prop in Ht. destruct Ht as [Hid Hown].
  apply String.eqb_eq in Hid. exists t. split; [exact Hin |].
  split; [exact Hid |]. apply orb_prop in Hown.
  destruct Hown as [Ha | Hc];
    [left; apply eq_opt_true; exact Ha | right; apply String.eqb_eq; exact Hc].
Qed.

Lemma time_logs_insert_only_own_witness :
  TimeLogs.user_id Sample.row1 = "alice"
  /\ exists t, In t (tasks Sample.db0)
               /\ Tasks.id t = TimeLogs.task_id Sample.row1
               /\ (Tasks.assigned_to t = Some "alice"
                   \/ Tasks.created_by t = "alice").
Proof.
  exact (time_logs_insert_only_own Sample.sx Sample.db0 Sample.db1 "alice" "l1"
           5 (Sample.entry Sample.t_09_00_00 Sample.t_09_01_30) Sample.row1
           sample_logged).
Defined.

(** An admin who is not the owner cannot log time for the employee. *)
Lemma admin_cannot_log_for_another :
  Store.time_logs_insert Sample.sx Sample.db0 "root" "l1" 5
    (Sample.entry Sample.t_09_00_00 Sample.t_09_01_30)
  = Pg.Err Pg.row_level_security_violation.
Proof. vm_compute. reflexivity. Qed.

Lemma startTimer_adds_a_running_log_witness :
  List.length
    (TimeTracking.running "alice" (store_of Sample.second_start))
  = S (List.length (TimeTracking.running "alice" (store_of Sample.first_start))).
Proof.
  exact (startTimer_adds_a_running_log Sample.sx Sample.alice
           (Sample.now0 + 2000) 6 "l2" "t1" (store_of Sample.first_start)
           (Sample.opening (store_of Sample.first_start))
           eq_refl eq_refl eq_refl).
Defined.


(** [checkActiveLog] makes the active log of the page the caller's running
    log when there is exactly one, and no log when there is none or more
    than one. *)
Theorem checkActiveLog_reads_the_running_log (uid : Pg.uuid) (p : Profiles.row)
    (db : database) (st : TimeTracking.state) :
  Profiles.id p = uid ->
  TimeTracking.activeLog
    (state_of (TimeTracking.checkActiveLog uid (Some p) db st))
  = match TimeTracking.running uid db with
    | [r] => Some r
    | _ => None
    end.
Proof.
  intros Hp. unfold TimeTracking.checkActiveLog. simpl. rewrite Hp.
  rewrite (own_logs_visible db uid
             (fun r => TimeTracking.is_null (TimeLogs.end_time r))).
  unfold TimeTracking.running.
  destruct (filter _ (time_logs db)) as [| r [| r' l]]; reflexivity.
Qed.

Lemma checkActiveLog_reads_the_running_log_witness :
  Profiles.id Sample.alice = "alice"
  /\ List.length (TimeTracking.running "alice" (store_of Sample.second_start))
     = 2%nat
  /\ TimeTracking.activeLog
       (state_of (TimeTracking.checkActiveLog "alice" (Some Sample.alice)
                    (store_of Sample.second_start)
                    (TimeTracking.initial Sample.now0)))
     = None.
Proof.
  split; [reflexivity |]. split; [reflexivity |].
  rewrite (checkActiveLog_reads_the_running_log "alice" Sample.alice
             (store_of Sample.second_start) (TimeTracking.initial Sample.now0)
             eq_refl).
  reflexivity.
Defined.

(** ** The log history of the page *)

Lemma insert_sorted_descending {A : Type} (key : A -> Z) (a : A) (l : list A) :
  Spec.descending key l ->
  Spec.descending key (Store.insert_sorted (fun x y => key y <=? key x) a l).
Proof.
  unfold Spec.descending. induction 1 as [| b l Hs IH Hb]; simpl.
  - constructor; constructor.
  - destruct (key b <=? key a) eqn:Hab.
    + apply Z.leb_le in Hab. constructor; [constructor; assumption |].
      constructor; [exact Hab |].
      rewrite Forall_forall in Hb |- *. intros x Hx.
      specialize (Hb x Hx). simpl in Hb. lia.
    + apply Z.leb_gt in Hab. constructor; [exact IH |].
      rewrite Forall_forall in Hb |- *. intros x Hx.
      apply insert_sorted_In in Hx. destruct Hx as [-> | Hx];
        [lia | apply Hb; exact Hx].
Qed.

Lemma order_by_descending {A : Type} (key : A -> Z) (l : list A) :
  Spec.descending key (Store.order_by (fun x y => key y <=? key x) l).
Proof.
  unfold Store.order_by. induction l as [| a l IH]; simpl.
  - constructor.
  - apply insert_sorted_descending. exact IH.
Qed.

Lemma insert_sorted_length {A : Type} (before : A -> A -> bool) (a : A)
    (l : list A) :
  List.length (Store.insert_sorted before a l) = S (List.length l).
Proof.
  induction l as [| b l IH]; simpl; [reflexivity |].
  destruct (before a b); simpl; [reflexivity | rewrite IH; reflexivity].
Qed.

Lemma order_by_length {A : Type} (before : A -> A -> bool) (l : list A) :
  List.length (Store.order_by before l) = List.length l.
Proof.
  unfold Store.order_by. induction l as [| a l IH]; simpl; [reflexivity |].
  rewrite insert_sorted_length, IH. reflexivity.
Qed.

Lemma firstn_In_inv {A : Type} (n : nat) (l : list A) (x : A) :
  In x (firstn n l) -> In x l.
Proof.
  revert l; induction n as [| n IH]; intros [| a l]; simpl; try tauto.
  intros [-> | H]; [left; reflexivity | right; apply IH; exact H].
Qed.

Lemma firstn_descending {A : Type} (key : A -> Z) (n : nat) (l : list A) :
  Spec.descending key l -> Spec.descending key (firstn n l).
Proof.
  unfold Spec.descending. revert l; induction n as [| n IH]; intros l H.
  - constructor.
  - destruct H as [| a l Hs Ha]; simpl; constructor.
    + apply IH. exact Hs.
    + rewrite Forall_forall in Ha |- *. intros x Hx.
      apply Ha. apply (firstn_In_inv n). exact Hx.
Qed.

(** [fetchTimeLogs] shows at most fifty logs, all of them stored logs of
    the caller, the latest start first; when the caller has no more than
    fifty logs it shows every one of them. *)
Theorem fetchTimeLogs_shows_latest_fifty (uid : Pg.uuid) (p : Profiles.row)
    (db : database) (st : TimeTracking.state) :
  Profiles.id p = uid ->
  let shown :=
    TimeTracking.timeLogs
      (state_of (TimeTracking.fetchTimeLogs uid (Some p) db st)) in
  (List.length shown <= 50)%nat
  /\ (forall r, In r shown -> In r (time_logs db) /\ TimeLogs.user_id r = uid)
  /\ Spec.descending TimeLogs.start_time shown
  /\ ((List.length
         (filter (fun r => String.eqb (TimeLogs.user_id r) uid) (time_logs db))
       <= 50)%nat ->
      forall r, In r (time_logs db) -> TimeLogs.user_id r = uid -> In r shown).
Proof.
  intros Hp shown. subst shown.
  unfold TimeTracking.fetchTimeLogs, TimeTracking.setLoading,
    TimeTracking.setTimeLogs.
  cbn [state_of TimeTracking.timeLogs]. rewrite Hp.
  assert (V : Store.time_logs_select db uid
                (fun r => String.eqb (TimeLogs.user_id r) uid)
              = filter (fun r => String.eqb (TimeLogs.user_id r) uid)
                       (time_logs db)).
  { unfold Store.time_logs_select. apply filter_ext. intros r.
    unfold Policy.time_logs_select.
    destruct (String.eqb (TimeLogs.user_id r) uid); simpl;
      [reflexivity | apply andb_false_r]. }
  rewrite V.
  split; [apply firstn_le_length |]. split; [| split].
  - intros r Hr. apply firstn_In_inv in Hr. apply order_by_In in Hr.
    apply filter_In in Hr. destruct Hr as [Hin Hu].
    apply String.eqb_eq in Hu. auto.
  - apply firstn_descending. apply order_by_descending.
  - intros Hl r Hin Hu. rewrite firstn_all2 by (rewrite order_by_length; exact Hl).
    apply order_by_In. apply filter_In. split; [exact Hin |].
    apply String.eqb_eq. exact Hu.
Qed.

Lemma fetchTimeLogs_shows_latest_fifty_witness :
  Profiles.id Sample.alice = "alice"
  /\ map TimeLogs.id
       (TimeTracking.timeLogs
          (state_of (TimeTracking.fetchTimeLogs "alice" (Some Sample.alice)
                       Sample.db_shared (TimeTracking.initial Sample.now0))))
     = ["m1"]
  /\ Spec.descending TimeLogs.start_time
       (TimeTracking.timeLogs
          (state_of (TimeTracking.fetchTimeLogs "alice" (Some Sample.alice)
                       Sample.db_shared (TimeTracking.initial Sample.now0)))).
Proof.
  split; [reflexivity |]. split; [reflexivity |].
  exact (proj1 (proj2 (proj2
           (fetchTimeLogs_shows_latest_fifty "alice" Sample.alice
              Sample.db_shared (TimeTracking.initial Sample.now0) eq_refl)))).
Defined.

(** ** Stopping, approving and deleting logs *)

Lemma stopTimer_body_read (sx : Pg.syntax) (now : Z) :
  Store.read_values sx (TimeTracking.stopTimer_body now)
  = Pg.Ok {| Store.t_user_id := Pg.Absent; Store.t_task_id := Pg.Absent;
             Store.t_project_id := Pg.Absent; Store.t_start_time := Pg.Absent;
             Store.t_end_time := Pg.Val (Js.toISOString now);
             Store.t_date := Pg.Absent |}.
Proof. reflexivity. Qed.

(** When the active log has been rejected and the caller is not an admin,
    the update of [stopTimer] matches no row the caller may update: it is
    not an error, no log changes (the log keeps running in the store), and
    the page clears its active log all the same. *)
Theorem stopTimer_on_rejected_log (sx : Pg.syntax) (uid : Pg.uuid)
    (profile : option Profiles.row) (now : Z) (server_now : Pg.timestamptz)
    (db : database) (st : TimeTracking.state) (a : TimeLogs.row) :
  TimeTracking.activeLog st = Some a ->
  Policy.is_admin db uid = false ->
  (forall r, In r (time_logs db) -> TimeLogs.id r = TimeLogs.id a ->
             TimeLogs.approval_status r = "rejected") ->
  let o := TimeTracking.stopTimer sx uid profile now server_now db st in
  store_of o = db
  /\ TimeTracking.activeLog (state_of o) = None
  /\ TimeTracking.elapsedTime (state_of o) = 0
  /\ requests_of o = [update_of "time_logs"; select_from "time_logs"].
Proof.
  intros Ha Hadm Hrej. cbv zeta. unfold TimeTracking.stopTimer. rewrite Ha.
  assert (U : Store.time_logs_update sx db uid server_now
                (TimeTracking.stopTimer_body now)
                (fun r => String.eqb (TimeLogs.id r) (TimeLogs.id a))
              = Pg.Ok db).
  { unfold Store.time_logs_update. rewrite stopTimer_body_read. simpl.
    rewrite (for_each_row_map_Ok _ (fun r => r)).
    - rewrite map_id. destruct db; reflexivity.
    - intros r Hin.
      destruct (String.eqb (TimeLogs.id r) (TimeLogs.id a)) eqn:Hid;
        [| reflexivity].
      apply String.eqb_eq in Hid.
      unfold Policy.time_logs_update_using.
      rewrite (Hrej r Hin Hid), Hadm. simpl.
      rewrite !andb_false_r. reflexivity. }
  rewrite U. cbn [state_of store_of requests_of].
  destruct (fetchTimeLogs_activeLog uid profile db
              (TimeTracking.setElapsedTime 0 (TimeTracking.setActiveLog None st)))
    as [Fa Fs].
  rewrite Fa, Fs. split; [reflexivity |]. split; [reflexivity |].
  unfold TimeTracking.fetchTimeLogs. destruct profile; split; reflexivity.
Qed.

Lemma stopTimer_on_rejected_log_witness :
  store_of (TimeTracking.stopTimer Sample.sx "alice" (Some Sample.alice)
              (Sample.now0 + 90000) 7 Sample.db_rejected Sample.page_rejected)
  = Sample.db_rejected
  /\ TimeTracking.running "alice" Sample.db_rejected = [Sample.rejected_log]
  /\ TimeTracking.activeLog
       (state_of (TimeTracking.stopTimer Sample.sx "alice" (Some Sample.alice)
                    (Sample.now0 + 90000) 7 Sample.db_rejected
                    Sample.page_rejected))
     = None.
Proof.
  pose proof (stopTimer_on_rejected_log Sample.sx "alice" (Some Sample.alice)
                (Sample.now0 + 90000) 7 Sample.db_rejected Sample.page_rejected
                Sample.rejected_log eq_refl eq_refl) as H.
  cbv zeta in H.
  destruct H as (Hs & Ha & _).
  - intros r [<- | []] _. reflexivity.
  - split; [exact Hs |]. split; [reflexivity | exact Ha].
Defined.

Lemma calculate_time_log_duration_fixed (r r' : TimeLogs.row) :
  TimeLogs.calculate_time_log_duration r = Pg.Ok r ->
  TimeLogs.start_time r' = TimeLogs.start_time r ->
  TimeLogs.end_time r' = TimeLogs.end_time r ->
  TimeLogs.calculate_time_log_duration r'
  = Pg.Ok (TimeLogs.set_duration_minutes (TimeLogs.duration_minutes r) r').
Proof.
  unfold TimeLogs.calculate_time_log_duration. intros H Hs He.
  rewrite He, Hs. destruct (TimeLogs.end_time r) as [e |].
  - destruct (Pg.numeric_to_int4 _) as [d | err]; simpl in *; [| discriminate H].
    injection H as H. rewrite <- H. reflexivity.
  - injection H as H. rewrite <- H. reflexivity.
Qed.

Lemma approve_row (db : database) (uid : Pg.uuid) (now : Pg.timestamptz)
    (r : TimeLogs.row) :
  TimeLogs.user_id r = uid ->
  TimeLogs.calculate_time_log_duration r = Pg.Ok r ->
  Store.time_logs_constraints db r = Pg.Ok tt ->
  Store.time_logs_update_row db uid now (Spec.set_approval_status "approved")
    {| Store.t_user_id := Pg.Absent; Store.t_task_id := Pg.Absent;
       Store.t_project_id := Pg.Absent; Store.t_start_time := Pg.Absent;
       Store.t_end_time := Pg.Absent; Store.t_date := Pg.Absent |} r
  = Pg.Ok (Spec.with_approval_status "approved" now r).
Proof.
  intros Hu Hd Hc.
  unfold Store.time_logs_update_row.
  cbn [Pg.on_update Pg.not_null Pg.bind
    Store.t_user_id Store.t_task_id Store.t_project_id Store.t_start_time
    Store.t_end_time Store.t_date Spec.set_approval_status
    TimeLogsValues.approval_status TimeLogsValues.duration_minutes].
  erewrite calculate_time_log_duration_fixed by (try exact Hd; reflexivity).
  cbn [Pg.bind].
  change (TimeLogs.update_updated_at_column now _)
    with (Spec.with_approval_status "approved" now r).
  unfold Policy.time_logs_update_check, Policy.time_logs_select,
    Store.time_logs_constraints in *.
  cbn [Spec.with_approval_status TimeLogs.user_id TimeLogs.task_id
       TimeLogs.project_id TimeLogs.approval_status].
  steps Hc. rewrite G0, G1, G2.
  rewrite Hu, String.eqb_refl. cbn [orb andb Pg.guard Pg.bind].
  change (TimeLogs.approval_status_check "approved") with true.
  reflexivity.
Qed.

(** The owner of a pending log can approve it: the update policy for
    owners accepts any change that leaves the log theirs, the
    [approval_status] included.  The update leaves every other log and
    every other column of the log as they were. *)
Theorem owner_can_approve_own_log (sx : Pg.syntax) (db : database)
    (uid : Pg.uuid) (now : Pg.timestamptz) (r : TimeLogs.row) :
  In r (time_logs db) ->
  TimeLogs.user_id r = uid ->
  TimeLogs.approval_status r = "pending" ->
  (forall x, In x (time_logs db) -> TimeLogs.id x = TimeLogs.id r -> x = r) ->
  TimeLogs.calculate_time_log_duration r = Pg.Ok r ->
  Store.time_logs_constraints db r = Pg.Ok tt ->
  Store.time_logs_update sx db uid now (Spec.set_approval_status "approved")
    (fun x => String.eqb (TimeLogs.id x) (TimeLogs.id r))
  = Pg.Ok (with_time_logs
             (map (fun x => if String.eqb (TimeLogs.id x) (TimeLogs.id r)
                            then Spec.with_approval_status "approved" now x
                            else x)
                  (time_logs db))
             db).
Proof.
  intros Hin Hu Hp Hkey Hd Hc.
  assert (C : Policy.time_logs_select db uid r
              && Policy.time_logs_update_using db uid r = true).
  { unfold Policy.time_logs_select, Policy.time_logs_update_using.
    rewrite Hu, Hp, String.eqb_refl. reflexivity. }
  unfold Store.time_logs_update.
  change (Store.read_values sx (Spec.set_approval_status "approved"))
    with (Pg.Ok {| Store.t_user_id := @Pg.Absent Pg.uuid;
                   Store.t_task_id := Pg.Absent;
                   Store.t_project_id := Pg.Absent;
                   Store.t_start_time := Pg.Absent;
                   Store.t_end_time := Pg.Absent;
                   Store.t_date := Pg.Absent |}).
  cbn [Pg.bind].
  erewrite for_each_row_map_Ok; [reflexivity |].
  intros x Hx. cbv beta.
  destruct (String.eqb (TimeLogs.id x) (TimeLogs.id r)) eqn:Hid;
    [| reflexivity].
  apply String.eqb_eq in Hid. rewrite (Hkey x Hx Hid). clear x Hx Hid.
  cbn [andb]. rewrite C.
  apply approve_row; assumption.
Qed.

Lemma owner_can_approve_own_log_witness :
  Store.time_logs_update Sample.sx Sample.db_pending "alice" 9
    (Spec.set_approval_status "approved")
    (fun x => String.eqb (TimeLogs.id x) "m1")
  = Pg.Ok (with_time_logs
             [Spec.with_approval_status "approved" 9 Sample.pending_entry]
             Sample.db_pending).
Proof.
  apply (owner_can_approve_own_log Sample.sx Sample.db_pending "alice" 9
           Sample.pending_entry).
  - left. reflexivity.
  - reflexivity.
  - reflexivity.
  - intros x [<- | []] _. reflexivity.
  - reflexivity.
  - reflexivity.
Defined.

(** X9.  A caller who is not an admin cannot touch the logs of others: after
    any update the caller sends, the logs of every other user are exactly
    as before, in the same order (and none of the caller's logs has
    moved to another user). *)
Theorem non_admin_update_keeps_others_logs (sx : Pg.syntax) (db db' : database)
    (uid : Pg.uuid) (now : Pg.timestamptz) (v : TimeLogsValues.t)
    (selected : TimeLogs.row -> bool) :
  Policy.is_admin db uid = false ->
  Store.time_logs_update sx db uid now v selected = Pg.Ok db' ->
  filter (fun r => negb (String.eqb (TimeLogs.user_id r) uid)) (time_logs db')
  = filter (fun r => negb (String.eqb (TimeLogs.user_id r) uid)) (time_logs db).
Proof.
  intros Hadm H. unfold Store.time_logs_update in H. steps H.
  injection H as <-. simpl.
  eapply for_each_row_filter; [| exact E0].
  intros OLD NEW _ Hf. cbv beta in Hf.
  destruct (selected OLD && Policy.time_logs_select db uid OLD
            && Policy.time_logs_update_using db uid OLD) eqn:Hc;
    [| injection Hf as <-; split; [reflexivity | reflexivity]].
  apply andb_prop in Hc. destruct Hc as [_ Hu].
  unfold Policy.time_logs_update_using in Hu.
  rewrite Hadm, orb_false_r in Hu. apply andb_prop in Hu.
  destruct Hu as [Hu _].
  unfold Store.time_logs_update_row in Hf. steps Hf. injection Hf as <-.
  apply andb_prop in G. destruct G as [G _].
  unfold Policy.time_logs_update_check in G.
  rewrite Hadm, orb_false_r in G.
  rewrite G, Hu. split; [reflexivity | discriminate].
Qed.

Lemma non_admin_update_keeps_others_logs_witness :
  Policy.is_admin Sample.db_shared "alice" = false
  /\ Sample.all_approved = Pg.Ok Sample.db_all_approved
  /\ map TimeLogs.approval_status (time_logs Sample.db_all_approved)
     = ["approved"; "approved"]
  /\ filter (fun r => negb (String.eqb (TimeLogs.user_id r) "alice"))
            (time_logs Sample.db_all_approved)
     = [Sample.bob_log].
Proof.
  assert (A : Policy.is_admin Sample.db_shared "alice" = false) by reflexivity.
  assert (U : Sample.all_approved = Pg.Ok Sample.db_all_approved)
    by (vm_compute; reflexivity).
  split; [exact A |]. split; [exact U |]. split; [reflexivity |].
  rewrite (non_admin_update_keeps_others_logs Sample.sx Sample.db_shared
             Sample.db_all_approved "alice" 9
             (Spec.set_approval_status "approved") (fun _ => true) A U).
  reflexivity.
Defined.

(** X10.  A log started by the timer is stored ['approved'], and the delete
    policy lets an owner delete only ['pending'] logs: whatever the
    caller, not an admin, then asks to delete, the log stays. *)
Theorem started_log_cannot_be_deleted (sx : Pg.syntax) (uid : Pg.uuid)
    (profile : option Profiles.row) (now : Z) (server_now : Pg.timestamptz)
    (new_id taskId : Pg.uuid) (db : database) (st : TimeTracking.state) :
  Policy.is_admin db uid = false ->
  let o := TimeTracking.startTimer sx uid profile now server_now new_id
             taskId db st in
  forall r, TimeTracking.activeLog (state_of o) = Some r ->
            TimeTracking.activeLog st = None ->
  forall selected,
    In r (time_logs (Store.time_logs_delete (store_of o) uid selected)).
Proof.
  intros Hadm o r Ha Hn selected. subst o.
  pose proof (startTimer_outcome sx uid profile now server_now new_id taskId db st)
    as O. cbv zeta in O.
  destruct O as [[_ Hst] | (r' & Hs & Hst & _ & Hap & _)];
    rewrite Hst in Ha; [congruence |].
  simpl in Ha. injection Ha as <-. rewrite Hs.
  unfold Store.time_logs_delete. simpl. apply filter_In. split.
  - apply in_or_app. right. left. reflexivity.
  - unfold Policy.time_logs_delete_using, Policy.is_admin in *. simpl.
    rewrite Hadm, Hap. simpl. rewrite !andb_false_r. reflexivity.
Qed.

Lemma started_log_cannot_be_deleted_witness :
  Policy.is_admin Sample.db0 "alice" = false
  /\ exists r,
       TimeTracking.activeLog (state_of Sample.first_start) = Some r
       /\ In r (time_logs (Store.time_logs_delete (store_of Sample.first_start)
                             "alice" (fun _ => true))).
Proof.
  split; [reflexivity |].
  eexists. split; [reflexivity |].
  apply (started_log_cannot_be_deleted Sample.sx "alice" (Some Sample.alice)
           Sample.now0 5 "l1" "t1" Sample.db0 (Sample.mounted Sample.db0)
           eq_refl _ eq_refl eq_refl).
Defined.

(** ** Tasks: creating, editing, deleting *)

Lemma filter_all {A : Type} (f : A -> bool) (l : list A) :
  (forall a, In a l -> f a = true) -> filter f l = l.
Proof.
  induction l as [| a l IH]; simpl; intros H; [reflexivity |].
  rewrite H by (left; reflexivity).
  rewrite IH by (intros; apply H; right; assumption). reflexivity.
Qed.

(** X11.  An INSERT into [tasks] stores a task only with the caller as its
    creator, and with a project only when the caller is an admin, manages
    the project or is a member of it. *)
Theorem tasks_insert_only_as_creator (sx : Pg.syntax) (db db' : database)
    (uid new_id : Pg.uuid) (now : Pg.timestamptz) (v : TasksValues.t) :
  Store.tasks_insert sx db uid new_id now v = Pg.Ok db' ->
  exists NEW,
    db' = Store.with_tasks (tasks db ++ [NEW]) db
    /\ Tasks.id NEW = new_id
    /\ Tasks.created_by NEW = uid
    /\ (Tasks.project_id NEW = None
        \/ Policy.is_admin db uid = true
        \/ Policy.manages db uid (Tasks.project_id NEW) = true
        \/ Policy.member_of db uid (Tasks.project_id NEW) = true).
Proof.
  unfold Store.tasks_insert. intros H. steps H. injection H as <-.
  eexists. split; [reflexivity |]. split; [reflexivity |].
  unfold Policy.tasks_insert_check in G. cbn [Tasks.created_by Tasks.project_id] in *.
  apply andb_prop in G. destruct G as [Gc Gp].
  apply String.eqb_eq in Gc. split; [exact Gc |].
  destruct (Pg.on_insert None (Store.tt_project_id a)) as [pid |];
    [| left; reflexivity].
  right. cbn [orb] in Gp.
  destruct (Policy.is_admin db uid); [left; reflexivity |].
  right. cbn [orb] in Gp. apply orb_prop in Gp. exact Gp.
Qed.

(** Submitting the task form with the project and the assignee left blank
    and both dates set creates a personal, unassigned task of the caller,
    and the page then lists it.  The blank description is stored as the
    empty string. *)
Theorem handleSubmit_creates_personal_task (sx : Pg.syntax) (p : Profiles.row)
    (server_now : Pg.timestamptz) (new_id : Pg.uuid) (db : database)
    (st : TasksPage.state) (sd ed : Pg.date) :
  Pg.mem (Profiles.id p) (map Profiles.id (profiles db)) = true ->
  Pg.mem new_id (map Tasks.id (tasks db)) = false ->
  TasksPage.editingTask st = None ->
  TasksPage.filterStatus st = "all" ->
  TasksPage.project_id (TasksPage.formData st) = Pg.Text "" ->
  TasksPage.assigned_to (TasksPage.formData st) = Pg.Text "" ->
  TasksPage.start_date (TasksPage.formData st) = Pg.Lit sd ->
  TasksPage.end_date (TasksPage.formData st) = Pg.Lit ed ->
  Tasks.status_check (TasksPage.status (TasksPage.formData st)) = true ->
  let created :=
    {| Tasks.id := new_id; Tasks.name := TasksPage.name (TasksPage.formData st);
       Tasks.description := Some (TasksPage.description (TasksPage.formData st));
       Tasks.project_id := None; Tasks.assigned_to := None;
       Tasks.status := TasksPage.status (TasksPage.formData st);
       Tasks.start_date := Some sd; Tasks.end_date := Some ed;
       Tasks.created_by := Profiles.id p;
       Tasks.created_at := Some server_now;
       Tasks.updated_at := Some server_now |} in
  let o := TasksPage.handleSubmit sx (Profiles.id p) (Some p) server_now new_id
             db st in
  store_of o = Store.with_tasks (tasks db ++ [created]) db
  /\ In created (TasksPage.tasks (state_of o))
  /\ TasksPage.formData (state_of o) = TasksPage.blank_form
  /\ TasksPage.modalOpen (state_of o) = false.
Proof.
  intros Hp Hf He Hall Hpr Has Hsd Hed Hst created o. subst o.
  unfold TasksPage.handleSubmit. rewrite He. cbn [fst snd].
  assert (I : Store.tasks_insert sx db (Profiles.id p) new_id server_now
                (TasksPage.taskData (Some p) (TasksPage.formData st))
              = Pg.Ok (Store.with_tasks (tasks db ++ [created]) db)).
  { unfold Store.tasks_insert, Store.read_task_values, TasksPage.taskData.
    cbn [TasksValues.project_id TasksValues.assigned_to TasksValues.start_date
         TasksValues.end_date TasksValues.created_by TasksValues.name
         TasksValues.status TasksValues.description].
    rewrite Hpr, Has, Hsd, Hed.
    cbn [TasksPage.or_null String.eqb Pg.read_field Pg.read Pg.bind
         Pg.on_insert Pg.not_null Store.tt_project_id Store.tt_assigned_to
         Store.tt_start_date Store.tt_end_date Store.tt_created_by].
    unfold Policy.tasks_insert_check, Store.tasks_constraints.
    cbn [Tasks.created_by Tasks.project_id Tasks.status Tasks.assigned_to
         Store.references].
    rewrite String.eqb_refl, Hf, Hst, Hp. reflexivity. }
  rewrite I. cbn [state_of store_of requests_of TasksPage.fetchTasks].
  split; [reflexivity |]. split; [| split; reflexivity].
  unfold TasksPage.setTasks. cbn [TasksPage.tasks].
  apply order_by_In. unfold Store.tasks_select. apply filter_In. split.
  - simpl. apply in_or_app. right. left. reflexivity.
  - cbn [TasksPage.filterStatus TasksPage.resetForm TasksPage.setModalOpen].
    rewrite Hall. unfold Policy.tasks_select.
    cbn [Tasks.created_by Tasks.assigned_to created]. rewrite String.eqb_refl.
    simpl. reflexivity.
Qed.

Lemma handleSubmit_creates_personal_task_witness :
  map (fun t => (Tasks.id t, Tasks.project_id t, Tasks.assigned_to t,
                 Tasks.created_by t, Tasks.description t))
      (tasks (store_of (TasksPage.handleSubmit Sample.sx
                          (Profiles.id Sample.alice)
                          (Some Sample.alice) 9 "t2" Sample.db0
                          Sample.tasks_page_alice)))
  = [("t1", None, None, "alice", None); ("t2", None, None, "alice", Some "")].
Proof.
  rewrite (proj1 (handleSubmit_creates_personal_task Sample.sx Sample.alice 9
                    "t2" Sample.db0 Sample.tasks_page_alice
                    Sample.d_2025_01_01 (Sample.d_2025_01_01 + 1)
                    eq_refl eq_refl eq_refl eq_refl eq_refl eq_refl eq_refl
                    eq_refl eq_refl)).
  reflexivity.
Defined.

Lemma tasks_insert_only_as_creator_witness :
  Store.tasks_insert Sample.sx Sample.db0 "alice" "t2" 9
    (TasksPage.taskData (Some Sample.alice) Sample.new_task_form)
  = Pg.Ok Sample.db_task_created
  /\ exists NEW,
       Sample.db_task_created
       = Store.with_tasks (tasks Sample.db0 ++ [NEW]) Sample.db0
       /\ Tasks.id NEW = "t2"
       /\ Tasks.created_by NEW = "alice"
       /\ (Tasks.project_id NEW = None
           \/ Policy.is_admin Sample.db0 "alice" = true
           \/ Policy.manages Sample.db0 "alice" (Tasks.project_id NEW) = true
           \/ Policy.member_of Sample.db0 "alice" (Tasks.project_id NEW) = true).
Proof.
  assert (H : Store.tasks_insert Sample.sx Sample.db0 "alice" "t2" 9
                (TasksPage.taskData (Some Sample.alice) Sample.new_task_form)
              = Pg.Ok Sample.db_task_created) by (vm_compute; reflexivity).
  split; [exact H |].
  exact (tasks_insert_only_as_creator Sample.sx Sample.db0
           Sample.db_task_created "alice" "t2" 9 _ H).
Defined.

(** Nobody can file a task in the name of somebody else: the admin's
    insert of a task created by the employee is refused. *)
Lemma admin_cannot_create_for_another :
  Store.tasks_insert Sample.sx Sample.db0 "root" "t2" 9
    (TasksPage.taskData (Some Sample.alice) Sample.new_task_form)
  = Pg.Err Pg.row_level_security_violation.
Proof. vm_compute. reflexivity. Qed.

Lemma read_task_values_blank_date (sx : Pg.syntax) (v : TasksValues.t) :
  Pg.date_in sx "" = None ->
  TasksValues.start_date v = Pg.Val (Pg.Text "")
  \/ TasksValues.end_date v = Pg.Val (Pg.Text "") ->
  exists e, Store.read_task_values sx v = Pg.Err e.
Proof.
  intros Hd Hb. unfold Store.read_task_values.
  destruct (Pg.read_field (Pg.uuid_in sx) (TasksValues.project_id v));
    [| eexists; reflexivity].
  destruct (Pg.read_field (Pg.uuid_in sx) (TasksValues.assigned_to v));
    [| eexists; reflexivity].
  simpl.
  destruct Hb as [Hb | Hb].
  - rewrite Hb. simpl. rewrite Hd. eexists; reflexivity.
  - destruct (Pg.read_field (Pg.date_in sx) (TasksValues.start_date v));
      [| eexists; reflexivity].
    simpl. rewrite Hb. simpl. rewrite Hd. eexists; reflexivity.
Qed.

(** X13.  Where the store's [date] input rejects the empty string, submitting
    the task form with a date left blank changes nothing, for a new task
    and for an edited one: a task can only be saved with both dates. *)
Theorem task_with_blank_date_is_refused (sx : Pg.syntax) (uid : Pg.uuid)
    (profile : option Profiles.row) (server_now : Pg.timestamptz)
    (new_id : Pg.uuid) (db : database) (st : TasksPage.state) :
  Pg.date_in sx "" = None ->
  TasksPage.start_date (TasksPage.formData st) = Pg.Text ""
  \/ TasksPage.end_date (TasksPage.formData st) = Pg.Text "" ->
  let o := TasksPage.handleSubmit sx uid profile server_now new_id db st in
  store_of o = db /\ state_of o = st.
Proof.
  intros Hd Hb. cbv zeta.
  destruct (read_task_values_blank_date sx
              (TasksPage.taskData profile (TasksPage.formData st)) Hd)
    as (e & He).
  { unfold TasksPage.taskData. simpl.
    destruct Hb as [-> | ->]; [left | right]; reflexivity. }
  unfold TasksPage.handleSubmit, Store.tasks_update, Store.tasks_insert.
  rewrite He. destruct (TasksPage.editingTask st); split; reflexivity.
Qed.

Lemma task_with_blank_date_is_refused_witness :
  Pg.date_in Sample.sx "" = None
  /\ store_of (TasksPage.handleSubmit Sample.sx "alice" (Some Sample.alice) 9
                 "t2" Sample.db0 Sample.undated_task_page)
     = Sample.db0.
Proof.
  split; [reflexivity |].
  exact (proj1 (task_with_blank_date_is_refused Sample.sx "alice"
                  (Some Sample.alice) 9 "t2" Sample.db0
                  Sample.undated_task_page eq_refl (or_intror eq_refl))).
Defined.

(** X14.  Saving an edited task makes the editor its creator: the body always
    carries [created_by: profile.id].  For every stored task with the
    edited id that the caller may see and update, a successful save
    stores the caller as [created_by]. *)
Theorem edit_makes_editor_creator (sx : Pg.syntax) (uid : Pg.uuid)
    (p : Profiles.row) (server_now : Pg.timestamptz) (new_id : Pg.uuid)
    (db : database) (st : TasksPage.state) (t OLD : Tasks.row) :
  TasksPage.editingTask st = Some t ->
  In OLD (tasks db) ->
  Tasks.id OLD = Tasks.id t ->
  Policy.tasks_select db uid OLD = true ->
  Policy.tasks_update_using db uid OLD = true ->
  let o := TasksPage.handleSubmit sx uid (Some p) server_now new_id db st in
  (store_of o = db /\ state_of o = st)
  \/ exists NEW, In NEW (tasks (store_of o))
                 /\ Tasks.id NEW = Tasks.id OLD
                 /\ Tasks.created_by NEW = Profiles.id p.
Proof.
  intros He Hin Hid Hs Hu. cbv zeta.
  unfold TasksPage.handleSubmit. rewrite He. cbn [fst snd].
  destruct (Store.tasks_update sx db uid server_now _ _) as [db' | e] eqn:H;
    [right | left; split; reflexivity].
  cbn [store_of TasksPage.fetchTasks].
  unfold Store.tasks_update in H. steps H. injection H as <-.
  destruct (for_each_row_forward _ _ _ E0 _ Hin) as (NEW & Hf & HN).
  cbv beta in Hf. rewrite Hid, String.eqb_refl, Hs, Hu in Hf.
  cbn [andb] in Hf.
  exists NEW. split; [exact HN |].
  unfold Store.tasks_update_row in Hf. steps Hf. injection Hf as <-.
  cbn [Tasks.id Tasks.created_by]. split; [reflexivity |].
  unfold Store.read_task_values in E. steps E. injection E as <-.
  unfold TasksPage.taskData in E6. cbn in E6. injection E6 as <-.
  cbn in N1. injection N1 as <-. reflexivity.
Qed.

Lemma edit_makes_editor_creator_witness :
  Tasks.created_by Sample.shared_task = "alice"
  /\ map (fun t => (Tasks.id t, Tasks.created_by t, Tasks.assigned_to t))
         (tasks (store_of (TasksPage.handleSubmit Sample.sx "bob"
                             (Some Sample.bob) 9 "unused" Sample.db_team
                             Sample.tasks_page_bob)))
     = [("t1", "alice", None); ("t9", "bob", Some "bob")]
  /\ exists NEW,
       In NEW (tasks (store_of (TasksPage.handleSubmit Sample.sx "bob"
                                  (Some Sample.bob) 9 "unused" Sample.db_team
                                  Sample.tasks_page_bob)))
       /\ Tasks.id NEW = "t9" /\ Tasks.created_by NEW = "bob".
Proof.
  split; [reflexivity |]. split; [vm_compute; reflexivity |].
  destruct (edit_makes_editor_creator Sample.sx "bob" Sample.bob 9 "unused"
              Sample.db_team Sample.tasks_page_bob Sample.shared_task
              Sample.shared_task eq_refl (or_intror (or_introl eq_refl))
              eq_refl eq_refl eq_refl) as [[H _] | H].
  - exfalso. vm_compute in H. discriminate H.
  - exact H.
Defined.

Lemma admin_sees_every_task (db : database) (uid : Pg.uuid) (r : Tasks.row) :
  Policy.is_admin db uid = true -> Policy.tasks_select db uid r = true.
Proof.
  intros H. unfold Policy.tasks_select. rewrite H.
  rewrite orb_true_r. reflexivity.
Qed.

Lemma mem_map_filter_id (id : Pg.uuid) (l : list Tasks.row) (k : Pg.uuid) :
  Pg.mem k (map Tasks.id (filter (fun r => String.eqb (Tasks.id r) id) l)) = true
  <-> k = id /\ exists t, In t l /\ Tasks.id t = id.
Proof.
  unfold Pg.mem. rewrite existsb_exists. split.
  - intros (x & Hx & Hk). apply in_map_iff in Hx.
    destruct Hx as (t & <- & Ht). apply filter_In in Ht.
    destruct Ht as [Ht Hid]. apply String.eqb_eq in Hid, Hk.
    split; [congruence | exists t; auto].
  - intros (-> & t & Ht & Hid). exists id. split; [| apply String.eqb_refl].
    apply in_map_iff. exists t. split; [exact Hid |].
    apply filter_In. split; [exact Ht | apply String.eqb_eq; exact Hid].
Qed.

(** When an admin confirms the deletion of a task, the task is gone and
    so is every time log on it; every other task and every other time log
    stays, and profiles and projects are not touched. *)
Theorem admin_deletes_task_and_its_logs (uid id : Pg.uuid) (db : database)
    (st : TasksPage.state) :
  Policy.is_admin db uid = true ->
  (exists t, In t (tasks db) /\ Tasks.id t = id) ->
  let db' := store_of (and_then (TasksPage.handleDelete uid true id db st)) in
  (forall t, In t (tasks db') <-> In t (tasks db) /\ Tasks.id t <> id)
  /\ (forall l, In l (time_logs db')
                <-> In l (time_logs db) /\ TimeLogs.task_id l <> id)
  /\ profiles db' = profiles db
  /\ projects db' = projects db.
Proof.
  intros Hadm Hex db'. subst db'.
  unfold TasksPage.handleDelete. cbn [and_then store_of TasksPage.fetchTasks].
  unfold Store.tasks_delete. cbn [tasks time_logs profiles projects].
  assert (D : forall r, Store.tasks_deleted db uid
                          (fun r => String.eqb (Tasks.id r) id) r
                        = String.eqb (Tasks.id r) id).
  { intros r. unfold Store.tasks_deleted, Policy.tasks_delete_using.
    rewrite (admin_sees_every_task db uid r Hadm), Hadm, !andb_true_r.
    reflexivity. }
  split; [| split; [| split; reflexivity]].
  - intros t. rewrite filter_In, D. split; intros [Hin Hne]; split;
      try exact Hin.
    + apply negb_true_iff, String.eqb_neq in Hne. exact Hne.
    + apply negb_true_iff, String.eqb_neq. exact Hne.
  - intros l. rewrite filter_In.
    rewrite (filter_ext _ _ D).
    split; intros [Hin Hne]; split; try exact Hin.
    + intros Heq. apply negb_true_iff in Hne.
      assert (M : Pg.mem (TimeLogs.task_id l)
                    (map Tasks.id
                       (filter (fun r => String.eqb (Tasks.id r) id) (tasks db)))
                  = true) by (apply mem_map_filter_id; split; assumption).
      congruence.
    + apply negb_true_iff.
      destruct (Pg.mem _ _) eqn:M; [| reflexivity].
      apply mem_map_filter_id in M. destruct M as [M _]. contradiction.
Qed.

Lemma admin_deletes_task_and_its_logs_witness :
  Policy.is_admin Sample.db_team "root" = true
  /\ map Tasks.id
       (tasks (store_of (and_then (TasksPage.handleDelete "root" true "t9"
                                     Sample.db_team TasksPage.initial))))
     = ["t1"]
  /\ map TimeLogs.id
       (time_logs (store_of (and_then (TasksPage.handleDelete "root" true "t9"
                                         Sample.db_team TasksPage.initial))))
     = ["m1"]
  /\ forall l,
       In l (time_logs (store_of (and_then (TasksPage.handleDelete "root" true
                                              "t9" Sample.db_team
                                              TasksPage.initial))))
       <-> In l (time_logs Sample.db_team) /\ TimeLogs.task_id l <> "t9".
Proof.
  split; [reflexivity |]. split; [reflexivity |]. split; [reflexivity |].
  apply (admin_deletes_task_and_its_logs "root" "t9" Sample.db_team
           TasksPage.initial eq_refl).
  exists Sample.shared_task. split; [right; left; reflexivity | reflexivity].
Defined.

(** X16.  For a caller who is not an admin the deletion of a task removes
    nothing, whatever task is named and whether or not the caller created
    it: the request is answered without an error and the store is as
    before.  Without the confirmation no request is sent. *)
Theorem non_admin_deletes_no_task (uid id : Pg.uuid) (confirmed : bool)
    (db : database) (st : TasksPage.state) :
  Policy.is_admin db uid = false ->
  store_of (and_then (TasksPage.handleDelete uid confirmed id db st)) = db
  /\ (confirmed = false ->
      TasksPage.handleDelete uid confirmed id db st
      = {| delete_sent := None;
           and_then := {| state_of := st; store_of := db; requests_of := [] |} |}).
Proof.
  intros Hadm. split; [| intros ->; reflexivity].
  unfold TasksPage.handleDelete. destruct confirmed; [| reflexivity].
  cbn [and_then store_of TasksPage.fetchTasks]. unfold Store.tasks_delete.
  assert (D : forall r, Store.tasks_deleted db uid
                          (fun r => String.eqb (Tasks.id r) id) r = false).
  { intros r. unfold Store.tasks_deleted, Policy.tasks_delete_using.
    rewrite Hadm. apply andb_false_r. }
  rewrite (filter_all _ (tasks db)) by (intros; rewrite D; reflexivity).
  rewrite (filter_ext _ (fun _ => false) D). 
  assert (N : filter (fun _ : Tasks.row => false) (tasks db) = []).
  { induction (tasks db); [reflexivity | assumption]. }
  rewrite N. simpl.
  rewrite (filter_all _ (time_logs db)) by reflexivity.
  destruct db; reflexivity.
Qed.

Lemma non_admin_deletes_no_task_witness :
  Policy.is_admin Sample.db_team "alice" = false
  /\ store_of (and_then (TasksPage.handleDelete "alice" true "t1"
                           Sample.db_team TasksPage.initial))
     = Sample.db_team.
Proof.
  split; [reflexivity |].
  exact (proj1 (non_admin_deletes_no_task "alice" "t1" true Sample.db_team
                  TasksPage.initial eq_refl)).
Defined.

(** X17.  The assignee list of the task form, for a caller who is not an admin,
    holds the caller's own profile and nobody else's: the profiles policy
    shows the others only to an admin. *)
Theorem non_admin_assignee_list_is_self (uid : Pg.uuid) (db : database)
    (st : TasksPage.state) :
  Policy.is_admin db uid = false ->
  forall u, In u (TasksPage.users (state_of (TasksPage.fetchUsers uid db st))) ->
            TasksPage.u_id u = uid.
Proof.
  intros Hadm u Hin. cbn in Hin. apply in_map_iff in Hin.
  destruct Hin as (p & <- & Hp). unfold Store.profiles_select in Hp.
  apply filter_In in Hp. destruct Hp as [_ Hp].
  unfold Policy.profiles_select in Hp.
  rewrite Hadm, orb_false_r, andb_true_r in Hp.
  apply String.eqb_eq in Hp. simpl. symmetry. exact Hp.
Qed.

Lemma non_admin_assignee_list_is_self_witness :
  Policy.is_admin Sample.db_team "alice" = false
  /\ map TasksPage.u_id
       (TasksPage.users (state_of (TasksPage.fetchUsers "alice" Sample.db_team
                                     TasksPage.initial)))
     = ["alice"]
  /\ forall u,
       In u (TasksPage.users (state_of (TasksPage.fetchUsers "alice"
                                          Sample.db_team TasksPage.initial))) ->
       TasksPage.u_id u = "alice".
Proof.
  split; [reflexivity |]. split; [reflexivity |].
  exact (non_admin_assignee_list_is_self "alice" Sample.db_team
           TasksPage.initial eq_refl).
Defined.

(** ** The users page: what an admin's changes do *)

Lemma for_each_row_is_map {A : Type} (f : A -> Pg.result A) (g : A -> A)
    (l l' : list A) :
  (forall a a', In a l -> f a = Pg.Ok a' -> a' = g a) ->
  Pg.for_each_row f l = Pg.Ok l' ->
  l' = map g l.
Proof.
  revert l'; induction l as [| a l IH]; simpl; intros l' Hf H.
  - injection H as <-; reflexivity.
  - steps H. injection H as <-. f_equal.
    + apply Hf; [left; reflexivity | assumption].
    + apply IH; [intros; apply Hf; [right |]; assumption | assumption].
Qed.

Lemma change_profile_ids (i : Pg.uuid) (g : Profiles.row -> Profiles.row)
    (l : list Profiles.row) :
  (forall p, Profiles.id (g p) = Profiles.id p) ->
  map Profiles.id (Spec.change_profile i g l) = map Profiles.id l.
Proof.
  intros H. unfold Spec.change_profile. rewrite map_map. apply map_ext.
  intros p. destruct (String.eqb (Profiles.id p) i); [apply H | reflexivity].
Qed.

Lemma change_profile_emails (i : Pg.uuid) (g : Profiles.row -> Profiles.row)
    (l : list Profiles.row) :
  (forall p, Profiles.email (g p) = Profiles.email p) ->
  map Profiles.email (Spec.change_profile i g l) = map Profiles.email l.
Proof.
  intros H. unfold Spec.change_profile. rewrite map_map. apply map_ext.
  intros p. destruct (String.eqb (Profiles.id p) i); [apply H | reflexivity].
Qed.

(** An admin's update that sets [role] and [status] (each to a value, or
    left out) on the profile [i] of a consistent table goes through when
    the new values pass the CHECKs, and changes that profile only. *)
Lemma admin_profiles_update (sx : Pg.syntax) (db : database) (uid i : Pg.uuid)
    (now : Pg.timestamptz) (fr fs : Pg.field Pg.text)
    (r' s' : Profiles.row -> Pg.text) :
  Policy.is_admin db uid = true ->
  Spec.profiles_ok db = true ->
  (forall p, Pg.on_update (Some (Profiles.role p)) fr = Some (r' p)) ->
  (forall p, Pg.on_update (Some (Profiles.status p)) fs = Some (s' p)) ->
  (forall p, In p (profiles db) -> Profiles.id p = i ->
             Profiles.role_check (r' p) = true
             /\ Profiles.status_check (s' p) = true) ->
  Store.profiles_update sx db uid now
    {| ProfilesValues.id := Pg.Absent; ProfilesValues.full_name := Pg.Absent;
       ProfilesValues.email := Pg.Absent; ProfilesValues.role := fr;
       ProfilesValues.status := fs |}
    (fun r => String.eqb (Profiles.id r) i)
  = Pg.Ok (with_profiles
             (Spec.change_profile i
                (fun p => Spec.with_role_status (r' p) (s' p) now p)
                (profiles db))
             db).
Proof.
  intros Hadm Hok Hr Hs Hchk.
  unfold Spec.profiles_ok in Hok.
  apply andb_true_iff in Hok. destruct Hok as [Hok _].
  apply andb_true_iff in Hok. destruct Hok as [Hids Hemails].
  unfold Store.profiles_update.
  cbn [ProfilesValues.id Pg.read_field Pg.bind].
  rewrite (for_each_row_map_Ok _
             (fun p => if String.eqb (Profiles.id p) i
                       then Spec.with_role_status (r' p) (s' p) now p else p)).
  - cbn [Pg.bind]. fold (Spec.change_profile i
                           (fun p => Spec.with_role_status (r' p) (s' p) now p)
                           (profiles db)).
    rewrite change_profile_ids by reflexivity.
    rewrite change_profile_emails by reflexivity.
    rewrite Hids, Hemails. reflexivity.
  - intros p Hp.
    unfold Policy.profiles_select, Policy.profiles_update_using,
      Policy.profiles_update_admin.
    rewrite Hadm, !orb_true_r, !andb_true_r.
    destruct (String.eqb (Profiles.id p) i) eqn:Hi; [| reflexivity].
    apply String.eqb_eq in Hi. destruct (Hchk p Hp Hi) as [Cr Cs].
    unfold Store.profiles_update_row.
    cbn [ProfilesValues.full_name ProfilesValues.email ProfilesValues.role
         ProfilesValues.status Pg.on_update Pg.not_null Pg.bind].
    rewrite Hr, Hs. cbn [Pg.not_null Pg.bind].
    unfold Policy.profiles_update_check, Policy.profiles_update_admin,
      Policy.profiles_select.
    rewrite Hadm. cbn [Pg.bind]. rewrite orb_true_r. cbn [andb Pg.guard Pg.bind].
    rewrite Cr, Cs. cbn [Pg.guard Pg.bind].
    rewrite String.eqb_refl. reflexivity.
Qed.

Lemma profiles_ok_checks (db : database) (p : Profiles.row) :
  Spec.profiles_ok db = true -> In p (profiles db) ->
  Profiles.role_check (Profiles.role p) = true
  /\ Profiles.status_check (Profiles.status p) = true.
Proof.
  intros Hok Hp. unfold Spec.profiles_ok in Hok.
  apply andb_true_iff in Hok. destruct Hok as [_ Hall].
  rewrite forallb_forall in Hall. apply andb_true_iff. apply Hall. exact Hp.
Qed.

Lemma newStatus_check (user : Profiles.row) :
  Profiles.status_check (Users.newStatus user) = true.
Proof.
  unfold Users.newStatus.
  destruct (String.eqb (Profiles.status user) "active"); reflexivity.
Qed.

Lemma toggleUserStatus_outcome (sx : Pg.syntax) (uid : Pg.uuid)
    (now : Pg.timestamptz) (user : Profiles.row) (db : database)
    (st : Users.state) :
  Policy.is_admin db uid = true ->
  Spec.profiles_ok db = true ->
  store_of (Users.toggleUserStatus sx uid now user db st)
  = with_profiles
      (Spec.change_profile (Profiles.id user)
         (fun p => Spec.with_role_status (Profiles.role p)
                     (Users.newStatus user) now p)
         (profiles db))
      db.
Proof.
  intros Hadm Hok. unfold Users.toggleUserStatus, Users.toggleUserStatus_body.
  rewrite (admin_profiles_update sx db uid (Profiles.id user) now
             Pg.Absent (Pg.Val (Users.newStatus user))
             Profiles.role (fun _ => Users.newStatus user) Hadm Hok);
    [reflexivity | reflexivity | reflexivity |].
  intros p Hp _. split; [| apply newStatus_check].
  apply (profiles_ok_checks db p Hok Hp).
Qed.

(** When an admin presses the activate / deactivate button of a user, the
    status stored for that user becomes the opposite of the one the table
    showed, and nothing else changes: the user's role, name and e-mail
    stay, every other profile stays, and no other table is touched. *)
Theorem toggleUserStatus_flips_one_status (sx : Pg.syntax) (uid : Pg.uuid)
    (now : Pg.timestamptz) (user : Profiles.row) (db : database)
    (st : Users.state) :
  Policy.is_admin db uid = true ->
  Spec.profiles_ok db = true ->
  let db' := store_of (Users.toggleUserStatus sx uid now user db st) in
  profiles db'
  = map (fun p => if String.eqb (Profiles.id p) (Profiles.id user)
                  then Spec.with_role_status (Profiles.role p)
                         (if String.eqb (Profiles.status user) "active"
                          then "inactive" else "active") now p
                  else p)
        (profiles db)
  /\ projects db' = projects db
  /\ project_members db' = project_members db
  /\ tasks db' = tasks db
  /\ time_logs db' = time_logs db.
Proof.
  intros Hadm Hok db'. subst db'.
  rewrite (toggleUserStatus_outcome sx uid now user db st Hadm Hok).
  repeat split.
Qed.

Lemma toggleUserStatus_flips_one_status_witness :
  map (fun p => (Profiles.id p, Profiles.role p, Profiles.status p))
      (profiles (store_of (Users.toggleUserStatus Sample.sx "root" 9
                             Sample.bob Sample.db_team Sample.users_page_root)))
  = [("alice", "employee", "active"); ("bob", "employee", "inactive");
     ("root", "admin", "active")].
Proof.
  rewrite (proj1 (toggleUserStatus_flips_one_status Sample.sx "root" 9
                    Sample.bob Sample.db_team Sample.users_page_root
                    eq_refl eq_refl)).
  reflexivity.
Defined.

(** Deactivating an account takes no right away: an admin who sets their
    own status, or anybody's, to inactive is an admin for every policy
    afterwards, since the policies read the role and never the status. *)
Theorem deactivated_admin_stays_admin (sx : Pg.syntax) (uid : Pg.uuid)
    (now : Pg.timestamptz) (user : Profiles.row) (db : database)
    (st : Users.state) :
  Policy.is_admin db uid = true ->
  Spec.profiles_ok db = true ->
  Policy.is_admin (store_of (Users.toggleUserStatus sx uid now user db st)) uid
  = true.
Proof.
  intros Hadm Hok.
  rewrite (toggleUserStatus_outcome sx uid now user db st Hadm Hok).
  unfold Policy.is_admin in *. cbn [profiles with_profiles].
  apply existsb_exists in Hadm. destruct Hadm as (p & Hp & Hq).
  apply existsb_exists.
  exists (if String.eqb (Profiles.id p) (Profiles.id user)
          then Spec.with_role_status (Profiles.role p) (Users.newStatus user)
                 now p
          else p).
  split.
  - unfold Spec.change_profile.
    apply (in_map (fun p => if String.eqb (Profiles.id p) (Profiles.id user)
                            then Spec.with_role_status (Profiles.role p)
                                   (Users.newStatus user) now p
                            else p)).
    exact Hp.
  - destruct (String.eqb (Profiles.id p) (Profiles.id user)); exact Hq.
Qed.

Lemma deactivated_admin_stays_admin_witness :
  map Profiles.status
    (filter (fun p => String.eqb (Profiles.id p) "root")
       (profiles (store_of (Users.toggleUserStatus Sample.sx "root" 9
                              Sample.root Sample.db_team
                              Sample.users_page_root))))
  = ["inactive"]
  /\ Policy.is_admin
       (store_of (Users.toggleUserStatus Sample.sx "root" 9 Sample.root
                    Sample.db_team Sample.users_page_root)) "root"
     = true.
Proof.
  split; [reflexivity |].
  exact (deactivated_admin_stays_admin Sample.sx "root" 9 Sample.root
           Sample.db_team Sample.users_page_root eq_refl eq_refl).
Defined.

(** When an admin submits the edit form of a user with a role and a status
    the table allows, that user gets the role and the status of the form,
    every other profile stays as it was, the modal closes and the list is
    read again.  With a role or a status the table does not allow nothing
    is stored and the modal stays open. *)
Theorem handleSubmit_sets_role_and_status (sx : Pg.syntax) (uid : Pg.uuid)
    (now : Pg.timestamptz) (db : database) (st : Users.state)
    (u : Profiles.row) :
  Policy.is_admin db uid = true ->
  Spec.profiles_ok db = true ->
  Users.editingUser st = Some u ->
  In u (profiles db) ->
  let f := Users.formData st in
  let o := Users.handleSubmit sx uid now db st in
  if Profiles.role_check (Users.f_role f)
     && Profiles.status_check (Users.f_status f)
  then profiles (store_of o)
       = Spec.change_profile (Profiles.id u)
           (Spec.with_role_status (Users.f_role f) (Users.f_status f) now)
           (profiles db)
       /\ Users.modalOpen (state_of o) = false
       /\ Users.editingUser (state_of o) = None
       /\ requests_of o = [update_of "profiles"; select_from "profiles"]
  else store_of o = db /\ state_of o = st.
Proof.
  intros Hadm Hok Hed Hin f o. subst f o.
  unfold Users.handleSubmit. rewrite Hed. unfold Users.handleSubmit_body.
  destruct (Profiles.role_check (Users.f_role (Users.formData st))
            && Profiles.status_check (Users.f_status (Users.formData st)))
    eqn:C.
  - apply andb_true_iff in C. destruct C as [Cr Cs].
    rewrite (admin_profiles_update sx db uid (Profiles.id u) now
               (Pg.Val (Users.f_role (Users.formData st)))
               (Pg.Val (Users.f_status (Users.formData st)))
               (fun _ => Users.f_role (Users.formData st))
               (fun _ => Users.f_status (Users.formData st)) Hadm Hok);
      [| reflexivity | reflexivity | intros; split; assumption].
    repeat split.
  - destruct (Store.profiles_update _ _ _ _ _ _) as [db' |] eqn:E;
      [| split; reflexivity].
    exfalso.
    unfold Store.profiles_update in E. steps E.
    destruct (for_each_row_forward _ _ _ E1 u Hin) as (u' & Hu & _).
    cbv beta in Hu.
    unfold Policy.profiles_select, Policy.profiles_update_using,
      Policy.profiles_update_admin in Hu.
    rewrite Hadm, String.eqb_refl, !orb_true_r in Hu. cbn [andb] in Hu.
    unfold Store.profiles_update_row in Hu.
    cbn [ProfilesValues.role ProfilesValues.status Pg.on_update] in Hu.
    steps Hu.
    repeat match goal with
           | N : Some _ = Some _ |- _ => injection N as <-
           end.
    repeat match goal with
           | G : Profiles.role_check _ = true |- _ => rewrite G in C; clear G
           | G : Profiles.status_check _ = true |- _ => rewrite G in C; clear G
           end.
    discriminate C.
Qed.

Lemma handleSubmit_sets_role_and_status_witness :
  map (fun p => (Profiles.id p, Profiles.role p, Profiles.status p))
      (profiles (store_of (Users.handleSubmit Sample.sx "root" 9 Sample.db_team
                             Sample.users_page_editing)))
  = [("alice", "project_manager", "active"); ("bob", "employee", "active");
     ("root", "admin", "active")]
  /\ Users.modalOpen (state_of (Users.handleSubmit Sample.sx "root" 9
                                  Sample.db_team Sample.users_page_editing))
     = false.
Proof.
  pose proof (handleSubmit_sets_role_and_status Sample.sx "root" 9
                Sample.db_team Sample.users_page_editing Sample.alice
                eq_refl eq_refl eq_refl (or_introl eq_refl)) as H.
  cbv zeta in H.
  change (Profiles.role_check
            (Users.f_role (Users.formData Sample.users_page_editing))
          && Profiles.status_check
               (Users.f_status (Users.formData Sample.users_page_editing)))
    with true in H.
  cbv iota in H. destruct H as (H1 & H2 & _).
  split; [rewrite H1; reflexivity | exact H2].
Defined.

(** ** Projects: who sees, changes and deletes them *)

Lemma mem_map_filter_project (id : Pg.uuid) (l : list Projects.row)
    (k : Pg.uuid) :
  (exists p, In p l /\ Projects.id p = id) ->
  Pg.mem k (map Projects.id
              (filter (fun r => String.eqb (Projects.id r) id) l))
  = String.eqb k id.
Proof.
  intros (p & Hp & Hid).
  destruct (String.eqb k id) eqn:K.
  - apply String.eqb_eq in K. subst k. unfold Pg.mem. apply existsb_exists.
    exists id. split; [| apply String.eqb_refl].
    apply in_map_iff. exists p. split; [exact Hid |].
    apply filter_In. split; [exact Hp | apply String.eqb_eq; exact Hid].
  - destruct (Pg.mem _ _) eqn:M; [| reflexivity].
    unfold Pg.mem in M. apply existsb_exists in M.
    destruct M as (x & Hx & Hk). apply in_map_iff in Hx.
    destruct Hx as (q & <- & Hq). apply filter_In in Hq.
    destruct Hq as [_ Hq]. apply String.eqb_eq in Hq, Hk.
    apply String.eqb_neq in K. congruence.
Qed.

Lemma in_ids_Some (key : option Pg.uuid) (ids : list Pg.uuid) (id : Pg.uuid) :
  (forall k, Pg.mem k ids = String.eqb k id) ->
  Store.in_ids key ids = true <-> key = Some id.
Proof.
  intros H. destruct key as [k |]; simpl.
  - rewrite H, String.eqb_eq. split; congruence.
  - split; discriminate.
Qed.

(** When an admin confirms the deletion of a project, the project goes and
    takes with it its memberships, its tasks, and every time log booked on
    the project or on one of its tasks; everything else stays. *)
Theorem admin_deletes_project_and_dependents (uid id : Pg.uuid) (db : database)
    (st : ProjectsPage.state) :
  Policy.is_admin db uid = true ->
  (exists p, In p (projects db) /\ Projects.id p = id) ->
  let db' := store_of (and_then (ProjectsPage.handleDelete uid true id db st)) in
  (forall p, In p (projects db') <-> In p (projects db) /\ Projects.id p <> id)
  /\ (forall m, In m (project_members db')
                <-> In m (project_members db)
                    /\ ProjectMembers.project_id m <> id)
  /\ (forall t, In t (tasks db')
                <-> In t (tasks db) /\ Tasks.project_id t <> Some id)
  /\ (forall l, In l (time_logs db')
                <-> In l (time_logs db)
                    /\ TimeLogs.project_id l <> Some id
                    /\ ~ (exists t, In t (tasks db)
                                    /\ Tasks.project_id t = Some id
                                    /\ Tasks.id t = TimeLogs.task_id l))
  /\ profiles db' = profiles db.
Proof.
  intros Hadm Hex db'. subst db'.
  unfold ProjectsPage.handleDelete.
  cbn [and_then store_of ProjectsPage.fetchProjects].
  unfold Store.projects_delete.
  cbn [projects project_members tasks time_logs profiles].
  assert (D : forall r, Store.projects_deleted db uid
                          (fun r => String.eqb (Projects.id r) id) r
                        = String.eqb (Projects.id r) id).
  { intros r. unfold Store.projects_deleted, Policy.projects_delete_using,
      Policy.projects_select.
    rewrite Hadm. cbn [orb]. rewrite !andb_true_r. reflexivity. }
  rewrite (filter_ext _ _ D).
  pose proof (fun k => mem_map_filter_project id (projects db) k Hex) as G.
  split; [| split; [| split; [| split; [| reflexivity]]]].
  - intros p. rewrite filter_In, D, negb_true_iff, String.eqb_neq.
    reflexivity.
  - intros m. rewrite filter_In, G, negb_true_iff, String.eqb_neq.
    reflexivity.
  - intros t. rewrite filter_In, negb_true_iff.
    rewrite <- (in_ids_Some (Tasks.project_id t) _ id G).
    rewrite not_true_iff_false. reflexivity.
  - intros l. rewrite filter_In, andb_true_iff, !negb_true_iff.
    rewrite <- (in_ids_Some (TimeLogs.project_id l) _ id G).
    rewrite not_true_iff_false.
    assert (T : Pg.mem (TimeLogs.task_id l)
                  (map Tasks.id
                     (filter (fun t => Store.in_ids (Tasks.project_id t)
                                (map Projects.id
                                   (filter (fun r => String.eqb (Projects.id r) id)
                                      (projects db))))
                        (tasks db))) = false
                <-> ~ (exists t, In t (tasks db)
                                 /\ Tasks.project_id t = Some id
                                 /\ Tasks.id t = TimeLogs.task_id l)).
    { rewrite <- not_true_iff_false. unfold Pg.mem at 1.
      rewrite existsb_exists. split; intros N C; apply N.
      - destruct C as (t & Ht & Hp & Hi). exists (Tasks.id t).
        split; [| apply String.eqb_eq; symmetry; exact Hi].
        apply in_map. apply filter_In. split; [exact Ht |].
        apply (in_ids_Some _ _ id G). exact Hp.
      - destruct C as (x & Hx & Hk). apply in_map_iff in Hx.
        destruct Hx as (t & <- & Ht). apply filter_In in Ht.
        destruct Ht as [Ht Hp]. apply (in_ids_Some _ _ id G) in Hp.
        apply String.eqb_eq in Hk. exists t. auto. }
    rewrite T. reflexivity.
Qed.

Lemma admin_deletes_project_and_dependents_witness :
  let db' := store_of (and_then (ProjectsPage.handleDelete "root" true "p7"
                                   Sample.db_projects ProjectsPage.initial)) in
  (map Projects.id (projects db'), map ProjectMembers.id (project_members db'),
   map Tasks.id (tasks db'), map TimeLogs.id (time_logs db'))
  = (["p8"], [], ["t1"], ["m1"])
  /\ forall t, In t (tasks db')
               <-> In t (tasks Sample.db_projects)
                   /\ Tasks.project_id t <> Some "p7".
Proof.
  split; [reflexivity |].
  assert (E : exists p, In p (projects Sample.db_projects)
                        /\ Projects.id p = "p7")
    by (exists Sample.gemini; split; [left; reflexivity | reflexivity]).
  exact (proj1 (proj2 (proj2 (admin_deletes_project_and_dependents "root" "p7"
                                 Sample.db_projects ProjectsPage.initial
                                 eq_refl E)))).
Defined.

(** X22.  Nobody but an admin deletes a project: for any other caller, the
    manager of the project included, the request is answered without an
    error and the store is as before. *)
Theorem non_admin_deletes_no_project (uid id : Pg.uuid) (confirmed : bool)
    (db : database) (st : ProjectsPage.state) :
  Policy.is_admin db uid = false ->
  store_of (and_then (ProjectsPage.handleDelete uid confirmed id db st)) = db.
Proof.
  intros Hadm. unfold ProjectsPage.handleDelete.
  destruct confirmed; [| reflexivity].
  cbn [and_then store_of ProjectsPage.fetchProjects].
  unfold Store.projects_delete.
  assert (D : forall r, Store.projects_deleted db uid
                          (fun r => String.eqb (Projects.id r) id) r = false).
  { intros r. unfold Store.projects_deleted, Policy.projects_delete_using.
    rewrite Hadm. apply andb_false_r. }
  rewrite (filter_all _ (projects db)) by (intros; rewrite D; reflexivity).
  rewrite (filter_ext _ (fun _ => false) D).
  assert (N : filter (fun _ : Projects.row => false) (projects db) = []).
  { induction (projects db); [reflexivity | assumption]. }
  rewrite N. cbn [map].
  rewrite (filter_all _ (project_members db)) by reflexivity.
  assert (I : forall key, Store.in_ids key [] = false)
    by (intros [k |]; reflexivity).
  rewrite (filter_all _ (tasks db)) by (intros; rewrite I; reflexivity).
  assert (N' : filter (fun t => Store.in_ids (Tasks.project_id t) []) (tasks db)
               = []).
  { induction (tasks db) as [| t l IH]; [reflexivity |].
    simpl. rewrite I. exact IH. }
  rewrite N'. cbn [map].
  rewrite (filter_all _ (time_logs db)) by (intros; rewrite I; reflexivity).
  destruct db; reflexivity.
Qed.

Lemma non_admin_deletes_no_project_witness :
  Policy.is_admin Sample.db_projects "carol" = false
  /\ Projects.manager_id Sample.gemini = Some "carol"
  /\ store_of (and_then (ProjectsPage.handleDelete "carol" true "p7"
                           Sample.db_projects ProjectsPage.initial))
     = Sample.db_projects.
Proof.
  split; [reflexivity |]. split; [reflexivity |].
  exact (non_admin_deletes_no_project "carol" "p7" true Sample.db_projects
           ProjectsPage.initial eq_refl).
Defined.

Lemma projects_update_row_keeps_manager (db : database) (uid : Pg.uuid)
    (now : Pg.timestamptz) (v : ProjectsValues.t) (m : Pg.field Pg.uuid)
    (sd ed : Pg.field Pg.date) (OLD NEW : Projects.row) :
  Policy.is_admin db uid = false ->
  Policy.projects_update_using db uid OLD = true ->
  Store.projects_update_row db uid now v m sd ed OLD = Pg.Ok NEW ->
  Projects.id NEW = Projects.id OLD
  /\ Projects.manager_id NEW = Projects.manager_id OLD.
Proof.
  intros Hadm Hu H. unfold Store.projects_update_row in H. steps H.
  injection H as <-. cbn [Projects.id Projects.manager_id].
  split; [reflexivity |].
  match goal with
  | G : Policy.projects_update_check _ _ _ && _ = true |- _ =>
      apply andb_true_iff in G; destruct G as [G _];
      unfold Policy.projects_update_check in G; rewrite Hadm in G;
      cbn [orb Projects.manager_id] in G
  end.
  unfold Policy.projects_update_using in Hu. rewrite Hadm in Hu. cbn [orb] in Hu.
  destruct (Pg.on_update (Projects.manager_id OLD) m) as [x |];
    [| discriminate].
  destruct (Projects.manager_id OLD) as [y |]; [| discriminate].
  cbn [Pg.eq_opt] in *.
  match goal with
  | G : String.eqb x uid = true |- _ => apply String.eqb_eq in G; subst x
  end.
  apply String.eqb_eq in Hu. subst y. reflexivity.
Qed.

(** X23.  Whatever a caller who is not an admin submits in the project form,
    creating or editing, the store holds the same projects with the same
    managers afterwards: no project is added, none changes hands, and a
    manager can neither give a project away nor take one over. *)
Theorem non_admin_submit_keeps_managers (sx : Pg.syntax) (uid new_id : Pg.uuid)
    (server_now : Pg.timestamptz) (db : database) (st : ProjectsPage.state) :
  Policy.is_admin db uid = false ->
  map (fun p => (Projects.id p, Projects.manager_id p))
      (projects (store_of (ProjectsPage.handleSubmit sx uid server_now new_id
                             db st)))
  = map (fun p => (Projects.id p, Projects.manager_id p)) (projects db).
Proof.
  intros Hadm. unfold ProjectsPage.handleSubmit.
  destruct (ProjectsPage.editingProject st) as [p |]; cbn [fst snd].
  - destruct (Store.projects_update _ _ _ _ _ _) as [db' |] eqn:E;
      [| reflexivity].
    cbn [store_of ProjectsPage.fetchProjects].
    unfold Store.projects_update in E. steps E. injection E as <-.
    cbn [projects with_projects].
    match goal with
    | F : Pg.for_each_row _ _ = Pg.Ok _ |- _ =>
        apply (for_each_row_map _ (fun p => (Projects.id p, Projects.manager_id p))
                 _ _) in F; [exact F |]
    end.
    intros old new _ Ha.
    destruct (_ && _) eqn:C in Ha; [| injection Ha as <-; reflexivity].
    apply andb_true_iff in C. destruct C as [_ Cu].
    destruct (projects_update_row_keeps_manager _ _ _ _ _ _ _ _ _ Hadm Cu Ha)
      as [-> ->].
    reflexivity.
  - destruct (Store.projects_insert _ _ _ _ _ _) as [db' |] eqn:E;
      [| reflexivity].
    exfalso. unfold Store.projects_insert in E. steps E.
    match goal with
    | G : Policy.projects_insert_check _ _ _ = true |- _ =>
        unfold Policy.projects_insert_check in G; congruence
    end.
Qed.

Lemma non_admin_submit_keeps_managers_witness :
  let db' := store_of (ProjectsPage.handleSubmit Sample.sx "carol" 9 "unused"
                         Sample.db_projects Sample.projects_page_carol) in
  Policy.is_admin Sample.db_projects "carol" = false
  /\ map Projects.name (projects db') = ["Gemini II"; "Hermes"]
  /\ map (fun p => (Projects.id p, Projects.manager_id p)) (projects db')
     = [("p7", Some "carol"); ("p8", Some "root")].
Proof.
  split; [reflexivity |]. split; [reflexivity |].
  exact (non_admin_submit_keeps_managers Sample.sx "carol" "unused" 9
           Sample.db_projects Sample.projects_page_carol eq_refl).
Defined.

(** A caller whose role is project manager is shown every project of the
    store on the projects page, also those that others manage and that the
    caller is no member of, each once. *)
Theorem project_manager_sees_every_project (uid : Pg.uuid) (db : database)
    (st : ProjectsPage.state) (me : Profiles.row) :
  In me (profiles db) ->
  Profiles.id me = uid ->
  Profiles.role me = "project_manager" ->
  let shown := ProjectsPage.projects
                 (state_of (ProjectsPage.fetchProjects uid db st)) in
  (forall p, In p shown <-> In p (projects db))
  /\ List.length shown = List.length (projects db).
Proof.
  intros Hme Hid Hrole shown. subst shown.
  cbn [state_of ProjectsPage.fetchProjects ProjectsPage.projects].
  unfold Store.projects_select_ordered.
  assert (V : filter (Policy.projects_select db uid) (projects db) = projects db).
  { apply filter_all. intros p _. unfold Policy.projects_select.
    assert (X : existsb (fun q => String.eqb (Profiles.id q) uid
                                  && Pg.mem (Profiles.role q)
                                       ["admin"; "project_manager"])
                        (profiles db) = true).
    { apply existsb_exists. exists me. split; [exact Hme |].
      rewrite Hid, Hrole, String.eqb_refl. reflexivity. }
    rewrite X, !orb_true_r. reflexivity. }
  rewrite V. split.
  - intros p. apply order_by_In.
  - apply order_by_length.
Qed.

Lemma project_manager_sees_every_project_witness :
  map Projects.id
    (ProjectsPage.projects
       (state_of (ProjectsPage.fetchProjects "carol" Sample.db_projects
                    ProjectsPage.initial)))
  = ["p8"; "p7"]
  /\ List.length
       (ProjectsPage.projects
          (state_of (ProjectsPage.fetchProjects "carol" Sample.db_projects
                       ProjectsPage.initial)))
     = List.length (projects Sample.db_projects).
Proof.
  split; [reflexivity |].
  exact (proj2 (project_manager_sees_every_project "carol" Sample.db_projects
                  ProjectsPage.initial Sample.carol
                  (or_intror (or_intror (or_introl eq_refl)))
                  eq_refl eq_refl)).
Defined.

(** X25.  Where the store's input functions reject the empty string, the project
    form is refused as long as the manager, the start date or the end date
    is left blank, when creating and when editing alike: the request is
    sent, nothing is stored and the modal keeps its contents. *)
Theorem blank_project_field_is_refused (sx : Pg.syntax) (uid new_id : Pg.uuid)
    (server_now : Pg.timestamptz) (db : database) (st : ProjectsPage.state) :
  Pg.uuid_in sx "" = None ->
  Pg.date_in sx "" = None ->
  ProjectsPage.manager_id (ProjectsPage.formData st) = Pg.Text ""
  \/ ProjectsPage.start_date (ProjectsPage.formData st) = Pg.Text ""
  \/ ProjectsPage.end_date (ProjectsPage.formData st) = Pg.Text "" ->
  let o := ProjectsPage.handleSubmit sx uid server_now new_id db st in
  store_of o = db /\ state_of o = st.
Proof.
  intros Hu Hd Hblank o. subst o. unfold ProjectsPage.handleSubmit.
  assert (R : forall k : Pg.field Pg.uuid -> Pg.field Pg.date ->
                         Pg.field Pg.date -> Pg.result database,
            exists e,
              (m <- Pg.read_field (Pg.uuid_in sx)
                      (ProjectsValues.manager_id
                         (ProjectsPage.body (ProjectsPage.formData st))) ;;
               sd <- Pg.read_field (Pg.date_in sx)
                       (ProjectsValues.start_date
                          (ProjectsPage.body (ProjectsPage.formData st))) ;;
               ed <- Pg.read_field (Pg.date_in sx)
                       (ProjectsValues.end_date
                          (ProjectsPage.body (ProjectsPage.formData st))) ;;
               k m sd ed) = Pg.Err e).
  { intros k. cbn [ProjectsPage.body ProjectsValues.manager_id
                   ProjectsValues.start_date ProjectsValues.end_date
                   Pg.read_field].
    destruct Hblank as [-> | [-> | ->]].
    - cbn [Pg.read Pg.bind]. rewrite Hu. eexists; reflexivity.
    - destruct (Pg.read (Pg.uuid_in sx) _); cbn [Pg.bind];
        [| eexists; reflexivity].
      cbn [Pg.read Pg.bind]. rewrite Hd. eexists; reflexivity.
    - destruct (Pg.read (Pg.uuid_in sx) _); cbn [Pg.bind];
        [| eexists; reflexivity].
      destruct (Pg.read (Pg.date_in sx) _); cbn [Pg.bind];
        [| eexists; reflexivity].
      cbn [Pg.read Pg.bind]. rewrite Hd. eexists; reflexivity. }
  destruct (ProjectsPage.editingProject st) as [p |]; cbn [fst snd].
  - unfold Store.projects_update.
    destruct (R (fun m sd ed =>
                   rows <- Pg.for_each_row
                             (fun OLD =>
                                if String.eqb (Projects.id OLD) (Projects.id p)
                                   && Policy.projects_select db uid OLD
                                   && Policy.projects_update_using db uid OLD
                                then Store.projects_update_row db uid server_now
                                       (ProjectsPage.body (ProjectsPage.formData st))
                                       m sd ed OLD
                                else Pg.Ok OLD)
                             (projects db) ;;
                   Pg.Ok (with_projects rows db))) as [e ->].
    split; reflexivity.
  - unfold Store.projects_insert.
    match goal with
    | |- context [match ?X with Pg.Ok _ => _ | Pg.Err _ => _ end] =>
        assert (Z : exists e, X = Pg.Err e)
    end.
    { apply (R (fun m sd ed => _)). }
    destruct Z as [e ->]. split; reflexivity.
Qed.

Lemma blank_project_field_is_refused_witness :
  store_of (ProjectsPage.handleSubmit Sample.sx "root" 9 "p1" Sample.db0
              Sample.new_project_page)
  = Sample.db0
  /\ state_of (ProjectsPage.handleSubmit Sample.sx "root" 9 "p1" Sample.db0
                 Sample.new_project_page)
     = Sample.new_project_page.
Proof.
  exact (blank_project_field_is_refused Sample.sx "root" "p1" 9 Sample.db0
           Sample.new_project_page eq_refl eq_refl (or_introl eq_refl)).
Defined.

(** A project stored without a manager, a start date or an end date cannot
    be saved from the edit form as it opens: the form shows the missing
    value as a blank input, and the store refuses the blank. *)
Theorem project_with_null_field_cannot_be_saved (sx : Pg.syntax)
    (uid new_id : Pg.uuid) (server_now : Pg.timestamptz) (db : database)
    (st : ProjectsPage.state) (p : Projects.row) :
  Pg.uuid_in sx "" = None ->
  Pg.date_in sx "" = None ->
  Projects.manager_id p = None \/ Projects.start_date p = None
  \/ Projects.end_date p = None ->
  ProjectsPage.handleSubmit sx uid server_now new_id db
    (ProjectsPage.openEditModal p st)
  = {| state_of := ProjectsPage.openEditModal p st; store_of := db;
       requests_of := [update_of "projects"] |}.
Proof.
  intros Hu Hd Hnull. unfold ProjectsPage.handleSubmit.
  cbn [ProjectsPage.openEditModal ProjectsPage.editingProject
       ProjectsPage.formData fst snd].
  unfold Store.projects_update.
  cbn [ProjectsPage.body ProjectsValues.manager_id ProjectsValues.start_date
       ProjectsValues.end_date ProjectsPage.manager_id ProjectsPage.start_date
       ProjectsPage.end_date Pg.read_field].
  destruct Hnull as [-> | [-> | ->]].
  - cbn [ProjectsPage.or_blank Pg.read Pg.bind]. rewrite Hu. reflexivity.
  - destruct (Pg.read (Pg.uuid_in sx) _); cbn [Pg.bind]; [| reflexivity].
    cbn [ProjectsPage.or_blank Pg.read Pg.bind]. rewrite Hd. reflexivity.
  - destruct (Pg.read (Pg.uuid_in sx) _); cbn [Pg.bind]; [| reflexivity].
    destruct (Pg.read (Pg.date_in sx) _); cbn [Pg.bind]; [| reflexivity].
    cbn [ProjectsPage.or_blank Pg.read Pg.bind]. rewrite Hd. reflexivity.
Qed.

Lemma project_with_null_field_cannot_be_saved_witness :
  Projects.start_date Sample.hermes = None
  /\ store_of (ProjectsPage.handleSubmit Sample.sx "root" 9 "unused"
                 Sample.db_projects
                 (ProjectsPage.openEditModal Sample.hermes ProjectsPage.initial))
     = Sample.db_projects.
Proof.
  split; [reflexivity |].
  rewrite (project_with_null_field_cannot_be_saved Sample.sx "root" "unused" 9
             Sample.db_projects ProjectsPage.initial Sample.hermes
             eq_refl eq_refl (or_intror (or_introl eq_refl))).
  reflexivity.
Defined.

(** ** Navigation, dashboard and calendar *)

(** X26.  The navigation by role, for every profile: the Users entry is shown
    exactly to the role admin, the Reports entry exactly to admin and
    project manager, and the five common entries exactly to the three
    known roles; a missing profile or a blank role counts as employee. *)
Theorem navigation_by_role (profile : option Profiles.row) :
  let role := Layout.role_of profile in
  let shown := map Layout.to (Layout.filteredNavItems profile) in
  (In "/users" shown <-> role = "admin")
  /\ (In "/reports" shown <-> role = "admin" \/ role = "project_manager")
  /\ (In "/tasks" shown
      <-> role = "admin" \/ role = "project_manager" \/ role = "employee")
  /\ role <> "".
Proof.
  intros role shown. subst shown. unfold Layout.filteredNavItems.
  fold role. unfold Layout.navItems, Pg.mem.
  cbn [filter Layout.roles existsb].
  assert (B : role <> "").
  { subst role. destruct profile as [p |]; [| discriminate].
    unfold Layout.role_of, Js.or_else.
    destruct (String.eqb (Profiles.role p) "") eqn:E; [discriminate |].
    apply String.eqb_neq. exact E. }
  destruct (String.eqb_spec role "admin") as [A | A];
    destruct (String.eqb_spec role "project_manager") as [M | M];
    destruct (String.eqb_spec role "employee") as [E | E];
    cbn [orb map Layout.to In];
    try (exfalso; congruence);
    repeat split; try exact B; try (intros; tauto);
      intros H; repeat destruct H as [H | H];
      try discriminate H; try contradiction; tauto.
Qed.

Lemma filter_disjoint_length {A : Type} (f g : A -> bool) (l : list A) :
  (forall a, In a l -> f a && g a = false) ->
  (List.length (filter f l) + List.length (filter g l) <= List.length l)%nat.
Proof.
  induction l as [| a l IH]; simpl; intros H; [lia |].
  assert (Ha := H a (or_introl eq_refl)).
  assert (IH' := IH (fun b Hb => H b (or_intror Hb))).
  destruct (f a), (g a); simpl in *; try discriminate; lia.
Qed.

(** X27.  The counts of the dashboard are consistent: the tasks in progress and
    the completed ones are distinct tasks among those counted, and so are
    the overdue and the completed ones; no task is counted as overdue that
    is completed. *)
Theorem dashboard_counts_are_bounded (uid : Pg.uuid) (p : Profiles.row)
    (isAdmin : bool) (now : Z) (db : database) (st : Dashboard.state) :
  let s := Dashboard.stats
             (state_of (Dashboard.fetchDashboardData uid (Some p) isAdmin now
                          db st)) in
  (Dashboard.inProgressTasks s + Dashboard.completedTasks s
   <= Dashboard.totalTasks s)%nat
  /\ (Dashboard.overdueTasks s + Dashboard.completedTasks s
      <= Dashboard.totalTasks s)%nat.
Proof.
  cbn [Dashboard.fetchDashboardData state_of Dashboard.stats
       Dashboard.inProgressTasks Dashboard.completedTasks
       Dashboard.totalTasks Dashboard.overdueTasks].
  unfold Dashboard.with_status, Dashboard.overdue.
  split; apply filter_disjoint_length; intros t _.
  - destruct (String.eqb (Tasks.status t) "in_progress") eqn:E;
      [| reflexivity].
    apply String.eqb_eq in E. rewrite E. reflexivity.
  - destruct (Tasks.end_date t) as [d |]; [| reflexivity].
    destruct (String.eqb (Tasks.status t) "completed"); cbn [negb];
      [rewrite andb_false_r |]; [reflexivity | apply andb_false_r].
Qed.

(** X28.  West of UTC the calendar shows a task a day early.  The end date is
    read as the instant its day starts in UTC and compared by local day:
    where local time at that instant is behind UTC (by a day at most) the
    task is in the cells of the day before its end date, and in no other. *)
Theorem calendar_cell_is_a_day_early_west_of_utc (tz : Z -> Z)
    (st : Calendar.state) (date : Z) (t : Tasks.row) (d : Pg.date) :
  Tasks.end_date t = Some d ->
  - Js.ms_per_day <= tz (Js.Date_of_date d) < 0 ->
  In t (Calendar.getTasksForDate tz st date) ->
  Calendar.local_day tz date = d - 1.
Proof.
  intros Hd Htz Hin. apply getTasksForDate_In in Hin.
  destruct Hin as (_ & d' & Hd' & Hday).
  rewrite Hd in Hd'. injection Hd' as <-. rewrite <- Hday.
  unfold Calendar.local_day, Js.Date_of_date, Js.ms_per_day in *.
  symmetry. apply Z.div_unique with (r := 86400000 + tz (d * 86400000)); lia.
Qed.

Lemma calendar_cell_is_a_day_early_west_of_utc_witness :
  In (Sample.task "late" "alice" "in_progress" (Some Sample.d_2025_01_01))
     (Calendar.getTasksForDate Sample.tz_minus_5 Sample.calendar
        Sample.dec_31_local)
  /\ Calendar.local_day Sample.tz_minus_5 Sample.dec_31_local
     = Sample.d_2025_01_01 - 1.
Proof.
  assert (I : In (Sample.task "late" "alice" "in_progress"
                    (Some Sample.d_2025_01_01))
                 (Calendar.getTasksForDate Sample.tz_minus_5 Sample.calendar
                    Sample.dec_31_local))
    by (left; reflexivity).
  split; [exact I |].
  apply (calendar_cell_is_a_day_early_west_of_utc Sample.tz_minus_5
           Sample.calendar Sample.dec_31_local
           (Sample.task "late" "alice" "in_progress" (Some Sample.d_2025_01_01))
           Sample.d_2025_01_01 eq_refl);
    [vm_compute; split; [discriminate | reflexivity] | exact I].
Defined.

(** ** The reports page: task statistics and project progress *)

Lemma bump_sum (k : string) (acc : list (string * nat)) :
  list_sum (map snd (Reports.bump k acc)) = S (list_sum (map snd acc)).
Proof.
  induction acc as [| [k' n] acc IH]; simpl; [reflexivity |].
  destruct (String.eqb k k'); simpl; [reflexivity |].
  rewrite IH. lia.
Qed.

Lemma statusCounts_sum (ts : list Tasks.row) (acc : list (string * nat)) :
  list_sum (map snd (fold_left (fun acc task =>
                                  Reports.bump (Tasks.status task) acc) ts acc))
  = (List.length ts + list_sum (map snd acc))%nat.
Proof.
  revert acc; induction ts as [| t ts IH]; intros acc; simpl; [reflexivity |].
  rewrite IH, bump_sum. lia.
Qed.

Lemma totalTasks_sum (stats : list Reports.TaskStats) (n : nat) :
  fold_left (fun sum stat => (sum + Reports.count stat)%nat) stats n
  = (n + list_sum (map Reports.count stats))%nat.
Proof.
  revert n; induction stats as [| s stats IH]; intros n; simpl; [lia |].
  rewrite IH. lia.
Qed.

Lemma bump_keys (k : string) (acc : list (string * nat)) :
  map fst (Reports.bump k acc)
  = if Pg.mem k (map fst acc) then map fst acc else map fst acc ++ [k].
Proof.
  unfold Pg.mem. induction acc as [| [k' n] acc IH]; simpl; [reflexivity |].
  destruct (String.eqb k k'); simpl; [reflexivity |].
  rewrite IH. destruct (existsb (String.eqb k) (map fst acc)); reflexivity.
Qed.

Lemma mem_In (k : string) (l : list string) :
  Pg.mem k l = true <-> In k l.
Proof.
  unfold Pg.mem. rewrite existsb_exists. split.
  - intros (x & Hx & E). apply String.eqb_eq in E. subst x. exact Hx.
  - intros H. exists k. split; [exact H | apply String.eqb_refl].
Qed.

Lemma bump_In (k s : string) (n : nat) (acc : list (string * nat)) :
  NoDup (map fst acc) ->
  In (s, n) (Reports.bump k acc) ->
  (s <> k /\ In (s, n) acc)
  \/ (s = k /\ exists m, n = S m
                         /\ (In (k, m) acc
                             \/ (m = 0%nat /\ ~ In k (map fst acc)))).
Proof.
  induction acc as [| [k' n'] acc IH]; simpl; intros ND.
  - intros [H | []]. injection H as <- <-. right. split; [reflexivity |].
    exists 0%nat. split; [reflexivity |]. right. split; [reflexivity | tauto].
  - inversion ND as [| x l Hnotin ND' ]; subst.
    destruct (String.eqb_spec k k') as [<- | Hne]; simpl.
    + intros [H | H].
      * injection H as <- <-. right. split; [reflexivity |].
        exists n'. split; [reflexivity |]. left. left. reflexivity.
      * left. split; [| right; exact H].
        intros ->. apply Hnotin.
        apply (in_map fst) in H. exact H.
    + intros [H | H].
      * injection H as <- <-. left. split; [| left; reflexivity].
        intros E. apply Hne. symmetry. exact E.
      * destruct (IH ND' H) as [[Hs Hin] | (-> & m & -> & Hm)].
        -- left. split; [exact Hs | right; exact Hin].
        -- right. split; [reflexivity |]. exists m. split; [reflexivity |].
           destruct Hm as [Hm | [-> Hm]]; [left; right; exact Hm |].
           right. split; [reflexivity |].
           intros [E | E]; [apply Hne; symmetry; exact E | exact (Hm E)].
Qed.

Lemma bump_NoDup (k : string) (acc : list (string * nat)) :
  NoDup (map fst acc) -> NoDup (map fst (Reports.bump k acc)).
Proof.
  intros ND. rewrite bump_keys.
  destruct (Pg.mem k (map fst acc)) eqn:M; [exact ND |].
  apply NoDup_app; [exact ND | repeat constructor; intros [] | ].
  intros x Hx [<- | []].
  apply mem_In in Hx. congruence.
Qed.

Lemma bump_In_back (k s : string) (n : nat) (acc : list (string * nat)) :
  s <> k -> In (s, n) acc -> In (s, n) (Reports.bump k acc).
Proof.
  intros Hs. induction acc as [| [k' n'] acc IH]; simpl; [tauto |].
  intros [H | H].
  - injection H as -> ->.
    destruct (String.eqb_spec k s) as [E | _]; [congruence | left; reflexivity].
  - destruct (String.eqb k k'); right; [exact H | exact (IH H)].
Qed.

Lemma count_status_app (s : string) (seen : list Tasks.row) (t : Tasks.row) :
  List.length (filter (fun t => String.eqb (Tasks.status t) s) (seen ++ [t]))
  = (List.length (filter (fun t => String.eqb (Tasks.status t) s) seen)
     + if String.eqb (Tasks.status t) s then 1 else 0)%nat.
Proof.
  rewrite filter_app, length_app. simpl.
  destruct (String.eqb (Tasks.status t) s); reflexivity.
Qed.

(** What [statusCounts] holds after the tasks [seen]: every status once,
    with the number of tasks seen with it, and every status seen. *)
Lemma statusCounts_invariant (ts seen : list Tasks.row)
    (acc : list (string * nat)) :
  NoDup (map fst acc) ->
  (forall s n, In (s, n) acc ->
     n = List.length (filter (fun t => String.eqb (Tasks.status t) s) seen)
     /\ (0 < n)%nat) ->
  (forall t, In t seen -> In (Tasks.status t) (map fst acc)) ->
  let acc' := fold_left (fun acc task => Reports.bump (Tasks.status task) acc)
                ts acc in
  NoDup (map fst acc')
  /\ (forall s n, In (s, n) acc' ->
       n = List.length (filter (fun t => String.eqb (Tasks.status t) s)
                          (seen ++ ts))
       /\ (0 < n)%nat)
  /\ (forall t, In t (seen ++ ts) -> In (Tasks.status t) (map fst acc')).
Proof.
  revert seen acc; induction ts as [| t ts IH]; intros seen acc ND Hval Hkey.
  - simpl. rewrite app_nil_r. auto.
  - simpl.
    replace (seen ++ t :: ts) with ((seen ++ [t]) ++ ts)
      by (rewrite <- app_assoc; reflexivity).
    apply IH.
    + apply bump_NoDup. exact ND.
    + intros s n Hin. rewrite count_status_app.
      destruct (bump_In _ _ _ _ ND Hin) as [[Hs Hacc] | (-> & m & -> & Hm)].
      * destruct (Hval s n Hacc) as [-> Hpos].
        destruct (String.eqb_spec (Tasks.status t) s) as [E | _];
          [congruence | split; lia].
      * rewrite String.eqb_refl. split; [| lia].
        destruct Hm as [Hm | [-> Hm]].
        -- destruct (Hval _ _ Hm) as [-> _]. lia.
        -- assert (Z : List.length
                         (filter (fun t0 => String.eqb (Tasks.status t0)
                                              (Tasks.status t)) seen) = 0%nat).
           { destruct (filter _ seen) as [| x l] eqn:F; [reflexivity |].
             exfalso. apply Hm.
             assert (Hx : In x (filter (fun t0 => String.eqb (Tasks.status t0)
                                                    (Tasks.status t)) seen))
               by (rewrite F; left; reflexivity).
             apply filter_In in Hx. destruct Hx as [Hx E].
             apply String.eqb_eq in E. rewrite <- E. apply Hkey. exact Hx. }
           rewrite Z. reflexivity.
    + intros x Hx. rewrite bump_keys.
      apply in_app_or in Hx. destruct Hx as [Hx | [<- | []]].
      * specialize (Hkey x Hx).
        destruct (Pg.mem _ _); [exact Hkey | apply in_or_app; left; exact Hkey].
      * destruct (Pg.mem _ _) eqn:M; [apply mem_In; exact M |].
        apply in_or_app. right. left. reflexivity.
Qed.

Lemma totalTasks_taskStats (db : database) (uid : Pg.uuid) :
  Reports.totalTasks (Reports.taskStats db uid)
  = List.length (Store.tasks_select db uid (fun _ => true)).
Proof.
  unfold Reports.totalTasks, Reports.taskStats.
  rewrite totalTasks_sum. unfold Reports.statsData. rewrite map_map.
  cbn [Reports.count]. unfold Reports.statusCounts.
  rewrite (map_ext _ snd) by reflexivity.
  rewrite statusCounts_sum. simpl. lia.
Qed.

(** X29.  The task statistics of the reports page count every visible task
    exactly once: each status that occurs is listed once, with the number
    of visible tasks that have it, and the "Total Tasks" card, the sum of
    the listed counts, is the number of visible tasks. *)
Theorem task_statistics_count_every_task_once (db : database) (uid : Pg.uuid) :
  let visible := Store.tasks_select db uid (fun _ => true) in
  let counts := Reports.statusCounts visible in
  Reports.totalTasks (Reports.taskStats db uid) = List.length visible
  /\ NoDup (map fst counts)
  /\ (forall s n, In (s, n) counts ->
       n = List.length (filter (fun t => String.eqb (Tasks.status t) s) visible)
       /\ (0 < n)%nat)
  /\ (forall t, In t visible -> In (Tasks.status t) (map fst counts)).
Proof.
  intros visible counts. split; [apply totalTasks_taskStats |].
  subst counts. unfold Reports.statusCounts.
  apply (statusCounts_invariant visible [] []).
  - constructor.
  - intros s n [].
  - intros t [].
Qed.

Lemma at_most_one_project (b : bool) (k : option Pg.uuid)
    (ps : list Projects.row) :
  NoDup (map Projects.id ps) ->
  (list_sum (map (fun p => if b && Pg.eq_opt k (Projects.id p)
                           then 1%nat else 0%nat) ps)
   <= if b then 1 else 0)%nat.
Proof.
  destruct b; cbn [andb].
  - induction ps as [| p ps IH]; simpl; intros ND; [lia |].
    inversion ND as [| x l Hnotin ND']; subst.
    destruct (Pg.eq_opt k (Projects.id p)) eqn:E; [| apply IH; exact ND'].
    assert (Z : list_sum (map (fun p0 => if Pg.eq_opt k (Projects.id p0)
                                         then 1%nat else 0%nat) ps) = 0%nat).
    { clear IH ND ND'. induction ps as [| q ps IH]; [reflexivity |].
      simpl. destruct (Pg.eq_opt k (Projects.id q)) eqn:Eq.
      - exfalso. apply Hnotin. left.
        destruct k as [x |]; [| discriminate].
        apply String.eqb_eq in E, Eq. congruence.
      - apply IH. intros H. apply Hnotin. right. exact H. }
    rewrite Z. lia.
  - intros _. induction ps as [| p ps IH]; simpl; [lia | exact IH].
Qed.

Lemma list_sum_map_add {A : Type} (f g : A -> nat) (l : list A) :
  list_sum (map (fun a => (f a + g a)%nat) l)
  = (list_sum (map f l) + list_sum (map g l))%nat.
Proof.
  induction l as [| a l IH]; simpl; [reflexivity | rewrite IH; lia].
Qed.

Lemma projects_share_tasks (pol : Tasks.row -> bool) (ps : list Projects.row)
    (ts : list Tasks.row) :
  NoDup (map Projects.id ps) ->
  (list_sum
     (map (fun p =>
             List.length
               (filter (fun t => pol t && Pg.eq_opt (Tasks.project_id t)
                                            (Projects.id p)) ts))
          ps)
   <= List.length (filter (fun t => pol t && true) ts))%nat.
Proof.
  intros ND. induction ts as [| t ts IH].
  - simpl. induction ps as [| p ps IHp]; simpl; [lia |].
    apply IHp. inversion ND; assumption.
  - rewrite (map_ext _
               (fun p => ((if pol t && Pg.eq_opt (Tasks.project_id t)
                                         (Projects.id p)
                           then 1 else 0)
                          + List.length
                              (filter (fun t => pol t
                                                && Pg.eq_opt (Tasks.project_id t)
                                                     (Projects.id p)) ts))%nat)).
    + rewrite list_sum_map_add.
      pose proof (at_most_one_project (pol t) (Tasks.project_id t) ps ND) as O.
      simpl. destruct (pol t); simpl in *; lia.
    + intros p. simpl.
      destruct (pol t && Pg.eq_opt (Tasks.project_id t) (Projects.id p));
        reflexivity.
Qed.

Lemma NoDup_map_filter {A B : Type} (f : A -> B) (P : A -> bool) (l : list A) :
  NoDup (map f l) -> NoDup (map f (filter P l)).
Proof.
  induction l as [| a l IH]; simpl; intros ND; [constructor |].
  inversion ND as [| x l' Hnotin ND']; subst.
  destruct (P a); simpl; [| apply IH; exact ND'].
  constructor; [| apply IH; exact ND'].
  intros H. apply Hnotin. apply in_map_iff in H.
  destruct H as (x & E & Hx). apply filter_In in Hx.
  rewrite <- E. apply in_map. tauto.
Qed.

(** X30.  The progress chart of the reports page never shows more than there
    is: for each project the completed tasks are among its tasks, there is
    one bar per visible project, and, project ids being unique, the bars
    together hold no more tasks than the "Total Tasks" card. *)
Theorem project_progress_is_within_totals (db : database) (uid : Pg.uuid) :
  NoDup (map Projects.id (projects db)) ->
  let bars := Reports.progressData db uid in
  (forall e, In e bars -> (Reports.completed e <= Reports.total e)%nat)
  /\ List.length bars
     = List.length (Store.projects_select db uid (fun _ => true))
  /\ (list_sum (map Reports.total bars)
      <= Reports.totalTasks (Reports.taskStats db uid))%nat.
Proof.
  intros ND bars. subst bars. unfold Reports.progressData.
  split; [| split].
  - intros e He. apply in_map_iff in He. destruct He as (p & <- & _).
    cbn [Reports.completed Reports.total]. apply filter_length_le.
  - apply length_map.
  - rewrite map_map. cbn [Reports.total].
    rewrite totalTasks_taskStats.
    unfold Store.tasks_select.
    apply projects_share_tasks.
    unfold Store.projects_select. apply NoDup_map_filter. exact ND.
Qed.

Lemma project_progress_is_within_totals_witness :
  map (fun e => (Reports.name e, Reports.completed e, Reports.total e))
      (Reports.progressData Sample.db_projects "root")
  = [("Gemini", 0%nat, 1%nat); ("Hermes", 0%nat, 0%nat)]
  /\ Reports.taskStats Sample.db_projects "root"
     = [ {| Reports.status := "IN PROGRESS"; Reports.count := 2 |} ]
  /\ (list_sum (map Reports.total
                  (Reports.progressData Sample.db_projects "root"))
      <= Reports.totalTasks (Reports.taskStats Sample.db_projects "root"))%nat.
Proof.
  split; [reflexivity |]. split; [reflexivity |].
  assert (ND : NoDup (map Projects.id (projects Sample.db_projects))).
  { repeat constructor; simpl; intros H;
      repeat destruct H as [H | H]; try discriminate H; exact H. }
  exact (proj2 (proj2 (project_progress_is_within_totals Sample.db_projects
                         "root" ND))).
Defined.

(* ===================================================================== *)
(** * Part IV: the store as deployed                                      *)
(* ===================================================================== *)

(** ** The expansion of the policies *)

Lemma relation_eqb_eq (a b : Rls.relation) :
  Rls.relation_eqb a b = true <-> a = b.
Proof.
  destruct a, b; simpl; split; intros H; try reflexivity; discriminate H.
Qed.

Lemma active_In (r : Rls.relation) (active : list Rls.relation) :
  existsb (Rls.relation_eqb r) active = true <-> In r active.
Proof.
  rewrite existsb_exists. split.
  - intros (x & Hx & E). apply relation_eqb_eq in E. subst x. exact Hx.
  - intros H. exists r. split; [exact H | apply relation_eqb_eq; reflexivity].
Qed.

Lemma first_refusal_expanded (vs : list Rls.verdict) :
  Rls.first_refusal vs = Rls.expanded
  <-> forall v, In v vs -> v = Rls.expanded.
Proof.
  induction vs as [| v vs IH]; simpl.
  - split; [intros _ v [] | reflexivity].
  - destruct v; try rewrite IH; split; intros H;
      try discriminate H; try (intros v [<- | Hv]; auto);
      try (apply H; right; assumption);
      try (specialize (H _ (or_introl eq_refl)); discriminate H).
    intros v Hv. apply H. right. exact Hv.
Qed.

Lemma first_refusal_has_fuel (vs : list Rls.verdict) :
  (forall v, In v vs -> v <> Rls.out_of_fuel) ->
  Rls.first_refusal vs <> Rls.out_of_fuel.
Proof.
  induction vs as [| v vs IH]; simpl; intros H; [discriminate |].
  destruct v.
  - apply IH. intros v Hv. apply H. right. exact Hv.
  - discriminate.
  - exfalso. apply (H Rls.out_of_fuel); [left |]; reflexivity.
Qed.

(** Five tables whose policies are being expanded are all the tables. *)
Lemma all_active (active : list Rls.relation) (r : Rls.relation) :
  NoDup active -> List.length active = 5%nat -> In r active.
Proof.
  intros ND L.
  destruct (existsb (Rls.relation_eqb r) active) eqn:E;
    [apply active_In; exact E |].
  exfalso.
  assert (N : ~ In r active)
    by (intros H; apply active_In in H; congruence).
  assert (I : incl (r :: active)
                [Rls.profiles; Rls.projects; Rls.project_members; Rls.tasks;
                 Rls.time_logs])
    by (intros x _; destruct x; simpl; tauto).
  pose proof (NoDup_incl_length (NoDup_cons r N ND) I) as Len.
  simpl in Len. lia.
Qed.

(** The expansion never stops for want of fuel. *)
Lemma walk_has_fuel (fuel : nat) (ps : list Rls.policy) :
  forall (active : list Rls.relation) (r : Rls.relation)
         (cs : list Rls.command),
    NoDup active -> (List.length active + fuel = 5)%nat ->
    Rls.walk fuel ps active r cs <> Rls.out_of_fuel.
Proof.
  induction fuel as [| n IH]; intros active r cs ND L.
  - simpl. destruct (Rls.sub_selects ps r cs); [discriminate |].
    destruct (existsb (Rls.relation_eqb r) active) eqn:E; [discriminate |].
    exfalso. assert (H : In r active) by (apply all_active; [exact ND | lia]).
    apply active_In in H. congruence.
  - cbn [Rls.walk].
    destruct (Rls.sub_selects ps r cs) as [| r1 rs]; [discriminate |].
    destruct (existsb (Rls.relation_eqb r) active) eqn:E; [discriminate |].
    apply first_refusal_has_fuel. intros v Hv.
    apply in_map_iff in Hv. destruct Hv as (r' & <- & _).
    apply IH.
    + constructor; [| exact ND].
      intros H. apply active_In in H. congruence.
    + simpl. lia.
Qed.

Lemma expand_has_fuel (ps : list Rls.policy) (r : Rls.relation)
    (cs : list Rls.command) :
  Rls.expand ps r cs <> Rls.out_of_fuel.
Proof.
  apply walk_has_fuel; [constructor | reflexivity].
Qed.

Lemma sub_selects_incl (ps : list Rls.policy) (r : Rls.relation)
    (cs cs' : list Rls.command) :
  incl cs' cs -> incl (Rls.sub_selects ps r cs') (Rls.sub_selects ps r cs).
Proof.
  intros I x Hx. unfold Rls.sub_selects, Rls.applicable in *.
  apply in_flat_map in Hx. destruct Hx as (p & Hp & Hx).
  apply in_flat_map. exists p. split; [| exact Hx].
  apply filter_In in Hp. destruct Hp as [Hp C]. apply filter_In.
  split; [exact Hp |]. apply andb_true_iff in C. destruct C as [C1 C2].
  rewrite C1. simpl. apply existsb_exists in C2. destruct C2 as (c & Hc & E).
  apply existsb_exists. exists c. split; [apply I; exact Hc | exact E].
Qed.

(** A statement with fewer commands has fewer policies to expand. *)
Lemma walk_weaken (fuel : nat) (ps : list Rls.policy)
    (active : list Rls.relation) (r : Rls.relation)
    (cs cs' : list Rls.command) :
  incl cs' cs ->
  Rls.walk fuel ps active r cs = Rls.expanded ->
  Rls.walk fuel ps active r cs' = Rls.expanded.
Proof.
  intros I H. pose proof (sub_selects_incl ps r cs cs' I) as S.
  destruct fuel as [| n]; cbn [Rls.walk] in *.
  - destruct (Rls.sub_selects ps r cs') as [| r1' rs']; [reflexivity |].
    destruct (Rls.sub_selects ps r cs) as [| r1 rs];
      [exfalso; exact (S r1' (or_introl eq_refl)) |].
    destruct (existsb (Rls.relation_eqb r) active); discriminate H.
  - destruct (Rls.sub_selects ps r cs') as [| r1' rs']; [reflexivity |].
    destruct (Rls.sub_selects ps r cs) as [| r1 rs];
      [exfalso; exact (S r1' (or_introl eq_refl)) |].
    destruct (existsb (Rls.relation_eqb r) active); [discriminate H |].
    apply first_refusal_expanded. intros v Hv.
    apply in_map_iff in Hv. destruct Hv as (x & <- & Hx).
    rewrite first_refusal_expanded in H. apply H.
    apply (in_map (fun r' => Rls.walk n ps (r :: active) r' [Rls.SELECT])).
    apply S. exact Hx.
Qed.

Lemma accepted_weaken (ps : list Rls.policy) (r : Rls.relation)
    (cs cs' : list Rls.command) :
  incl cs' cs ->
  Rls.accepted ps r cs = true -> Rls.accepted ps r cs' = true.
Proof.
  unfold Rls.accepted, Rls.expand. intros I H.
  destruct (Rls.walk 5 ps [] r cs) eqn:E; try discriminate H.
  rewrite (walk_weaken _ _ _ _ _ _ I E). reflexivity.
Qed.

Lemma shipped_refused_one (r : Rls.relation) (c : Rls.command) :
  Rls.relation_eqb r Rls.project_members && Rls.command_eqb c Rls.UPDATE = false ->
  Rls.accepted Rls.shipped r [c] = false.
Proof.
  destruct r, c; intros H; try reflexivity; discriminate H.
Qed.

Lemma shipped_refused (r : Rls.relation) (c : Rls.command)
    (cs : list Rls.command) :
  In c cs ->
  Rls.relation_eqb r Rls.project_members && Rls.command_eqb c Rls.UPDATE = false ->
  Rls.accepted Rls.shipped r cs = false.
Proof.
  intros Hc H.
  destruct (Rls.accepted Rls.shipped r cs) eqn:A; [| reflexivity].
  assert (I : incl [c] cs) by (intros x [<- | []]; exact Hc).
  rewrite <- (shipped_refused_one r c H). symmetry.
  exact (accepted_weaken _ _ _ _ I A).
Qed.

Lemma no_policy_to_expand (cs : list Rls.command) :
  forallb (fun c => Rls.command_eqb c Rls.UPDATE) cs = true ->
  Rls.accepted Rls.shipped Rls.project_members cs = true.
Proof.
  intros H. unfold Rls.accepted, Rls.expand.
  assert (S : Rls.sub_selects Rls.shipped Rls.project_members cs = []).
  { unfold Rls.sub_selects, Rls.applicable.
    assert (E : forall c, existsb (Rls.command_eqb c) cs
                          = Rls.command_eqb c Rls.UPDATE && existsb (fun _ => true) cs).
    { intros c. induction cs as [| x cs IH]; simpl in *;
        [rewrite andb_false_r; reflexivity |].
      apply andb_true_iff in H. destruct H as [Hx H].
      rewrite (IH H). destruct x; try discriminate Hx.
      destruct c; reflexivity. }
    unfold Rls.shipped. cbn [filter Rls.table Rls.command_of Rls.relation_eqb andb].
    rewrite !E. cbn [Rls.command_eqb andb flat_map]. reflexivity. }
  cbn [Rls.walk]. rewrite S. reflexivity.
Qed.

(** X31.  On the policies as the migrations create them, the store refuses
    every statement of an authenticated caller that the pages can send,
    before it looks at any row: a statement on one of the five tables is
    expanded only if it is an UPDATE of [project_members] that does not
    read the table (the one command of one table for which no policy
    exists); every other one ends with infinite recursion in a policy,
    because the policy "Admins can view all profiles" reads [profiles]
    and the policies of every other statement read [profiles], directly
    or, for an INSERT into [time_logs], through [tasks]. *)
Theorem shipped_policies_refuse_every_statement (r : Rls.relation)
    (cs : list Rls.command) :
  Rls.accepted Rls.shipped r cs
  = forallb (fun c => Rls.relation_eqb r Rls.project_members
                      && Rls.command_eqb c Rls.UPDATE) cs
  /\ (Rls.accepted Rls.shipped r cs = false ->
      Rls.expand Rls.shipped r cs = Rls.infinite_recursion).
Proof.
  split.
  - destruct (forallb _ cs) eqn:F.
    + destruct cs as [| c cs]; [destruct r; reflexivity |].
      assert (R : r = Rls.project_members).
      { simpl in F. apply andb_true_iff in F. destruct F as [F _].
        apply andb_true_iff in F. destruct F as [F _].
        apply relation_eqb_eq. exact F. }
      subst r. apply no_policy_to_expand.
      rewrite forallb_forall in *. intros x Hx. specialize (F x Hx).
      apply andb_true_iff in F. tauto.
    + assert (X : exists c, In c cs
                            /\ Rls.relation_eqb r Rls.project_members
                               && Rls.command_eqb c Rls.UPDATE = false).
      { induction cs as [| c cs IH]; [discriminate F |].
        simpl in F. apply andb_false_iff in F. destruct F as [F | F].
        - exists c. split; [left; reflexivity | exact F].
        - destruct (IH F) as (x & Hx & E). exists x. split; [right |]; assumption. }
      destruct X as (c & Hc & E). exact (shipped_refused r c cs Hc E).
  - unfold Rls.accepted. pose proof (expand_has_fuel Rls.shipped r cs) as N.
    destruct (Rls.expand Rls.shipped r cs); intros H;
      [discriminate H | reflexivity | exfalso; apply N; reflexivity].
Qed.

(** ** Starting and stopping against the deployed store *)

Lemma shipped_startTimer (sx : Pg.syntax) (uid : Pg.uuid)
    (profile : option Profiles.row) (now : Z) (server_now : Pg.timestamptz)
    (new_id taskId : Pg.uuid) (db : database) (st : TimeTracking.state) :
  DeployedTimeTracking.startTimer Rls.shipped sx uid profile now server_now
    new_id taskId db st
  = {| state_of := st; store_of := db;
       requests_of := [insert_into "time_logs"] |}.
Proof.
  reflexivity.
Qed.

Lemma shipped_stopTimer (sx : Pg.syntax) (uid : Pg.uuid)
    (profile : option Profiles.row) (now : Z) (server_now : Pg.timestamptz)
    (db : database) (st : TimeTracking.state) :
  store_of (DeployedTimeTracking.stopTimer Rls.shipped sx uid profile now
              server_now db st) = db
  /\ state_of (DeployedTimeTracking.stopTimer Rls.shipped sx uid profile now
                 server_now db st) = st.
Proof.
  unfold DeployedTimeTracking.stopTimer.
  destruct (TimeTracking.activeLog st); split; reflexivity.
Qed.

Lemma shipped_run (sx : Pg.syntax)
    (ops : list DeployedTimeTracking.operation) (db : database) :
  DeployedTimeTracking.run Rls.shipped sx ops db = db.
Proof.
  unfold DeployedTimeTracking.run. revert db.
  induction ops as [| op ops IH]; intros db; simpl; [reflexivity |].
  assert (E : store_of (DeployedTimeTracking.perform Rls.shipped sx op db) = db).
  { destruct op; simpl; [reflexivity | apply shipped_stopTimer]. }
  rewrite E. apply IH.
Qed.

(** C2.  Against the store as deployed, a start is rejected, whether or
    not the user has a log running: the INSERT of [startTimer] is refused
    while its policies are expanded, the handler logs the error, and
    neither the store nor the page changes.  A stop fares the same.  So
    no sequence of starts and stops, by whatever users on whatever pages,
    changes the store, and a user with at most one running log has at
    most one after it. *)
Theorem start_while_running_is_rejected (sx : Pg.syntax)
    (ops : list DeployedTimeTracking.operation) (db : database)
    (user : Pg.uuid) :
  (List.length (TimeTracking.running user db) <= 1)%nat ->
  (forall uid profile now server_now new_id taskId st,
     DeployedTimeTracking.startTimer Rls.shipped sx uid profile now
       server_now new_id taskId db st
     = {| state_of := st; store_of := db;
          requests_of := [insert_into "time_logs"] |})
  /\ DeployedTimeTracking.run Rls.shipped sx ops db = db
  /\ (List.length
        (TimeTracking.running user
           (DeployedTimeTracking.run Rls.shipped sx ops db)) <= 1)%nat.
Proof.
  intros H. split; [| split].
  - intros. apply shipped_startTimer.
  - apply shipped_run.
  - rewrite shipped_run. exact H.
Qed.

Lemma start_while_running_is_rejected_witness :
  List.length (TimeTracking.running "alice" (store_of Sample.first_start))
  = 1%nat
  /\ DeployedTimeTracking.run Rls.shipped Sample.sx
       [DeployedTimeTracking.start "alice" (Some Sample.alice)
          (Sample.opening (store_of Sample.first_start))
          (Sample.now0 + 2000) 6 "l2" "t1";
        DeployedTimeTracking.stop "alice" (Some Sample.alice)
          (Sample.mounted (store_of Sample.first_start))
          (Sample.now0 + 4000) 7;
        DeployedTimeTracking.start "alice" (Some Sample.alice)
          (Sample.opening (store_of Sample.first_start))
          (Sample.now0 + 6000) 8 "l3" "t1"]
       (store_of Sample.first_start)
     = store_of Sample.first_start.
Proof.
  split; [reflexivity |].
  refine (proj1 (proj2 (start_while_running_is_rejected Sample.sx _
                          (store_of Sample.first_start) "alice" _))).
  vm_compute. apply le_n.
Defined.

(** ** The project form and null fields *)

(** C7 (the code at a failing input).  The project form cannot create a
    project whose optional fields are null.  Its body is the form itself:
    an input left blank is sent as the empty string, where the task form
    sends [null] for its blank project and assignee.  With the manager
    left blank the store refuses the request (the empty string is no
    uuid; as deployed, the policies are refused before that), nothing is
    stored, and the page keeps the modal open with what was typed: there
    is no project to fetch. *)
Theorem project_form_creates_no_null_fields (ps : list Rls.policy)
    (sx : Pg.syntax) (uid new_id : Pg.uuid) (server_now : Pg.timestamptz)
    (db : database) (st : ProjectsPage.state) (n : string) :
  Pg.uuid_in sx "" = None ->
  ProjectsPage.editingProject st = None ->
  ProjectsPage.formData st
  = {| ProjectsPage.name := n; ProjectsPage.description := "";
       ProjectsPage.manager_id := Pg.Text "";
       ProjectsPage.start_date := Pg.Text "";
       ProjectsPage.end_date := Pg.Text ""; ProjectsPage.status := "planned" |} ->
  ProjectsPage.body (ProjectsPage.formData st)
  = {| ProjectsValues.name := Pg.Val n;
       ProjectsValues.description := Pg.Val "";
       ProjectsValues.manager_id := Pg.Val (Pg.Text "");
       ProjectsValues.start_date := Pg.Val (Pg.Text "");
       ProjectsValues.end_date := Pg.Val (Pg.Text "");
       ProjectsValues.status := Pg.Val "planned" |}
  /\ (forall profile,
        TasksValues.project_id (TasksPage.taskData profile TasksPage.blank_form)
        = Pg.Null
        /\ TasksValues.assigned_to
             (TasksPage.taskData profile TasksPage.blank_form) = Pg.Null)
  /\ DeployedProjectsPage.handleSubmit ps uid sx server_now new_id db st
     = {| state_of := st; store_of := db;
          requests_of := [insert_into "projects"] |}
  /\ ProjectsPage.handleSubmit sx uid server_now new_id db st
     = {| state_of := st; store_of := db;
          requests_of := [insert_into "projects"] |}.
Proof.
  intros Hu He Hf.
  assert (M : ProjectsPage.manager_id (ProjectsPage.formData st) = Pg.Text "")
    by (rewrite Hf; reflexivity).
  split; [rewrite Hf; reflexivity |].
  split; [intros profile; split; reflexivity |].
  assert (R : Store.projects_insert sx db uid new_id server_now
                (ProjectsPage.body (ProjectsPage.formData st))
              = Pg.Err Pg.invalid_text_representation).
  { unfold Store.projects_insert. simpl. rewrite M. simpl. rewrite Hu.
    reflexivity. }
  split.
  - unfold DeployedProjectsPage.handleSubmit. rewrite He. cbn [fst snd].
    destruct (Rls.accepted ps Rls.projects [Rls.INSERT]); [| reflexivity].
    rewrite R. reflexivity.
  - exact (blank_manager_is_refused sx uid new_id server_now db st Hu He M).
Qed.

Lemma project_form_creates_no_null_fields_witness :
  DeployedProjectsPage.handleSubmit Rls.shipped "root" Sample.sx 9 "p1"
    Sample.db0 Sample.new_project_page
  = {| state_of := Sample.new_project_page; store_of := Sample.db0;
       requests_of := [insert_into "projects"] |}
  /\ DeployedProjectsPage.handleSubmit Sample.repaired "root" Sample.sx 9 "p1"
       Sample.db0 Sample.new_project_page
     = {| state_of := Sample.new_project_page; store_of := Sample.db0;
          requests_of := [insert_into "projects"] |}.
Proof.
  split.
  - exact (proj1 (proj2 (proj2
             (project_form_creates_no_null_fields Rls.shipped Sample.sx "root"
                "p1" 9 Sample.db0 Sample.new_project_page "Apollo"
                eq_refl eq_refl eq_refl)))).
  - exact (proj1 (proj2 (proj2
             (project_form_creates_no_null_fields Sample.repaired Sample.sx
                "root" "p1" 9 Sample.db0 Sample.new_project_page "Apollo"
                eq_refl eq_refl eq_refl)))).
Defined.

(** ** The calendar cell of a task *)

(** C8 (the code at a failing input).  [getTasksForDate(date)] lists the
    tasks of the page that have an end date whose first instant in UTC
    falls on the local day of [date]; a task without an end date is
    listed for no date.  That local day is not always the end date: five
    hours behind UTC, with January 2025 displayed, a task due on
    2025-01-01 is listed for 31 December, not for 1 January, and so in no
    cell of the month. *)
Theorem calendar_lists_task_on_another_day :
  (forall tz st date t,
     In t (Calendar.getTasksForDate tz st date)
     <-> In t (Calendar.tasks st)
         /\ exists d, Tasks.end_date t = Some d
                      /\ Calendar.local_day tz (Js.Date_of_date d)
                         = Calendar.local_day tz date)
  /\ In (Sample.task "late" "alice" "in_progress" (Some Sample.d_2025_01_01))
        (Calendar.tasks Sample.calendar)
  /\ Calendar.daysInMonth (fun _ => Sample.jan_1_local)
       (fun _ => Sample.jan_31_local_end) (fun _ _ => Sample.january_2025)
       Sample.calendar
     = Sample.january_2025
  /\ map Tasks.id (Calendar.getTasksForDate Sample.tz_minus_5 Sample.calendar
                     Sample.jan_1_local) = []
  /\ map Tasks.id (Calendar.getTasksForDate Sample.tz_minus_5 Sample.calendar
                     Sample.dec_31_local) = ["late"; "done"]
  /\ map (fun cell => map Tasks.id (snd cell))
         (Calendar.cells Sample.tz_minus_5 (fun _ => Sample.jan_1_local)
            (fun _ => Sample.jan_31_local_end) (fun _ _ => Sample.january_2025)
            Sample.calendar)
     = repeat [] 31.
Proof.
  split; [intros tz st date t; apply getTasksForDate_In |].
  split; [left; reflexivity |].
  repeat split; vm_compute; reflexivity.
Qed.

(** ** The handlers where the policies expand, and where they do not *)

Lemma select_accepted (ps : list Rls.policy) (r : Rls.relation)
    (c : Rls.command) :
  Rls.accepted ps r [c; Rls.SELECT] = true ->
  Rls.accepted ps r [Rls.SELECT] = true.
Proof.
  apply accepted_weaken. intros x [<- | []]. right. left. reflexivity.
Qed.

Lemma deployed_stopTimer_accepted (ps : list Rls.policy) (sx : Pg.syntax)
    (uid : Pg.uuid) (profile : option Profiles.row) (now : Z)
    (server_now : Pg.timestamptz) (db : database) (st : TimeTracking.state) :
  Rls.accepted ps Rls.time_logs [Rls.UPDATE; Rls.SELECT] = true ->
  DeployedTimeTracking.stopTimer ps sx uid profile now server_now db st
  = TimeTracking.stopTimer sx uid profile now server_now db st.
Proof.
  intros A. unfold DeployedTimeTracking.stopTimer, TimeTracking.stopTimer,
    DeployedTimeTracking.fetchTimeLogs.
  rewrite A, (select_accepted _ _ _ A). reflexivity.
Qed.

Lemma deployed_toggleUserStatus_accepted (ps : list Rls.policy)
    (sx : Pg.syntax) (uid : Pg.uuid) (now : Pg.timestamptz)
    (user : Profiles.row) (db : database) (st : Users.state) :
  Rls.accepted ps Rls.profiles [Rls.UPDATE; Rls.SELECT] = true ->
  DeployedUsers.toggleUserStatus ps sx uid now user db st
  = Users.toggleUserStatus sx uid now user db st.
Proof.
  intros A. unfold DeployedUsers.toggleUserStatus, Users.toggleUserStatus,
    DeployedUsers.fetchUsers.
  rewrite A, (select_accepted _ _ _ A). reflexivity.
Qed.

Lemma deployed_users_handleSubmit_accepted (ps : list Rls.policy)
    (sx : Pg.syntax) (uid : Pg.uuid) (now : Pg.timestamptz) (db : database)
    (st : Users.state) :
  Rls.accepted ps Rls.profiles [Rls.UPDATE; Rls.SELECT] = true ->
  DeployedUsers.handleSubmit ps sx uid now db st
  = Users.handleSubmit sx uid now db st.
Proof.
  intros A. unfold DeployedUsers.handleSubmit, Users.handleSubmit,
    DeployedUsers.fetchUsers.
  rewrite A, (select_accepted _ _ _ A). reflexivity.
Qed.

Lemma deployed_tasks_handleDelete_accepted (ps : list Rls.policy)
    (uid : Pg.uuid) (confirmed : bool) (id : Pg.uuid) (db : database)
    (st : TasksPage.state) :
  Rls.accepted ps Rls.tasks [Rls.DELETE; Rls.SELECT] = true ->
  DeployedTasksPage.handleDelete ps uid confirmed id db st
  = TasksPage.handleDelete uid confirmed id db st.
Proof.
  intros A. unfold DeployedTasksPage.handleDelete, TasksPage.handleDelete,
    DeployedTasksPage.fetchTasks.
  rewrite A, (select_accepted _ _ _ A). reflexivity.
Qed.

Lemma deployed_projects_handleDelete_accepted (ps : list Rls.policy)
    (uid : Pg.uuid) (confirmed : bool) (id : Pg.uuid) (db : database)
    (st : ProjectsPage.state) :
  Rls.accepted ps Rls.projects [Rls.DELETE; Rls.SELECT] = true ->
  DeployedProjectsPage.handleDelete ps uid confirmed id db st
  = ProjectsPage.handleDelete uid confirmed id db st.
Proof.
  intros A. unfold DeployedProjectsPage.handleDelete, ProjectsPage.handleDelete,
    DeployedProjectsPage.fetchProjects.
  rewrite A, (select_accepted _ _ _ A). reflexivity.
Qed.

(** X2.  A start never looks at the logs that are running.  Where the
    policies of [time_logs] expand, a start by a user whose profile
    exists, on a task assigned to or created by that user, with a fresh
    id, stores one more running log than the user had, also when one was
    running already; where they do not expand (the policies as shipped),
    the start changes neither the store nor the page. *)
Theorem start_adds_one_running_log_or_nothing (ps : list Rls.policy)
    (sx : Pg.syntax) (p : Profiles.row) (now : Z)
    (server_now : Pg.timestamptz) (new_id taskId : Pg.uuid) (db : database)
    (st : TimeTracking.state) :
  Pg.mem (Profiles.id p) (map Profiles.id (profiles db)) = true ->
  existsb (fun t => String.eqb (Tasks.id t) taskId
                    && (Pg.eq_opt (Tasks.assigned_to t) (Profiles.id p)
                        || String.eqb (Tasks.created_by t) (Profiles.id p)))
          (tasks db) = true ->
  Pg.mem new_id (map TimeLogs.id (time_logs db)) = false ->
  let o := DeployedTimeTracking.startTimer ps sx (Profiles.id p) (Some p) now
             server_now new_id taskId db st in
  if Rls.accepted ps Rls.time_logs [Rls.INSERT; Rls.SELECT]
  then List.length (TimeTracking.running (Profiles.id p) (store_of o))
       = S (List.length (TimeTracking.running (Profiles.id p) db))
  else o = {| state_of := st; store_of := db;
              requests_of := [insert_into "time_logs"] |}.
Proof.
  intros Hp Ht Hf o. subst o. unfold DeployedTimeTracking.startTimer.
  destruct (Rls.accepted ps Rls.time_logs [Rls.INSERT; Rls.SELECT]);
    [| reflexivity].
  exact (startTimer_adds_a_running_log sx p now server_now new_id taskId db st
           Hp Ht Hf).
Qed.

Lemma start_adds_one_running_log_or_nothing_witness :
  List.length
    (TimeTracking.running "alice"
       (store_of (DeployedTimeTracking.startTimer Sample.repaired Sample.sx
                    "alice" (Some Sample.alice) (Sample.now0 + 2000) 6 "l2"
                    "t1" (store_of Sample.first_start)
                    (Sample.opening (store_of Sample.first_start)))))
  = 2%nat
  /\ DeployedTimeTracking.startTimer Rls.shipped Sample.sx "alice"
       (Some Sample.alice) (Sample.now0 + 2000) 6 "l2" "t1"
       (store_of Sample.first_start)
       (Sample.opening (store_of Sample.first_start))
     = {| state_of := Sample.opening (store_of Sample.first_start);
          store_of := store_of Sample.first_start;
          requests_of := [insert_into "time_logs"] |}.
Proof.
  split.
  - exact (start_adds_one_running_log_or_nothing Sample.repaired Sample.sx
             Sample.alice (Sample.now0 + 2000) 6 "l2" "t1"
             (store_of Sample.first_start)
             (Sample.opening (store_of Sample.first_start))
             eq_refl eq_refl eq_refl).
  - exact (start_adds_one_running_log_or_nothing Rls.shipped Sample.sx
             Sample.alice (Sample.now0 + 2000) 6 "l2" "t1"
             (store_of Sample.first_start)
             (Sample.opening (store_of Sample.first_start))
             eq_refl eq_refl eq_refl).
Defined.

(** X4.  [checkActiveLog] sets the active log of the page to the caller's
    running log when the select is answered and the store holds exactly
    one, and to no log in every other case: none running, more than one
    running ([maybeSingle] fails), or the select refused. *)
Theorem checkActiveLog_reads_one_running_log (ps : list Rls.policy)
    (uid : Pg.uuid) (p : Profiles.row) (db : database)
    (st : TimeTracking.state) :
  Profiles.id p = uid ->
  TimeTracking.activeLog
    (state_of (DeployedTimeTracking.checkActiveLog ps uid (Some p) db st))
  = if Rls.accepted ps Rls.time_logs [Rls.SELECT]
    then match TimeTracking.running uid db with
         | [r] => Some r
         | _ => None
         end
    else None.
Proof.
  intros Hp. unfold DeployedTimeTracking.checkActiveLog.
  destruct (Rls.accepted ps Rls.time_logs [Rls.SELECT]); [| reflexivity].
  exact (checkActiveLog_reads_the_running_log uid p db st Hp).
Qed.

Lemma checkActiveLog_reads_one_running_log_witness :
  TimeTracking.activeLog
    (state_of (DeployedTimeTracking.checkActiveLog Sample.repaired "alice"
                 (Some Sample.alice) (store_of Sample.first_start)
                 (TimeTracking.initial Sample.now0)))
  = match TimeTracking.running "alice" (store_of Sample.first_start) with
    | [r] => Some r
    | _ => None
    end
  /\ List.length (TimeTracking.running "alice" (store_of Sample.first_start))
     = 1%nat
  /\ TimeTracking.activeLog
       (state_of (DeployedTimeTracking.checkActiveLog Rls.shipped "alice"
                    (Some Sample.alice) (store_of Sample.first_start)
                    (TimeTracking.initial Sample.now0)))
     = None.
Proof.
  split; [| split; [reflexivity |]].
  - exact (checkActiveLog_reads_one_running_log Sample.repaired "alice"
             Sample.alice (store_of Sample.first_start)
             (TimeTracking.initial Sample.now0) eq_refl).
  - exact (checkActiveLog_reads_one_running_log Rls.shipped "alice"
             Sample.alice (store_of Sample.first_start)
             (TimeTracking.initial Sample.now0) eq_refl).
Defined.

(** X5.  [fetchTimeLogs] clears [loading] in every case.  Where the
    select is answered it shows at most fifty logs, all of them stored
    logs of the caller, the latest start first, and every log of the
    caller when there are no more than fifty; where the select is refused
    the list of the page stays what it was. *)
Theorem fetchTimeLogs_shows_latest_fifty_or_keeps (ps : list Rls.policy)
    (uid : Pg.uuid) (p : Profiles.row) (db : database)
    (st : TimeTracking.state) :
  Profiles.id p = uid ->
  let o := DeployedTimeTracking.fetchTimeLogs ps uid (Some p) db st in
  let shown := TimeTracking.timeLogs (state_of o) in
  TimeTracking.loading (state_of o) = false
  /\ if Rls.accepted ps Rls.time_logs [Rls.SELECT]
     then (List.length shown <= 50)%nat
          /\ (forall r, In r shown ->
                        In r (time_logs db) /\ TimeLogs.user_id r = uid)
          /\ Spec.descending TimeLogs.start_time shown
          /\ ((List.length
                 (filter (fun r => String.eqb (TimeLogs.user_id r) uid)
                         (time_logs db)) <= 50)%nat ->
              forall r, In r (time_logs db) -> TimeLogs.user_id r = uid ->
                        In r shown)
     else shown = TimeTracking.timeLogs st.
Proof.
  intros Hp o shown. subst shown o. unfold DeployedTimeTracking.fetchTimeLogs.
  destruct (Rls.accepted ps Rls.time_logs [Rls.SELECT]).
  - split; [reflexivity |].
    exact (fetchTimeLogs_shows_latest_fifty uid p db st Hp).
  - split; reflexivity.
Qed.

Lemma fetchTimeLogs_shows_latest_fifty_or_keeps_witness :
  map TimeLogs.id
    (TimeTracking.timeLogs
       (state_of (DeployedTimeTracking.fetchTimeLogs Sample.repaired "alice"
                    (Some Sample.alice) Sample.db_shared
                    (TimeTracking.initial Sample.now0))))
  = ["m1"]
  /\ Spec.descending TimeLogs.start_time
       (TimeTracking.timeLogs
          (state_of (DeployedTimeTracking.fetchTimeLogs Sample.repaired "alice"
                       (Some Sample.alice) Sample.db_shared
                       (TimeTracking.initial Sample.now0))))
  /\ TimeTracking.timeLogs
       (state_of (DeployedTimeTracking.fetchTimeLogs Rls.shipped "alice"
                    (Some Sample.alice) Sample.db_shared
                    (TimeTracking.initial Sample.now0)))
     = [].
Proof.
  split; [reflexivity |]. split.
  - exact (proj1 (proj2 (proj2 (proj2
             (fetchTimeLogs_shows_latest_fifty_or_keeps Sample.repaired "alice"
                Sample.alice Sample.db_shared (TimeTracking.initial Sample.now0)
                eq_refl))))).
  - exact (proj2
             (fetchTimeLogs_shows_latest_fifty_or_keeps Rls.shipped "alice"
                Sample.alice Sample.db_shared (TimeTracking.initial Sample.now0)
                eq_refl)).
Defined.

(** X6.  When the active log has been rejected and the caller is not an
    admin, [stopTimer] leaves the store as it is, so the log keeps
    running there.  Where the policies expand, the update matches no row
    the caller may update, which is no error: the page clears its active
    log and the elapsed time and fetches the logs again.  Where they do
    not expand, the update is an error and the page keeps its state. *)
Theorem stopTimer_cannot_stop_rejected_log (ps : list Rls.policy)
    (sx : Pg.syntax) (uid : Pg.uuid) (profile : option Profiles.row) (now : Z)
    (server_now : Pg.timestamptz) (db : database) (st : TimeTracking.state)
    (a : TimeLogs.row) :
  TimeTracking.activeLog st = Some a ->
  Policy.is_admin db uid = false ->
  (forall r, In r (time_logs db) -> TimeLogs.id r = TimeLogs.id a ->
             TimeLogs.approval_status r = "rejected") ->
  let o := DeployedTimeTracking.stopTimer ps sx uid profile now server_now
             db st in
  store_of o = db
  /\ if Rls.accepted ps Rls.time_logs [Rls.UPDATE; Rls.SELECT]
     then TimeTracking.activeLog (state_of o) = None
          /\ TimeTracking.elapsedTime (state_of o) = 0
          /\ requests_of o = [update_of "time_logs"; select_from "time_logs"]
     else state_of o = st /\ requests_of o = [update_of "time_logs"].
Proof.
  intros Ha Hadm Hr o. subst o.
  destruct (Rls.accepted ps Rls.time_logs [Rls.UPDATE; Rls.SELECT]) eqn:A.
  - rewrite (deployed_stopTimer_accepted ps sx uid profile now server_now db st A).
    pose proof (stopTimer_on_rejected_log sx uid profile now server_now db st a
                  Ha Hadm Hr) as H.
    cbv zeta in H. tauto.
  - unfold DeployedTimeTracking.stopTimer. rewrite Ha, A.
    repeat split.
Qed.

Lemma stopTimer_cannot_stop_rejected_log_witness :
  TimeTracking.running "alice" Sample.db_rejected = [Sample.rejected_log]
  /\ store_of (DeployedTimeTracking.stopTimer Sample.repaired Sample.sx "alice"
                 (Some Sample.alice) (Sample.now0 + 90000) 7
                 Sample.db_rejected Sample.page_rejected)
     = Sample.db_rejected
  /\ TimeTracking.activeLog
       (state_of (DeployedTimeTracking.stopTimer Sample.repaired Sample.sx
                    "alice" (Some Sample.alice) (Sample.now0 + 90000) 7
                    Sample.db_rejected Sample.page_rejected))
     = None.
Proof.
  assert (R : forall r, In r (time_logs Sample.db_rejected) ->
                        TimeLogs.id r = TimeLogs.id Sample.rejected_log ->
                        TimeLogs.approval_status r = "rejected")
    by (intros r [<- | []] _; reflexivity).
  pose proof (stopTimer_cannot_stop_rejected_log Sample.repaired Sample.sx
                "alice" (Some Sample.alice) (Sample.now0 + 90000) 7
                Sample.db_rejected Sample.page_rejected Sample.rejected_log
                eq_refl eq_refl R) as H.
  cbv zeta in H. destruct H as [Hs H].
  change (Rls.accepted Sample.repaired Rls.time_logs [Rls.UPDATE; Rls.SELECT])
    with true in H.
  cbv iota in H. destruct H as [Hl _].
  split; [reflexivity |]. split; [exact Hs | exact Hl].
Defined.

(** X8.  The update policy for owners does not look at what becomes of
    [approval_status]: whenever the store accepts the update by which the
    owner of a pending log sets it to approved, the log is stored
    approved, with a new [updated_at], and every other log and every
    other column of the log are as they were. *)
Theorem accepted_owner_update_approves_log (sx : Pg.syntax)
    (db db' : database) (uid : Pg.uuid) (now : Pg.timestamptz)
    (r : TimeLogs.row) :
  In r (time_logs db) ->
  TimeLogs.user_id r = uid ->
  TimeLogs.approval_status r = "pending" ->
  (forall x, In x (time_logs db) -> TimeLogs.id x = TimeLogs.id r -> x = r) ->
  TimeLogs.calculate_time_log_duration r = Pg.Ok r ->
  Store.time_logs_constraints db r = Pg.Ok tt ->
  Store.time_logs_update sx db uid now (Spec.set_approval_status "approved")
    (fun x => String.eqb (TimeLogs.id x) (TimeLogs.id r))
  = Pg.Ok db' ->
  db' = with_time_logs
          (map (fun x => if String.eqb (TimeLogs.id x) (TimeLogs.id r)
                         then Spec.with_approval_status "approved" now x
                         else x)
               (time_logs db))
          db
  /\ In (Spec.with_approval_status "approved" now r) (time_logs db').
Proof.
  intros Hin Hu Hp Huniq Hd Hc Hok.
  rewrite (owner_can_approve_own_log sx db uid now r Hin Hu Hp Huniq Hd Hc)
    in Hok.
  injection Hok as <-. split; [reflexivity |].
  cbn [time_logs with_time_logs].
  apply in_map_iff. exists r. split; [| exact Hin].
  rewrite String.eqb_refl. reflexivity.
Qed.

Lemma accepted_owner_update_approves_log_witness :
  TimeLogs.approval_status Sample.pending_entry = "pending"
  /\ Sample.all_approved = Pg.Ok Sample.db_all_approved
  /\ In (Spec.with_approval_status "approved" 9 Sample.pending_entry)
        (time_logs Sample.db_all_approved).
Proof.
  split; [reflexivity |]. split; [reflexivity |].
  refine (proj2 (accepted_owner_update_approves_log Sample.sx Sample.db_shared
                   Sample.db_all_approved "alice" 9 Sample.pending_entry
                   _ eq_refl eq_refl _ eq_refl eq_refl _)).
  - left. reflexivity.
  - intros x [<- | [<- | []]] E; [reflexivity | discriminate E].
  - reflexivity.
Defined.




(** X15.  When an admin confirms the deletion of an existing task: where
    the policies of the DELETE expand, the task is gone and so is every
    time log on it, every other task and every other time log stays, and
    profiles and projects are not touched; where they do not expand,
    nothing is deleted and the page keeps its state. *)
Theorem admin_deletes_task_and_its_logs_or_nothing (ps : list Rls.policy)
    (uid id : Pg.uuid) (db : database) (st : TasksPage.state) :
  Policy.is_admin db uid = true ->
  (exists t, In t (tasks db) /\ Tasks.id t = id) ->
  let o := and_then (DeployedTasksPage.handleDelete ps uid true id db st) in
  let db' := store_of o in
  if Rls.accepted ps Rls.tasks [Rls.DELETE; Rls.SELECT]
  then (forall t, In t (tasks db') <-> In t (tasks db) /\ Tasks.id t <> id)
       /\ (forall l, In l (time_logs db')
                     <-> In l (time_logs db) /\ TimeLogs.task_id l <> id)
       /\ profiles db' = profiles db
       /\ projects db' = projects db
  else db' = db /\ state_of o = st.
Proof.
  intros Hadm Hex o db'. subst db' o.
  destruct (Rls.accepted ps Rls.tasks [Rls.DELETE; Rls.SELECT]) eqn:A.
  - rewrite (deployed_tasks_handleDelete_accepted ps uid true id db st A).
    exact (admin_deletes_task_and_its_logs uid id db st Hadm Hex).
  - unfold DeployedTasksPage.handleDelete. rewrite A. split; reflexivity.
Qed.

Lemma admin_deletes_task_and_its_logs_or_nothing_witness :
  (map Tasks.id
     (tasks (store_of (and_then (DeployedTasksPage.handleDelete Sample.repaired
                                   "root" true "t9" Sample.db_team
                                   TasksPage.initial)))),
   map TimeLogs.id
     (time_logs (store_of (and_then (DeployedTasksPage.handleDelete
                                       Sample.repaired "root" true "t9"
                                       Sample.db_team TasksPage.initial)))))
  = (["t1"], ["m1"])
  /\ store_of (and_then (DeployedTasksPage.handleDelete Rls.shipped "root" true
                           "t9" Sample.db_team TasksPage.initial))
     = Sample.db_team.
Proof.
  split; [reflexivity |].
  assert (E : exists t, In t (tasks Sample.db_team) /\ Tasks.id t = "t9")
    by (exists Sample.shared_task;
        split; [right; left; reflexivity | reflexivity]).
  exact (proj1 (admin_deletes_task_and_its_logs_or_nothing Rls.shipped "root"
                  "t9" Sample.db_team TasksPage.initial eq_refl E)).
Defined.

(** X18.  When an admin presses the activate / deactivate button of a
    user on a table that satisfies its constraints: where the policies of
    the UPDATE expand, the status stored for that user becomes the
    opposite of the one the table showed and nothing else changes (the
    user's role, name and e-mail, every other profile, every other
    table); where they do not expand, nothing is stored and the page
    keeps its state. *)
Theorem toggleUserStatus_flips_one_status_or_nothing (ps : list Rls.policy)
    (sx : Pg.syntax) (uid : Pg.uuid) (now : Pg.timestamptz)
    (user : Profiles.row) (db : database) (st : Users.state) :
  Policy.is_admin db uid = true ->
  Spec.profiles_ok db = true ->
  let o := DeployedUsers.toggleUserStatus ps sx uid now user db st in
  let db' := store_of o in
  if Rls.accepted ps Rls.profiles [Rls.UPDATE; Rls.SELECT]
  then profiles db'
       = map (fun p => if String.eqb (Profiles.id p) (Profiles.id user)
                       then Spec.with_role_status (Profiles.role p)
                              (if String.eqb (Profiles.status user) "active"
                               then "inactive" else "active") now p
                       else p)
             (profiles db)
       /\ projects db' = projects db
       /\ project_members db' = project_members db
       /\ tasks db' = tasks db
       /\ time_logs db' = time_logs db
  else db' = db /\ state_of o = st.
Proof.
  intros Hadm Hok o db'. subst db' o.
  destruct (Rls.accepted ps Rls.profiles [Rls.UPDATE; Rls.SELECT]) eqn:A.
  - rewrite (deployed_toggleUserStatus_accepted ps sx uid now user db st A).
    exact (toggleUserStatus_flips_one_status sx uid now user db st Hadm Hok).
  - unfold DeployedUsers.toggleUserStatus. rewrite A. split; reflexivity.
Qed.

Lemma toggleUserStatus_flips_one_status_or_nothing_witness :
  map (fun p => (Profiles.id p, Profiles.role p, Profiles.status p))
      (profiles (store_of (DeployedUsers.toggleUserStatus Sample.repaired
                             Sample.sx "root" 9 Sample.bob Sample.db_team
                             Sample.users_page_root)))
  = [("alice", "employee", "active"); ("bob", "employee", "inactive");
     ("root", "admin", "active")]
  /\ store_of (DeployedUsers.toggleUserStatus Rls.shipped Sample.sx "root" 9
                 Sample.bob Sample.db_team Sample.users_page_root)
     = Sample.db_team.
Proof.
  split.
  - rewrite (proj1 (toggleUserStatus_flips_one_status_or_nothing
                      Sample.repaired Sample.sx "root" 9 Sample.bob
                      Sample.db_team Sample.users_page_root eq_refl eq_refl)).
    reflexivity.
  - exact (proj1 (toggleUserStatus_flips_one_status_or_nothing Rls.shipped
                    Sample.sx "root" 9 Sample.bob Sample.db_team
                    Sample.users_page_root eq_refl eq_refl)).
Defined.

(** X20.  When an admin submits the edit form of a user on a table that
    satisfies its constraints: where the policies of the UPDATE expand
    and the form holds a role and a status the table allows, that user
    gets the role and the status of the form, every other profile stays
    as it was, the modal closes and the list is read again; with a role
    or a status the table does not allow, or where the policies do not
    expand, nothing is stored and the page keeps its state, the modal
    open. *)
Theorem handleSubmit_sets_role_and_status_or_nothing (ps : list Rls.policy)
    (sx : Pg.syntax) (uid : Pg.uuid) (now : Pg.timestamptz) (db : database)
    (st : Users.state) (u : Profiles.row) :
  Policy.is_admin db uid = true ->
  Spec.profiles_ok db = true ->
  Users.editingUser st = Some u ->
  In u (profiles db) ->
  let f := Users.formData st in
  let o := DeployedUsers.handleSubmit ps sx uid now db st in
  if Rls.accepted ps Rls.profiles [Rls.UPDATE; Rls.SELECT]
     && (Profiles.role_check (Users.f_role f)
         && Profiles.status_check (Users.f_status f))
  then profiles (store_of o)
       = Spec.change_profile (Profiles.id u)
           (Spec.with_role_status (Users.f_role f) (Users.f_status f) now)
           (profiles db)
       /\ Users.modalOpen (state_of o) = false
       /\ Users.editingUser (state_of o) = None
       /\ requests_of o = [update_of "profiles"; select_from "profiles"]
  else store_of o = db /\ state_of o = st.
Proof.
  intros Hadm Hok Hed Hin f o. subst f o.
  destruct (Rls.accepted ps Rls.profiles [Rls.UPDATE; Rls.SELECT]) eqn:A;
    cbn [andb].
  - rewrite (deployed_users_handleSubmit_accepted ps sx uid now db st A).
    exact (handleSubmit_sets_role_and_status sx uid now db st u Hadm Hok Hed
             Hin).
  - unfold DeployedUsers.handleSubmit. rewrite Hed, A. split; reflexivity.
Qed.

Lemma handleSubmit_sets_role_and_status_or_nothing_witness :
  map (fun p => (Profiles.id p, Profiles.role p, Profiles.status p))
      (profiles (store_of (DeployedUsers.handleSubmit Sample.repaired Sample.sx
                             "root" 9 Sample.db_team
                             Sample.users_page_editing)))
  = [("alice", "project_manager", "active"); ("bob", "employee", "active");
     ("root", "admin", "active")]
  /\ store_of (DeployedUsers.handleSubmit Rls.shipped Sample.sx "root" 9
                 Sample.db_team Sample.users_page_editing)
     = Sample.db_team.
Proof.
  split; [reflexivity |].
  exact (proj1 (handleSubmit_sets_role_and_status_or_nothing Rls.shipped
                  Sample.sx "root" 9 Sample.db_team Sample.users_page_editing
                  Sample.alice eq_refl eq_refl eq_refl (or_introl eq_refl))).
Defined.

(** X21.  When an admin confirms the deletion of an existing project:
    where the policies of the DELETE expand, the project goes and takes
    with it its memberships, its tasks, and every time log booked on the
    project or on one of its tasks, and everything else stays; where they
    do not expand, nothing is deleted and the page keeps its state. *)
Theorem admin_deletes_project_and_dependents_or_nothing
    (ps : list Rls.policy) (uid id : Pg.uuid) (db : database)
    (st : ProjectsPage.state) :
  Policy.is_admin db uid = true ->
  (exists p, In p (projects db) /\ Projects.id p = id) ->
  let o := and_then (DeployedProjectsPage.handleDelete ps uid true id db st) in
  let db' := store_of o in
  if Rls.accepted ps Rls.projects [Rls.DELETE; Rls.SELECT]
  then (forall p, In p (projects db')
                  <-> In p (projects db) /\ Projects.id p <> id)
       /\ (forall m, In m (project_members db')
                     <-> In m (project_members db)
                         /\ ProjectMembers.project_id m <> id)
       /\ (forall t, In t (tasks db')
                     <-> In t (tasks db) /\ Tasks.project_id t <> Some id)
       /\ (forall l, In l (time_logs db')
                     <-> In l (time_logs db)
                         /\ TimeLogs.project_id l <> Some id
                         /\ ~ (exists t, In t (tasks db)
                                         /\ Tasks.project_id t = Some id
                                         /\ Tasks.id t = TimeLogs.task_id l))
       /\ profiles db' = profiles db
  else db' = db /\ state_of o = st.
Proof.
  intros Hadm Hex o db'. subst db' o.
  destruct (Rls.accepted ps Rls.projects [Rls.DELETE; Rls.SELECT]) eqn:A.
  - rewrite (deployed_projects_handleDelete_accepted ps uid true id db st A).
    exact (admin_deletes_project_and_dependents uid id db st Hadm Hex).
  - unfold DeployedProjectsPage.handleDelete. rewrite A. split; reflexivity.
Qed.

Lemma admin_deletes_project_and_dependents_or_nothing_witness :
  (let db' := store_of (and_then (DeployedProjectsPage.handleDelete
                                    Sample.repaired "root" true "p7"
                                    Sample.db_projects ProjectsPage.initial)) in
   (map Projects.id (projects db'), map ProjectMembers.id (project_members db'),
    map Tasks.id (tasks db'), map TimeLogs.id (time_logs db'))
   = (["p8"], [], ["t1"], ["m1"]))
  /\ store_of (and_then (DeployedProjectsPage.handleDelete Rls.shipped "root"
                           true "p7" Sample.db_projects ProjectsPage.initial))
     = Sample.db_projects.
Proof.
  split; [reflexivity |].
  assert (E : exists p, In p (projects Sample.db_projects)
                        /\ Projects.id p = "p7")
    by (exists Sample.gemini; split; [left; reflexivity | reflexivity]).
  exact (proj1 (admin_deletes_project_and_dependents_or_nothing Rls.shipped
                  "root" "p7" Sample.db_projects ProjectsPage.initial
                  eq_refl E)).
Defined.

(** X24.  Where the select of the projects page is answered, a caller
    whose role is project manager is shown every project of the store,
    also those that others manage and that the caller is no member of,
    each once; where the select is refused the page keeps the list it
    had. *)
Theorem project_manager_sees_every_project_or_keeps (ps : list Rls.policy)
    (uid : Pg.uuid) (db : database) (st : ProjectsPage.state)
    (me : Profiles.row) :
  In me (profiles db) ->
  Profiles.id me = uid ->
  Profiles.role me = "project_manager" ->
  let shown := ProjectsPage.projects
                 (state_of (DeployedProjectsPage.fetchProjects ps uid db st)) in
  if Rls.accepted ps Rls.projects [Rls.SELECT]
  then (forall p, In p shown <-> In p (projects db))
       /\ List.length shown = List.length (projects db)
  else shown = ProjectsPage.projects st.
Proof.
  intros Hme Hid Hrole shown. subst shown.
  unfold DeployedProjectsPage.fetchProjects.
  destruct (Rls.accepted ps Rls.projects [Rls.SELECT]); [| reflexivity].
  exact (project_manager_sees_every_project uid db st me Hme Hid Hrole).
Qed.

Lemma project_manager_sees_every_project_or_keeps_witness :
  map Projects.id
    (ProjectsPage.projects
       (state_of (DeployedProjectsPage.fetchProjects Sample.repaired "carol"
                    Sample.db_projects ProjectsPage.initial)))
  = ["p8"; "p7"]
  /\ ProjectsPage.projects
       (state_of (DeployedProjectsPage.fetchProjects Rls.shipped "carol"
                    Sample.db_projects ProjectsPage.initial))
     = [].
Proof.
  split; [reflexivity |].
  exact (project_manager_sees_every_project_or_keeps Rls.shipped "carol"
           Sample.db_projects ProjectsPage.initial Sample.carol
           (or_intror (or_intror (or_introl eq_refl))) eq_refl eq_refl).
Defined.

(** The condition on the status in [Spec.in_sync] cannot be dropped.  A
    page that holds the user's one running log, rejected by an admin:
    against a store that evaluates the statements the stop changes no
    row and clears the active log, the start buttons come back, and a
    start stores a second running log. *)
Lemma stop_then_start_on_rejected_log :
  let o1 := TimeTracking.stopTimer Sample.sx "alice" (Some Sample.alice)
              (Sample.now0 + 90000) 7 Sample.db_rejected
              Sample.page_rejected in
  let o2 := TimeTracking.startTimer Sample.sx "alice" (Some Sample.alice)
              (Sample.now0 + 95000) 8 "l9" "t1" (store_of o1) (state_of o1) in
  TimeTracking.running "alice" Sample.db_rejected = [Sample.rejected_log]
  /\ TimeTracking.activeLog Sample.page_rejected = Some Sample.rejected_log
  /\ In (TimeTracking.start_button "t1") (TimeTracking.render (state_of o1))
  /\ List.length (TimeTracking.running "alice" (store_of o2)) = 2%nat.
Proof.
  repeat split; vm_compute; auto.
Qed.
